(** * Data Quality Sentry: a shallow embedding of the check runner, the fixers
    and the report orchestrator.

    Source files embedded here:
    - [checks/run_checks.py]  (mask helpers, check evaluation, failure
      samples, fix stage with its guardrails, null heatmap selection, the
      results document),
    - [checks/fixers.py]      (FixReport and the six fix steps),
    - [run_all.py]            (summary injection into results.json, the
      dataset stem),
    - [tests/test_rules.py]   (its four scenarios, as worked inputs).

    Conventions of the embedding:
    - The tabular library (pandas) is a third-party boundary.  Its
      vectorised operations are written out cell by cell with the semantics
      the source relies on; what depends on its text parsers and printers is
      an operation of the class [PandasLib].
    - A data frame is its columns, each a list of cells.  A finite number in
      a cell is the rational it denotes, so comparisons and clipping are
      exact; the missing value is the cell [NaN].
    - The percentages of the guardrails and the fraction of the [null_rate]
      check are computed by the source in binary64; they are binary64 here
      ([PrimFloat]).
    - A text ([str]) is held as the bytes of its UTF-8 encoding.
    - Code that raises returns [Raise]; code that also writes files runs in
      [io], which keeps the files written before an exception.  The output
      directory is a finite map from relative paths to file contents.  The
      files whose names the program fixes ([results.json], [fix_report.json],
      [cleaned.csv]) are taken to open; whether and where a file opens whose
      name is built from the rule document is an operation of [PandasLib]. *)

From Stdlib Require Import ZArith QArith Qreduction Floats Uint63 Ascii String.
From Stdlib Require Import List Bool Lia Lqa Sorting.Permutation Sorting.Sorted.
From stdpp Require Import gmap strings list pretty sorting.

Close Scope Q_scope.
Set Warnings "-register-all".
Local Open Scope string_scope.
Local Open Scope nat_scope.
Local Open Scope list_scope.

(* ===================================================================== *)
(** ** Python values: exceptions and results                              *)
(* ===================================================================== *)

Module Py.

(** The two guardrails of the fix stage, named by the option they obey. *)
Inductive guardrail := RowImpact | CellChanges.

(** Exceptions the embedded code can raise.  [SystemExit] carries the
    observed and the allowed percentage that the message formats. *)
Inductive exn :=
| AttributeError (obj attr : string)
| KeyError (key : string)
| TypeError (what : string)
| OSError (path : string)
| JSONDecodeError
| SystemExit (g : guardrail) (observed allowed : float).

Inductive result (A : Type) :=
| Ok (a : A)
| Raise (e : exn).
Arguments Ok {A} a.
Arguments Raise {A} e.

Definition bind {A B} (r : result A) (k : A -> result B) : result B :=
  match r with
  | Ok a => k a
  | Raise e => Raise e
  end.

(** The UTF-8 encoding of a code point. *)
Definition utf8 (cp : N) : list ascii :=
  (if cp <? 128 then [ascii_of_N cp]
   else if cp <? 2048 then
     [ascii_of_N (192 + cp / 64); ascii_of_N (128 + cp mod 64)]
   else if cp <? 65536 then
     [ascii_of_N (224 + cp / 4096); ascii_of_N (128 + (cp / 64) mod 64);
      ascii_of_N (128 + cp mod 64)]
   else
     [ascii_of_N (240 + cp / 262144); ascii_of_N (128 + (cp / 4096) mod 64);
      ascii_of_N (128 + (cp / 64) mod 64); ascii_of_N (128 + cp mod 64)])%N.

(** The code points [c] with [c.isspace()], which are the characters that
    [str.strip()] removes: U+0009..U+000D, U+001C..U+0020, U+0085, U+00A0,
    U+1680, U+2000..U+200A, U+2028, U+2029, U+202F, U+205F, U+3000. *)
Definition white_space : list N :=
  [9; 10; 11; 12; 13; 28; 29; 30; 31; 32; 133; 160; 5760;
   8192; 8193; 8194; 8195; 8196; 8197; 8198; 8199; 8200; 8201; 8202;
   8232; 8233; 8239; 8287; 12288]%N.

(** The white space characters, encoded. *)
Definition spaces : list (list ascii) := Eval vm_compute in map utf8 white_space.

(** [l] without the leading [p], when [l] starts with [p]. *)
Fixpoint drop_prefix (p l : list ascii) : option (list ascii) :=
  match p, l with
  | [], _ => Some l
  | a :: p', b :: l' => if Ascii.eqb a b then drop_prefix p' l' else None
  | _ :: _, [] => None
  end.

(** [l] without its first character, when that is one of [ps]. *)
Fixpoint drop_leading (ps : list (list ascii)) (l : list ascii) : option (list ascii) :=
  match ps with
  | [] => None
  | p :: ps' =>
      match drop_prefix p l with
      | Some r => Some r
      | None => drop_leading ps' l
      end
  end.

(** [l] without its leading characters of [ps]; every character removed
    takes one unit of [fuel], so the length of [l] is fuel enough. *)
Fixpoint lstrip_by (ps : list (list ascii)) (fuel : nat) (l : list ascii) : list ascii :=
  match fuel with
  | 0 => l
  | S fuel' =>
      match drop_leading ps l with
      | Some r => lstrip_by ps fuel' r
      | None => l
      end
  end.

(** [s.lstrip()] *)
Definition lstrip (s : string) : string :=
  let l := list_ascii_of_string s in
  string_of_list_ascii (lstrip_by spaces (length l) l).

(** [s.rstrip()]: the same from the end, on the reversed bytes. *)
Definition rstrip (s : string) : string :=
  let l := rev (list_ascii_of_string s) in
  string_of_list_ascii (rev (lstrip_by (map (@rev ascii) spaces) (length l) l)).

(** [s.strip()] *)
Definition strip (s : string) : string := rstrip (lstrip s).

(** The name holds no path separator. *)
Definition plain_name (name : string) : bool :=
  negb (existsb (Ascii.eqb "/") (list_ascii_of_string name)).

(** [PurePath(p).name] of a path that does not end in a separator: what
    follows its last separator. *)
Fixpoint path_name (p : string) : string :=
  match p with
  | EmptyString => EmptyString
  | String c r => if plain_name r then (if Ascii.eqb "/" c then r else p) else path_name r
  end.

(** [int(mask.sum())] of a boolean series. *)
Fixpoint sum_bool (m : list bool) : nat :=
  match m with
  | [] => 0
  | b :: m' => (if b then 1 else 0) + sum_bool m'
  end.

(** [float(n)] for a row or cell count: exact below 2^53 in magnitude. *)
Definition float_of_int (n : Z) : float :=
  if (n <? 0)%Z
  then PrimFloat.opp (PrimFloat.of_uint63 (Uint63.of_Z (- n)))
  else PrimFloat.of_uint63 (Uint63.of_Z n).

(** [a / b] on two integers (true division), for a non-zero [b]. *)
Definition truediv (a b : Z) : float :=
  PrimFloat.div (float_of_int a) (float_of_int b).

End Py.
Import Py.

Notation "x <- e ;; k" := (Py.bind e (fun x => k))
  (at level 100, e at next level, right associativity, only parsing).

(* ===================================================================== *)
(** ** The dataset: cells, series, data frames                            *)
(* ===================================================================== *)

Module Pandas.

(** One cell of the dataset.  [NaN] is the missing-value sentinel; a
    finite numeric value is the rational it denotes (comparisons between
    finite floats and integers are exact); [Ts] is a timestamp in
    nanoseconds since the epoch. *)
Inductive cell :=
| NaN
| Num (q : Q)
| Str (s : string)
| Ts (ns : Z).

Inductive dtype := object | numeric | datetime64.

Record Series := mkSeries {
  s_name : string;
  s_dtype : dtype;
  s_values : list cell
}.

(** A data frame: the length of its index and its columns in order. *)
Record DataFrame := mkDataFrame {
  index : nat;
  data : list Series
}.

#[global] Instance Q_eq_dec : EqDecision Q.
Proof. solve_decision. Defined.
#[global] Instance cell_eq_dec : EqDecision cell.
Proof. solve_decision. Defined.
#[global] Instance dtype_eq_dec : EqDecision dtype.
Proof. solve_decision. Defined.

(** What the source takes from the library's parsers and printers, and
    from the file system its writer opens files in. *)
Class PandasLib := {
  (** [pd.to_numeric(x, errors="coerce")] on a text or timestamp object:
      [None] is NaN. *)
  coerce_numeric : cell -> option Q;
  (** What [pd.to_datetime(.., errors="coerce")] makes of a text or numeric
      object when it parses the column with the format [fmt] -- with
      [None], every value on its own: [None] is NaT. *)
  coerce_datetime : option string -> cell -> option Z;
  (** The format [pd.to_datetime] guesses for a column when it is given
      none (newer versions of the library read it off the first value that
      is not null, older ones guess nothing): [None] when it guesses none. *)
  guess_datetime_format : list cell -> option string;
  (** [str(x)] of a number or a timestamp. *)
  str_scalar : cell -> string;
  (** [to_csv(dir / name)] opens the file for writing: the path, relative
      to the output directory, of the file it creates or truncates; [None]
      when the file does not open (OSError: a directory of the path is
      missing, the name is too long, ...). *)
  open_csv : string -> string -> option string;
  (** A name without path separator is the entry of that name in [dir]. *)
  open_csv_plain : forall dir name p,
    plain_name name = true -> open_csv dir name = Some p -> p = dir +:+ "/" +:+ name;
  (** The file that opens bears the last component of the name. *)
  open_csv_name : forall dir name p,
    open_csv dir name = Some p -> path_name p = path_name name
}.

(** [len(df)] *)
Definition len (df : DataFrame) : nat := index df.

(** [df.columns.tolist()] *)
Definition columns (df : DataFrame) : list string := map s_name (data df).

(** [df[c]]: the first column of that name. *)
Definition getitem (df : DataFrame) (c : string) : option Series :=
  List.find (fun s => bool_decide (s_name s = c)) (data df).

(** [c in df.columns] *)
Definition has_column (df : DataFrame) (c : string) : bool :=
  bool_decide (c ∈ columns df).

(** The columns with the first one named [c] replaced. *)
Fixpoint replace_column (l : list Series) (c : string) (dt : dtype)
    (values : list cell) : list Series :=
  match l with
  | [] => []
  | s :: l' =>
      if bool_decide (s_name s = c)
      then mkSeries c dt values :: l'
      else s :: replace_column l' c dt values
  end.

(** [df[c] = values]: the column of that name is replaced as a whole
    (every use in the source assigns to an existing column). *)
Definition setitem (df : DataFrame) (c : string) (dt : dtype)
    (values : list cell) : DataFrame :=
  mkDataFrame (index df) (replace_column (data df) c dt values).

(** [x.isna()] on one cell. *)
Definition isna (c : cell) : bool := bool_decide (c = NaN).
Definition notna (c : cell) : bool := negb (isna c).

(** The value two cells are compared by when rows are hashed
    ([duplicated]): numbers by value, missing equal to missing. *)
Definition canon (c : cell) : cell :=
  match c with
  | Num q => Num (Qred q)
  | _ => c
  end.

Definition Qlt_bool (x y : Q) : bool := negb (Qle_bool y x).

Section WithLib.
Context `{PandasLib}.

(** [pd.to_numeric(series, errors="coerce")], one cell. *)
Definition to_numeric (c : cell) : option Q :=
  match c with
  | NaN => None
  | Num q => Some q
  | _ => coerce_numeric c
  end.

(** The format [pd.to_datetime(series, format=fmt, ..)] parses the column
    with: the one it is given, else the one it guesses from the column. *)
Definition datetime_format (fmt : option string) (series : list cell) : option string :=
  match fmt with
  | Some f => Some f
  | None => guess_datetime_format series
  end.

(** [pd.to_datetime(series, format=fmt, errors="coerce")], one cell of a
    column that is parsed with the format [fmt]. *)
Definition to_datetime (fmt : option string) (c : cell) : option Z :=
  match c with
  | NaN => None
  | Ts t => Some t
  | _ => coerce_datetime fmt c
  end.

(** [series.astype(str)], one cell: the missing float prints as nan. *)
Definition astype_str (c : cell) : string :=
  match c with
  | NaN => "nan"
  | Str s => s
  | _ => str_scalar c
  end.
End WithLib.

(** [series.isin(allowed)], one cell: numbers are compared by value; the
    missing value of a column is no member, not even when [allowed] holds a
    null. *)
Definition isin (c : cell) (allowed : list cell) : bool :=
  match c with
  | NaN => false
  | _ => bool_decide (canon c ∈ map canon allowed)
  end.

(** [lower, upper = min(lower, upper), max(lower, upper)]: [clip] puts two
    scalar bounds in order before it applies them. *)
Definition ordered_bounds (lower upper : option Q) : option Q * option Q :=
  match lower, upper with
  | Some lo, Some hi => if Qle_bool lo hi then (lower, upper) else (upper, lower)
  | _, _ => (lower, upper)
  end.

(** One coerced value between two ordered bounds: the comparisons are on
    the original value, the lower bound is applied first; NaN stays. *)
Definition clamp (lower upper : option Q) (x : option Q) : option Q :=
  match x with
  | None => None
  | Some v =>
      let r1 := match lower with
                | Some lo => if Qle_bool lo v then v else lo
                | None => v
                end in
      Some match upper with
           | Some hi => if Qle_bool v hi then r1 else hi
           | None => r1
           end
  end.

(** [series.clip(lower, upper)], one coerced value. *)
Definition clip (lower upper : option Q) (x : option Q) : option Q :=
  let '(lo, hi) := ordered_bounds lower upper in
  clamp lo hi x.

(** The cell a coerced numeric value is stored as. *)
Definition of_numeric (x : option Q) : cell :=
  match x with
  | Some q => Num q
  | None => NaN
  end.

(** The key of row [i] over the columns [cols] (all of which exist). *)
Definition cell_at (df : DataFrame) (c : string) (i : nat) : cell :=
  match getitem df c with
  | Some s => nth i (s_values s) NaN
  | None => NaN
  end.

Definition row_key (df : DataFrame) (cols : list string) (i : nat) : list cell :=
  map (fun c => canon (cell_at df c i)) cols.

(** [df.duplicated(subset=cols, keep="first")]: rows are visited in index
    order with the set of keys seen so far; a row whose key was seen is
    marked.  On a frame without rows the mask is empty, whatever [cols];
    otherwise a label of [cols] that is no column raises KeyError. *)
Fixpoint duplicated_from (df : DataFrame) (cols : list string)
    (seen : list (list cell)) (i n : nat) : list bool :=
  match n with
  | 0 => []
  | S n' =>
      let k := row_key df cols i in
      if bool_decide (k ∈ seen)
      then true :: duplicated_from df cols seen (S i) n'
      else false :: duplicated_from df cols (k :: seen) (S i) n'
  end.

Definition duplicated (df : DataFrame) (cols : list string) : result (list bool) :=
  match len df with
  | 0 => Ok []
  | S _ =>
      match List.find (fun c => negb (has_column df c)) cols with
      | Some c => Raise (KeyError c)
      | None => Ok (duplicated_from df cols [] 0 (len df))
      end
  end.

(** [series[mask]]: the entries whose mask entry is true, in order. *)
Fixpoint select (mask : list bool) (l : list cell) : list cell :=
  match mask, l with
  | b :: mask', x :: l' => if b then x :: select mask' l' else select mask' l'
  | _, _ => []
  end.

(** [df.loc[mask]]: the rows whose mask entry is true, in order. *)
Definition loc (df : DataFrame) (mask : list bool) : DataFrame :=
  mkDataFrame (sum_bool mask)
    (map (fun s => mkSeries (s_name s) (s_dtype s) (select mask (s_values s)))
         (data df)).

(** [series.where(~mask, new)], cell by cell: the entries whose mask is
    true take the new value. *)
Fixpoint where_set (mask : list bool) (old new : list cell) : list cell :=
  match mask, old, new with
  | b :: mask', o :: old', v :: new' =>
      (if b then v else o) :: where_set mask' old' new'
  | _, old, _ => old
  end.

(** Whether a value can be stored in a column of that dtype. *)
Definition fits (dt : dtype) (c : cell) : bool :=
  match dt, c with
  | _, NaN => true
  | object, _ => true
  | numeric, Num _ => true
  | datetime64, Ts _ => true
  | _, _ => false
  end.

(** [df.loc[mask, c] = new[mask]]: the masked cells of an existing column
    are overwritten; a column that cannot hold a new value becomes object. *)
Definition loc_setitem (df : DataFrame) (mask : list bool) (c : string)
    (new : list cell) : DataFrame :=
  match getitem df c with
  | None => df
  | Some s =>
      let values := where_set mask (s_values s) new in
      let dt := if forallb (fits (s_dtype s)) values then s_dtype s else object in
      setitem df c dt values
  end.

End Pandas.
Import Pandas.

(* ===================================================================== *)
(** ** Files of the output directory                                      *)
(* ===================================================================== *)

Module Store.

(** A JSON value, as [json.loads] returns it and [json.dump] writes it. *)
Inductive json :=
| JNull
| JBool (b : bool)
| JInt (z : Z)
| JFloat (f : float)
| JStr (s : string)
| JList (l : list json)
| JDict (kv : list (string * json)).

(** The content of a file: a JSON document, a delimited table, or text
    that [json.loads] rejects. *)
Inductive file :=
| JsonText (j : json)
| CsvText (df : DataFrame)
| OtherText (s : string).

(** The output directory maps paths relative to it to file contents. *)
Abbreviation files := (gmap string file).

(** [d.get(k)] on the items of a dictionary. *)
Fixpoint get (kv : list (string * json)) (k : string) : option json :=
  match kv with
  | [] => None
  | (k', v) :: kv' => if String.eqb k' k then Some v else get kv' k
  end.

(** Code that writes files and may raise: the files written before an
    exception stay on disk. *)
Definition io (A : Type) : Type := files -> files * result A.

Definition ret {A} (a : A) : io A := fun fs => (fs, Ok a).

Definition raise {A} (e : exn) : io A := fun fs => (fs, Raise e).

Definition io_bind {A B} (m : io A) (k : A -> io B) : io B :=
  fun fs =>
    match m fs with
    | (fs', Ok a) => k a fs'
    | (fs', Raise e) => (fs', Raise e)
    end.

(** [open(path, "w")] followed by a dump, or [to_csv(path)], for a path
    whose name the program fixes. *)
Definition write (path : string) (content : file) : io unit :=
  fun fs => (<[path := content]> fs, Ok tt).

(** [df.to_csv(dir / name, index=False)] for a name built from the rule
    document: the file that opens is written, and OSError is raised when
    none opens. *)
Definition to_csv `{PandasLib} (dir name : string) (df : DataFrame) : io unit :=
  fun fs =>
    match open_csv dir name with
    | Some path => write path (CsvText df) fs
    | None => (fs, Raise (OSError (dir +:+ "/" +:+ name)))
    end.

End Store.
Import Store.

Notation "x <~ e ;; k" := (Store.io_bind e (fun x => k))
  (at level 100, e at next level, right associativity, only parsing).

(* ===================================================================== *)
(** ** The rule document                                                  *)
(* ===================================================================== *)

Module Rules.

(** One check of the rule document: its [type] string and the optional
    keys the code reads with [chk.get]; [allowed] is a list when it is
    present.  [fill_value = Some NaN] is the key present with a null value,
    and a null among the entries of [allowed] is the entry [NaN]. *)
Record Chk := mkChk {
  ctype : string;
  subset : option (list string);
  min_v : option Q;
  max_v : option Q;
  allowed : option (list cell);
  max_nulls : option Z;
  max_null_frac : option float;
  fill_value : option cell;
  max_age_days : option Z;
  parse_format : option string
}.

Record ColumnRule := mkColumnRule {
  col_name : string;
  col_checks : list Chk
}.

Record TableRule := mkTableRule {
  t_name : option string;
  t_checks : list Chk;
  t_columns : list ColumnRule
}.

(** [t.get("name", "table")] *)
Definition table_name (t : TableRule) : string :=
  match t_name t with
  | Some n => n
  | None => "table"
  end.

(** [subset or df.columns.tolist()]: an absent and an empty subset are
    both falsy. *)
Definition subset_or (sub : option (list string)) (cols : list string) : list string :=
  match sub with
  | Some (c :: l) => c :: l
  | _ => cols
  end.

End Rules.
Import Rules.

(* ===================================================================== *)
(** ** checks/fixers.py                                                   *)
(* ===================================================================== *)

Module Fixers.

(** One entry of [FixReport.actions]. *)
Record Action := mkAction {
  rule : string;
  a_table : string;
  a_column : option string;
  action : string;
  affected : nat;
  notes : string
}.

Record FixReport := mkFixReport {
  actions : list Action;
  total_rows_before : option nat;
  total_rows_after : option nat
}.

(** [FixReport()] *)
Definition new_report : FixReport := mkFixReport [] None None.

(** [report.add(rule=.., table=.., column=.., action=.., affected=.., notes=..)] *)
Definition add (report : FixReport) (rule table : string) (column : option string)
    (action : string) (affected : nat) (notes : string) : FixReport :=
  mkFixReport (actions report ++ [mkAction rule table column action affected notes])
    (total_rows_before report) (total_rows_after report).

Definition json_of_option_string (o : option string) : json :=
  match o with
  | Some s => JStr s
  | None => JNull
  end.

Definition json_of_option_nat (o : option nat) : json :=
  match o with
  | Some n => JInt (Z.of_nat n)
  | None => JNull
  end.

(** [report.to_dict()] *)
Definition to_dict (report : FixReport) : json :=
  JDict [("total_rows_before", json_of_option_nat (total_rows_before report));
         ("total_rows_after", json_of_option_nat (total_rows_after report));
         ("actions",
          JList (map (fun a =>
                   JDict [("rule", JStr (rule a));
                          ("table", JStr (a_table a));
                          ("column", json_of_option_string (a_column a));
                          ("action", JStr (action a));
                          ("affected", JInt (Z.of_nat (affected a)));
                          ("notes", JStr (notes a))])
                 (actions report)))].

(** [before != after] on two text series. *)
Definition ne_str (a b : string) : bool := negb (String.eqb a b).

(** [before != clipped] on two coerced values: NaN differs from everything. *)
Definition ne_num (a b : option Q) : bool :=
  match a, b with
  | Some x, Some y => negb (Qeq_bool x y)
  | _, _ => true
  end.

Section WithLib.
Context `{PandasLib}.

(** [repr(x)] of a cell and [str(l)] of a list, as the notes print them
    (text without quotes or backslashes). *)
Definition repr (c : cell) : string :=
  match c with
  | Str s => "'" +:+ s +:+ "'"
  | _ => astype_str c
  end.

Fixpoint join (sep : string) (l : list string) : string :=
  match l with
  | [] => ""
  | [x] => x
  | x :: l' => x +:+ sep +:+ join sep l'
  end.

Definition str_list (l : list cell) : string :=
  "[" +:+ join ", " (map repr l) +:+ "]".

Definition str_bound (b : option Q) : string :=
  match b with
  | Some q => astype_str (Num q)
  | None => "None"
  end.

(** The body of the loop of [trim_strings] for one column name. *)
Definition trim_column (st : DataFrame * nat) (col : string) : DataFrame * nat :=
  let '(df, affected) := st in
  match getitem df col with
  | Some s =>
      if bool_decide (s_dtype s = object) then
        let before := map astype_str (s_values s) in
        let after := map strip before in
        let changed := zip_with ne_str before after in
        (setitem df col object (map Str after), affected + sum_bool changed)
      else st
  | None => st
  end.

Definition trim_strings (df : DataFrame) (columns : list string)
    (report : FixReport) (table_name : string) : DataFrame * FixReport :=
  let '(df', affected) := fold_left trim_column columns (df, 0) in
  (df',
   if 0 <? affected
   then add report (table_name +:+ "_trim") table_name None "trim_strings" affected ""
   else report).

Definition drop_exact_duplicates (df : DataFrame) (subset : option (list string))
    (report : FixReport) (table_name : string) (quarantine_dir : string)
    : io (DataFrame * FixReport) :=
  let subset := subset_or subset (columns df) in
  match duplicated df subset with
  | Raise e => raise e
  | Ok dup_mask =>
      let affected := sum_bool dup_mask in
      if 0 <? affected then
        _ <~ to_csv quarantine_dir (table_name +:+ "_duplicate_rows.csv")
               (loc df dup_mask) ;;
        ret (loc df (map negb dup_mask),
             add report (table_name +:+ "_duplicate") table_name None
               "drop_duplicates" affected
               ("subset=" +:+ str_list (map Str subset)))
      else ret (df, report)
  end.

Definition clip_range (df : DataFrame) (column : string) (min_val max_val : option Q)
    (report : FixReport) (table_name : string) (quarantine_dir : string)
    : io (DataFrame * FixReport) :=
  match getitem df column with
  | None => ret (df, report)
  | Some col =>
      let series := map to_numeric (s_values col) in
      let before := series in
      let clipped := map (clip min_val max_val) series in
      let changed_mask := zip_with (fun b c => ne_num b c && bool_decide (b <> None))
                            before clipped in
      let affected := sum_bool changed_mask in
      if 0 <? affected then
        _ <~ to_csv quarantine_dir
               (table_name +:+ "_" +:+ column +:+ "_range_clipped.csv")
               (mkDataFrame affected
                  [mkSeries column numeric
                     (select changed_mask (map of_numeric before));
                   mkSeries (column +:+ "_clipped") numeric
                     (select changed_mask (map of_numeric clipped))]) ;;
        ret (setitem df column numeric (map of_numeric clipped),
             add report (table_name +:+ "_" +:+ column +:+ "_range") table_name
               (Some column) "clip" affected
               ("min=" +:+ str_bound min_val +:+ ", max=" +:+ str_bound max_val))
      else ret (df, report)
  end.

Definition enforce_enum (df : DataFrame) (column : string) (allowed : list cell)
    (report : FixReport) (table_name : string) (quarantine_dir : string)
    : io (DataFrame * FixReport) :=
  match getitem df column with
  | None => ret (df, report)
  | Some col =>
      let mask_invalid := map (fun c => negb (isin c allowed)) (s_values col) in
      let affected := sum_bool mask_invalid in
      if 0 <? affected then
        _ <~ to_csv quarantine_dir
               (table_name +:+ "_" +:+ column +:+ "_enum_invalid.csv")
               (mkDataFrame affected
                  [mkSeries column (s_dtype col) (select mask_invalid (s_values col))]) ;;
        ret (df,
             add report (table_name +:+ "_" +:+ column +:+ "_enum") table_name
               (Some column) "quarantine_invalid_enum" affected
               ("allowed=" +:+ str_list allowed))
      else ret (df, report)
  end.

Definition fill_nulls (df : DataFrame) (column : string) (fill_value : cell)
    (report : FixReport) (table_name : string) : DataFrame * FixReport :=
  match getitem df column with
  | None => (df, report)
  | Some col =>
      let mask := map isna (s_values col) in
      let affected := sum_bool mask in
      if 0 <? affected then
        (loc_setitem df mask column (map (fun _ => fill_value) (s_values col)),
         add report (table_name +:+ "_" +:+ column +:+ "_null_fill") table_name
           (Some column) "fillna" affected ("value=" +:+ repr fill_value))
      else (df, report)
  end.

Definition parse_dates (df : DataFrame) (column : string) (fmt : option string)
    (report : FixReport) (table_name : string) (quarantine_dir : string)
    : io (DataFrame * FixReport) :=
  match getitem df column with
  | None => ret (df, report)
  | Some col =>
      let parsed := map (to_datetime (datetime_format fmt (s_values col)))
                      (s_values col) in
      let mask_bad := zip_with (fun p c => bool_decide (p = None) && notna c)
                        parsed (s_values col) in
      let affected_bad := sum_bool mask_bad in
      report' <~ (if 0 <? affected_bad then
                    _ <~ to_csv quarantine_dir
                           (table_name +:+ "_" +:+ column +:+ "_unparsed_dates.csv")
                           (mkDataFrame affected_bad
                              [mkSeries column (s_dtype col)
                                 (select mask_bad (s_values col))]) ;;
                    ret (add report (table_name +:+ "_" +:+ column +:+ "_date_parse")
                           table_name (Some column) "quarantine_unparsed_dates"
                           affected_bad
                           ("format=" +:+ match fmt with
                                          | Some (String c f) => String c f
                                          | _ => "auto"
                                          end))
                  else ret report) ;;
      let mask_ok := map (fun p => bool_decide (p <> None)) parsed in
      if 0 <? sum_bool mask_ok then
        ret (loc_setitem df mask_ok column
               (map (fun p => match p with Some t => Ts t | None => NaN end) parsed),
             report')
      else ret (df, report')
  end.

End WithLib.

End Fixers.
Import Fixers.

(* ===================================================================== *)
(** ** checks/run_checks.py: evaluation                                   *)
(* ===================================================================== *)

Module RunChecks.

Inductive status := pass | fail.

#[global] Instance status_eq_dec : EqDecision status.
Proof. solve_decision. Defined.

(** The [params] dictionary echoed into a check result. *)
Record Params := mkParams {
  p_subset : option (list string);
  p_min : option Q;
  p_max : option Q;
  p_allowed : option (list cell);
  p_max_nulls : option Z;
  p_max_null_frac : option float;
  p_max_age_days : option Z;
  p_parse_format : option string
}.

Definition no_params : Params :=
  mkParams None None None None None None None None.

Record CheckResult := mkCheckResult {
  r_name : string;
  r_table : string;
  r_column : option string;
  r_type : string;
  r_status : status;
  r_count : nat;
  r_params : Params
}.

(** The running totals of the evaluation loop. *)
Record Evaluation := mkEvaluation {
  checks : list CheckResult;
  passed : nat;
  failed : nat
}.

(** [checks.append(r); failed += (status=="fail"); passed += (status=="pass")] *)
Definition append (ev : Evaluation) (r : CheckResult) : Evaluation :=
  mkEvaluation (checks ev ++ [r])
    (passed ev + (if bool_decide (r_status r = pass) then 1 else 0))
    (failed ev + (if bool_decide (r_status r = fail) then 1 else 0)).

(** ["fail" if cnt>0 else "pass"] *)
Definition status_of_count (cnt : nat) : status :=
  if 0 <? cnt then fail else pass.

(** The operand of [|] in [_mask_range]: a boolean series, or the Python
    constant [False] that stands in for an absent bound. *)
Inductive operand :=
| PyBool (b : bool)
| BoolSeries (m : list bool).

(** [a | b] *)
Definition or_ (a b : operand) : operand :=
  match a, b with
  | PyBool x, PyBool y => PyBool (x || y)
  | BoolSeries m, PyBool y => BoolSeries (map (fun x => x || y) m)
  | PyBool x, BoolSeries m => BoolSeries (map (fun y => y || x) m)
  | BoolSeries m1, BoolSeries m2 => BoolSeries (zip_with orb m1 m2)
  end.

(** [m.fillna(False)]: a method of a series, not of a Python bool. *)
Definition fillna_False (m : operand) : result (list bool) :=
  match m with
  | BoolSeries l => Ok l
  | PyBool _ => Raise (AttributeError "bool" "fillna")
  end.

(** [s < v] and [s > v] on a coerced series: NaN compares false. *)
Definition lt_scalar (v : Q) (s : list (option Q)) : list bool :=
  map (fun x => match x with Some q => Qlt_bool q v | None => false end) s.
Definition gt_scalar (v : Q) (s : list (option Q)) : list bool :=
  map (fun x => match x with Some q => Qlt_bool v q | None => false end) s.

Section WithLib.
Context `{PandasLib}.

(** The current UTC time of the run, in nanoseconds since the epoch. *)
Variable utcnow : Z.

Definition _mask_range (series : list cell) (min_v max_v : option Q)
    : result (list bool) :=
  let s := map to_numeric series in
  let m := or_ (match min_v with
                | Some lo => BoolSeries (lt_scalar lo s)
                | None => PyBool false
                end)
               (match max_v with
                | Some hi => BoolSeries (gt_scalar hi s)
                | None => PyBool false
                end) in
  fillna_False m.

Definition _mask_enum (series : list cell) (allowed : list cell) : list bool :=
  map (fun c => negb (isin c allowed)) series.

Definition _mask_duplicate (df : DataFrame) (subset : option (list string))
    : result (list bool) :=
  duplicated df (subset_or subset (columns df)).

Definition ns_per_day : Z := 86400000000000.

(** [(utcnow - parsed).dt.days] of one parsed value: whole days, rounded
    down; NaT gives NaN. *)
Definition age_days (parsed : option Z) : option Z :=
  match parsed with
  | Some t => Some ((utcnow - t) / ns_per_day)%Z
  | None => None
  end.

(** [parsed.isna() & series.notna()] on one row of a column that is parsed
    with the format [fmt]. *)
Definition unparsed (fmt : option string) (c : cell) : bool :=
  match to_datetime fmt c with
  | None => notna c
  | Some _ => false
  end.

(** [age > max_age_days] on one row: NaN compares false. *)
Definition too_old (fmt : option string) (bound : Z) (c : cell) : bool :=
  match age_days (to_datetime fmt c) with
  | Some a => (bound <? a)%Z
  | None => false
  end.

Definition _mask_freshness (series : list cell) (max_age_days : option Z)
    (parse_format : option string) : list bool :=
  let fmt := datetime_format parse_format series in
  match max_age_days with
  | None => map (unparsed fmt) series
  | Some bound => map (fun c => unparsed fmt c || too_old fmt bound c) series
  end.

(** The table-level loop: only [duplicate] checks produce a result. *)
Fixpoint eval_table_checks (df : DataFrame) (tname : string)
    (chks : list Chk) (ev : Evaluation) : result Evaluation :=
  match chks with
  | [] => Ok ev
  | chk :: rest =>
      if String.eqb (ctype chk) "duplicate" then
        mask <- _mask_duplicate df (subset chk) ;;
        let cnt := sum_bool mask in
        let r := mkCheckResult (tname +:+ ".duplicate") tname None "duplicate"
                   (status_of_count cnt) cnt
                   (mkParams (subset chk) None None None None None None None) in
        eval_table_checks df tname rest (append ev r)
      else eval_table_checks df tname rest ev
  end.

(** The body of the column-level loop for one check of column [cname],
    whose series is [col] and whose frame has [nrows] rows. *)
Definition eval_column_check (nrows : nat) (tname cname : string)
    (col : list cell) (chk : Chk) : result CheckResult :=
  let mk st cnt params :=
    mkCheckResult (tname +:+ "." +:+ cname +:+ "." +:+ ctype chk) tname
      (Some cname) (ctype chk) st cnt params in
  if String.eqb (ctype chk) "range" then
    mask <- _mask_range col (min_v chk) (max_v chk) ;;
    let count := sum_bool mask in
    Ok (mk (status_of_count count) count
          (mkParams None (min_v chk) (max_v chk) None None None None None))
  else if String.eqb (ctype chk) "enum" then
    let allowed := default [] (allowed chk) in
    let count := sum_bool (_mask_enum col allowed) in
    Ok (mk (status_of_count count) count
          (mkParams None None None (Some allowed) None None None None))
  else if String.eqb (ctype chk) "null_rate" then
    let nulls := map isna col in
    let count := sum_bool nulls in
    let ok_by_count :=
      match max_nulls chk with
      | None => true
      | Some m => (Z.of_nat count <=? m)%Z
      end in
    let frac := truediv (Z.of_nat count) (Z.of_nat (Nat.max 1 nrows)) in
    let ok_by_frac :=
      match max_null_frac chk with
      | None => true
      | Some f => PrimFloat.leb frac f
      end in
    Ok (mk (if ok_by_count && ok_by_frac then pass else fail) count
          (mkParams None None None None (max_nulls chk) (max_null_frac chk) None None))
  else if String.eqb (ctype chk) "freshness" then
    let mask := _mask_freshness col (max_age_days chk) (parse_format chk) in
    let count := sum_bool mask in
    Ok (mk (match max_age_days chk with
            | Some _ => status_of_count count
            | None => pass
            end) count
          (mkParams None None None None None None (max_age_days chk) (parse_format chk)))
  else Ok (mk pass 0 no_params).

Fixpoint eval_column_checks (nrows : nat) (tname cname : string)
    (col : list cell) (chks : list Chk) (ev : Evaluation) : result Evaluation :=
  match chks with
  | [] => Ok ev
  | chk :: rest =>
      r <- eval_column_check nrows tname cname col chk ;;
      eval_column_checks nrows tname cname col rest (append ev r)
  end.

(** The loop over the column rules of one table: a rule whose column is
    not in the frame is skipped. *)
Fixpoint eval_columns (df : DataFrame) (tname : string)
    (cols : list ColumnRule) (ev : Evaluation) : result Evaluation :=
  match cols with
  | [] => Ok ev
  | col :: rest =>
      match getitem df (col_name col) with
      | None => eval_columns df tname rest ev
      | Some s =>
          ev' <- eval_column_checks (len df) tname (col_name col)
                   (s_values s) (col_checks col) ev ;;
          eval_columns df tname rest ev'
      end
  end.

(** [# Evaluate]: all tables of the rule document, in order. *)
Fixpoint eval_tables (df : DataFrame) (tables : list TableRule)
    (ev : Evaluation) : result Evaluation :=
  match tables with
  | [] => Ok ev
  | t :: rest =>
      ev1 <- eval_table_checks df (table_name t) (t_checks t) ev ;;
      ev2 <- eval_columns df (table_name t) (t_columns t) ev1 ;;
      eval_tables df rest ev2
  end.

Definition evaluate (df : DataFrame) (tables : list TableRule) : result Evaluation :=
  eval_tables df tables (mkEvaluation [] 0 0).

(** The options of the command line the embedded stages read. *)
Record Args := mkArgs {
  viz : bool;
  fix_ : bool;
  fix_dry_run : bool;
  max_impact_pct : float;
  max_cell_changes_pct : float
}.

Definition cleaned_path : string := "cleaned.csv".
Definition fix_report_path : string := "fix_report.json".
Definition quarantine_dir : string := "quarantine".

(** The branch of the fix loop for one check of the column rule [cname]. *)
Definition fix_column_check (tname cname : string) (st : DataFrame * FixReport)
    (chk : Chk) : io (DataFrame * FixReport) :=
  let '(df, report) := st in
  if String.eqb (ctype chk) "range" then
    clip_range df cname (min_v chk) (max_v chk) report tname quarantine_dir
  else if String.eqb (ctype chk) "enum" then
    match allowed chk with
    | Some allowed => enforce_enum df cname allowed report tname quarantine_dir
    | None => ret (df, report)
    end
  else if String.eqb (ctype chk) "null_rate" then
    match fill_value chk with
    | Some v => ret (fill_nulls df cname v report tname)
    | None => ret (df, report)
    end
  else if String.eqb (ctype chk) "freshness" then
    parse_dates df cname (parse_format chk) report tname quarantine_dir
  else ret (df, report).

Fixpoint fix_column_checks (tname cname : string) (chks : list Chk)
    (st : DataFrame * FixReport) : io (DataFrame * FixReport) :=
  match chks with
  | [] => ret st
  | chk :: rest =>
      st' <~ fix_column_check tname cname st chk ;;
      fix_column_checks tname cname rest st'
  end.

Fixpoint fix_columns (tname : string) (cols : list ColumnRule)
    (st : DataFrame * FixReport) : io (DataFrame * FixReport) :=
  match cols with
  | [] => ret st
  | col :: rest =>
      st' <~ fix_column_checks tname (col_name col) (col_checks col) st ;;
      fix_columns tname rest st'
  end.

Fixpoint fix_table_checks (tname : string) (chks : list Chk)
    (st : DataFrame * FixReport) : io (DataFrame * FixReport) :=
  match chks with
  | [] => ret st
  | chk :: rest =>
      if String.eqb (ctype chk) "duplicate" then
        st' <~ drop_exact_duplicates (fst st) (subset chk) (snd st) tname quarantine_dir ;;
        fix_table_checks tname rest st'
      else fix_table_checks tname rest st
  end.

(** The body of [for table in rules.get("tables", [])] of the fix pipeline,
    iterated over the tables in order. *)
Fixpoint fix_tables (tables : list TableRule) (st : DataFrame * FixReport)
    : io (DataFrame * FixReport) :=
  match tables with
  | [] => ret st
  | table :: rest =>
      let tname := table_name table in
      let st1 := trim_strings (fst st) (columns (fst st)) (snd st) tname in
      st2 <~ fix_table_checks tname (t_checks table) st1 ;;
      st3 <~ fix_columns tname (t_columns table) st2 ;;
      fix_tables rest st3
  end.

(** [sum(a.get("affected", 0) for a in rep.get("actions", [])
         if a.get("action") != "drop_duplicates")] *)
Definition cell_changes (report : FixReport) : nat :=
  sum_list (map affected
              (List.filter (fun a => negb (String.eqb (action a) "drop_duplicates"))
                 (actions report))).

(** [impact_pct = 100.0 * (delta / report.total_rows_before)] *)
Definition impact_pct (report : FixReport) (before : nat) : float :=
  let after := default 0 (total_rows_after report) in
  let delta := (Z.of_nat before - Z.of_nat after)%Z in
  PrimFloat.mul 100 (truediv delta (Z.of_nat before)).

(** [cell_pct = 100.0 * (cell_changes / total_cells)] *)
Definition cell_pct (report : FixReport) (total_cells : nat) : float :=
  PrimFloat.mul 100 (truediv (Z.of_nat (cell_changes report)) (Z.of_nat total_cells)).

(** [total_cells = int(report.total_rows_before * len(df.columns))] *)
Definition total_cells (before : nat) (df : DataFrame) : nat :=
  before * length (columns df).

(** The cell-change test: [if total_cells: ... raise SystemExit(...)]. *)
Definition cell_guardrail (args : Args) (report : FixReport) (before : nat)
    (df : DataFrame) : io unit :=
  match total_cells before df with
  | 0 => ret tt
  | S _ as cells =>
      if PrimFloat.ltb (max_cell_changes_pct args) (cell_pct report cells)
      then raise (SystemExit CellChanges (cell_pct report cells)
                    (max_cell_changes_pct args))
      else ret tt
  end.

(** [# Guardrails]: the block that ends with the dump of the report. *)
Definition guardrails (args : Args) (report : FixReport) (df : DataFrame) : io unit :=
  match total_rows_before report with
  | Some (S _ as before) =>
      if PrimFloat.ltb (max_impact_pct args) (impact_pct report before) then
        raise (SystemExit RowImpact (impact_pct report before) (max_impact_pct args))
      else
        let rep := to_dict report in
        _ <~ cell_guardrail args report before df ;;
        write fix_report_path (JsonText rep)
  | _ => ret tt
  end.

(** [report = FixReport(); report.total_rows_before = int(len(df))] *)
Definition initial_report (df : DataFrame) : FixReport :=
  mkFixReport (actions new_report) (Some (len df)) (total_rows_after new_report).

(** [report.total_rows_after = int(len(df))] after the loop over the tables. *)
Definition final_report (st : DataFrame * FixReport) : FixReport :=
  mkFixReport (actions (snd st)) (total_rows_before (snd st)) (Some (len (fst st))).

(** [# FIX PIPELINE]: the frame that the later stages see. *)
Definition fix_stage (args : Args) (tables : list TableRule) (df : DataFrame)
    : io DataFrame :=
  if fix_ args || fix_dry_run args then
    st <~ fix_tables tables (df, initial_report df) ;;
    let df := fst st in
    _ <~ guardrails args (final_report st) df ;;
    _ <~ (if fix_ args && negb (fix_dry_run args)
          then write cleaned_path (CsvText df)
          else ret tt) ;;
    ret df
  else ret df.

(** *** Null heatmap *)

(** [c["column"] for c in checks if c["type"]=="null_rate" and
     c["status"]=="fail" and c.get("column")] *)
Fixpoint failing_null_cols (checks : list CheckResult) : list string :=
  match checks with
  | [] => []
  | c :: rest =>
      match r_column c with
      | Some (String a col) =>
          if String.eqb (r_type c) "null_rate" && bool_decide (r_status c = fail)
          then String a col :: failing_null_cols rest
          else failing_null_cols rest
      | _ => failing_null_cols rest
      end
  end.

(** [head.isna().mean()] of one column: the fraction of missing values,
    NaN for an empty column. *)
Definition mean_isna (values : list cell) : option Q :=
  match length values with
  | 0 => None
  | S _ as n => Some (Z.of_nat (sum_bool (map isna values)) # Pos.of_nat n)%Q
  end.

(** The order of [sort_values(ascending=False)]: larger first, NaN last. *)
Definition frac_geb (a b : option Q) : bool :=
  match a, b with
  | Some x, Some y => Qle_bool y x
  | _, None => true
  | None, Some _ => false
  end.

Fixpoint insert_desc (x : string * option Q) (l : list (string * option Q))
    : list (string * option Q) :=
  match l with
  | [] => [x]
  | y :: l' => if frac_geb (snd x) (snd y) then x :: l else y :: insert_desc x l'
  end.

(** [fracs.sort_values(ascending=False)]; the library leaves the order of
    equal fractions open, this sort keeps their column order. *)
Definition sort_values_desc (l : list (string * option Q)) : list (string * option Q) :=
  fold_right insert_desc [] l.

(** [fracs[c] > 0.0] *)
Definition positive (f : option Q) : bool :=
  match f with
  | Some q => Qlt_bool 0 q
  | None => false
  end.

Definition head_fracs (df : DataFrame) : list (string * option Q) :=
  map (fun s => (s_name s, mean_isna (take 1000 (s_values s)))) (data df).

(** The candidate columns before the final filter and cut. *)
Definition candidate_cols (checks : list CheckResult) (df : DataFrame) : list string :=
  match failing_null_cols checks with
  | [] => map fst (List.filter (fun p => positive (snd p)) (sort_values_desc (head_fracs df)))
  | null_cols => null_cols
  end.

(** [null_cols = [c for c in null_cols if c in df.columns][:14]] *)
Definition heatmap_cols (checks : list CheckResult) (df : DataFrame) : list string :=
  take 14 (List.filter (has_column df) (candidate_cols checks df)).

(** [grid]: one row of 0/1 per row of [df.head(10)]. *)
Definition heatmap_grid (df : DataFrame) (null_cols : list string) : list (list nat) :=
  map (fun i => map (fun c => if isna (cell_at df c i) then 1 else 0) null_cols)
      (seq 0 (Nat.min 10 (len df))).

(** [viz]: [None] when the option is off. *)
Definition viz_data (args : Args) (checks : list CheckResult) (df : DataFrame)
    : option (list string * list (list nat)) :=
  if viz args then
    let null_cols := heatmap_cols checks df in
    Some (null_cols, heatmap_grid df null_cols)
  else None.

End WithLib.

End RunChecks.

Import RunChecks.

(* ===================================================================== *)
(** ** run_all.py: the summary block                                      *)
(* ===================================================================== *)

Module RunAll.

(** The options and derived values of one run of the orchestrator:
    [args.source], [args.fix], the installation root, [_safe_stem(args.source)]
    and [_timestamp()]. *)
Record Run := mkRun {
  source : option string;
  fix_opt : bool;
  root : string;
  dataset_stem : string;
  stamp : string
}.

Definition canonical_results : string := "results.json".

(** ["fix" if args.fix else "plain"] *)
Definition mode (r : Run) : string := if fix_opt r then "fix" else "plain".

(** [f"{dataset_stem}__{stamp}__{mode}.json"] *)
Definition descriptive_results (r : Run) : string :=
  dataset_stem r +:+ "__" +:+ stamp r +:+ "__" +:+ mode r +:+ ".json".

(** [args.source or str(Path(root) / "data" / "sample.csv")] *)
Definition dataset (r : Run) : string :=
  match source r with
  | Some (String c s) => String c s
  | _ => root r +:+ "/data/sample.csv"
  end.

(** [json.loads(path.read_text())] *)
Definition loads (f : file) : result json :=
  match f with
  | JsonText j => Ok j
  | _ => Raise JSONDecodeError
  end.

(** [for c in checks]: what iterating a JSON value yields. *)
Definition iter (j : json) : result (list json) :=
  match j with
  | JList l => Ok l
  | JDict kv => Ok (map (fun p => JStr (fst p)) kv)
  | JStr s => Ok (map (fun c => JStr (String c EmptyString)) (list_ascii_of_string s))
  | _ => Raise (TypeError "object is not iterable")
  end.

(** [c.get(k, default)] *)
Definition c_get (c : json) (k : string) (default : json) : result json :=
  match c with
  | JDict kv => Ok (match get kv k with Some v => v | None => default end)
  | _ => Raise (AttributeError "object" "get")
  end.

(** [v == s] for a text constant [s]. *)
Definition eq_str (v : json) (s : string) : bool :=
  match v with
  | JStr s' => String.eqb s' s
  | _ => false
  end.

(** [[c for c in checks if c.get("status") == st]] *)
Fixpoint with_status (checks : list json) (st : string) : result (list json) :=
  match checks with
  | [] => Ok []
  | c :: rest =>
      v <- c_get c "status" JNull ;;
      l <- with_status rest st ;;
      Ok (if eq_str v st then c :: l else l)
  end.

(** The sort key [c.get("count", 0)] of a dictionary, when it is an
    integer (a JSON boolean is the integer 0 or 1). *)
Definition count_key (c : json) : option Z :=
  match c_get c "count" (JInt 0) with
  | Ok (JInt z) => Some z
  | Ok (JBool b) => Some (if b then 1 else 0)%Z
  | _ => None
  end.

Definition key_or_0 (c : json) : Z := default 0%Z (count_key c).

(** Insertion of [x] before the first entry whose key is not larger. *)
Fixpoint insert_by_count (x : json) (l : list json) : list json :=
  match l with
  | [] => [x]
  | y :: l' =>
      if (key_or_0 x <? key_or_0 y)%Z then y :: insert_by_count x l' else x :: l
  end.

(** [sorted(l, key=lambda c: c.get("count", 0), reverse=True)]: the stable
    sort by descending key.  Keys are compared only when there are two
    entries or more.  Integer keys are what the check runner writes; for a
    longer list with a key of another kind this definition raises, although
    the source could still order floats or texts among themselves. *)
Definition sorted_by_count_desc (l : list json) : result (list json) :=
  if forallb (fun c => bool_decide (is_Some (count_key c))) l || (length l <=? 1)
  then Ok (fold_right insert_by_count [] l)
  else Raise (TypeError "keys are not ordered").

(** [data[k] = v] on the items of a dictionary. *)
Fixpoint set_item (kv : list (string * json)) (k : string) (v : json)
    : list (string * json) :=
  match kv with
  | [] => [(k, v)]
  | (k', v') :: kv' =>
      if String.eqb k' k then (k, v) :: kv' else (k', v') :: set_item kv' k v
  end.

(** The body of the [try] block: the document to write back, if any.  A
    loaded value that is no dictionary either holds the word already or
    raises at [data.get]; nothing is written for it. *)
Definition with_summary (r : Run) (f : file) : result (option json) :=
  data <- loads f ;;
  match data with
  | JDict kv =>
      match get kv "summary" with
      | Some _ => Ok None
      | None =>
          checks <- iter (match get kv "checks" with Some c => c | None => JList [] end) ;;
          passing <- with_status checks "pass" ;;
          failing <- with_status checks "fail" ;;
          ordered <- sorted_by_count_desc failing ;;
          let top_failing := take 5 ordered in
          Ok (Some (JDict (set_item kv "summary"
                (JDict [("dataset", JStr (dataset r));
                        ("mode", JStr (mode r));
                        ("timestamp", JStr (stamp r));
                        ("passed", JInt (Z.of_nat (length passing)));
                        ("failed", JInt (Z.of_nat (length failing)));
                        ("top_failing", JList top_failing)]))))
      end
  | _ => Ok None
  end.

(** [# Insert minimal summary into results.json and copy to descriptive
    filename]: every exception of the block is swallowed. *)
Definition summarise (r : Run) (fs : files) : files :=
  match fs !! canonical_results with
  | None => fs
  | Some f =>
      let fs1 := match with_summary r f with
                 | Ok (Some data) => <[canonical_results := JsonText data]> fs
                 | _ => fs
                 end in
      match fs1 !! canonical_results with
      | Some f1 => <[descriptive_results r := f1]> fs1
      | None => fs1
      end
  end.

End RunAll.

(* ===================================================================== *)
(** ** A reference instance of the library operations                     *)
(* ===================================================================== *)

(** The text parsers used for the worked inputs.  On decimal integers, on
    ISO calendar dates and on words that are neither they agree with the
    library; every other text they reject, some of which the library reads.
    They guess no date format, and a file opens when its name holds no path
    separator: the output directory has no other directories than the ones
    the runner makes. *)
Module Reference.

Definition digit (c : ascii) : option Z :=
  let n := nat_of_ascii c in
  if (48 <=? n) && (n <=? 57) then Some (Z.of_nat (n - 48)) else None.

Fixpoint digits (s : string) (acc : Z) : option Z :=
  match s with
  | EmptyString => Some acc
  | String c s' =>
      match digit c with
      | Some d => digits s' (10 * acc + d)%Z
      | None => None
      end
  end.

Definition parse_int (s : string) : option Z :=
  match s with
  | EmptyString => None
  | String "-" (String c s') => option_map Z.opp (digits (String c s') 0)
  | String "-" EmptyString => None
  | _ => digits s 0
  end.

Definition is_leap (y : Z) : bool :=
  ((y mod 4 =? 0) && negb (y mod 100 =? 0) || (y mod 400 =? 0))%Z.

Definition days_in_month (y m : Z) : Z :=
  (if m =? 2 then (if is_leap y then 29 else 28)
   else if (m =? 4) || (m =? 6) || (m =? 9) || (m =? 11) then 30 else 31)%Z.

(** Days from 1970-01-01 to the civil date [y-m-d]. *)
Definition days_from_civil (y m d : Z) : Z :=
  (let y' := if m <=? 2 then y - 1 else y in
   let era := y' / 400 in
   let yoe := y' - era * 400 in
   let doy := (153 * (if 2 <? m then m - 3 else m + 9) + 2) / 5 + d - 1 in
   let doe := yoe * 365 + yoe / 4 - yoe / 100 + doy in
   era * 146097 + doe - 719468)%Z.

(** [YYYY-MM-DD] as nanoseconds since the epoch. *)
Definition parse_iso_date (s : string) : option Z :=
  match s with
  | String y1 (String y2 (String y3 (String y4 (String "-"
      (String m1 (String m2 (String "-" (String d1 (String d2 EmptyString))))))))) =>
      match digits (String y1 (String y2 (String y3 (String y4 EmptyString)))) 0,
            digits (String m1 (String m2 EmptyString)) 0,
            digits (String d1 (String d2 EmptyString)) 0 with
      | Some y, Some m, Some d =>
          if ((1 <=? m) && (m <=? 12) && (1 <=? d) && (d <=? days_in_month y m))%Z
          then Some (days_from_civil y m d * 86400000000000)%Z
          else None
      | _, _, _ => None
      end
  | _ => None
  end.

Definition open_plain (dir name : string) : option string :=
  if plain_name name then Some (dir +:+ "/" +:+ name) else None.

Lemma plain_name_cons c r :
  plain_name (String c r) = negb (Ascii.eqb "/" c) && plain_name r.
Proof. unfold plain_name. cbn [list_ascii_of_string existsb]. apply negb_orb. Qed.

Lemma plain_name_app s x : plain_name (s +:+ x) = plain_name s && plain_name x.
Proof.
  induction s as [|c r IH]; [reflexivity|].
  change (String c r +:+ x) with (String c (r +:+ x)).
  rewrite !plain_name_cons, IH. apply andb_assoc.
Qed.

Lemma plain_path_name (s : string) : plain_name s = true -> path_name s = s.
Proof.
  destruct s as [|c r]; [reflexivity|]. rewrite plain_name_cons.
  intros [Hc Hr]%andb_true_iff. cbn [path_name]. rewrite Hr.
  apply negb_true_iff in Hc. rewrite Hc. reflexivity.
Qed.

Lemma path_name_app (s x : string) :
  plain_name x = true -> path_name (s +:+ x) = path_name s +:+ x.
Proof.
  intros Hx. induction s as [|c r IH]; [apply plain_path_name, Hx|].
  change (String c r +:+ x) with (String c (r +:+ x)).
  cbn [path_name]. rewrite plain_name_app, Hx, andb_true_r. destruct (plain_name r).
  - destruct (Ascii.eqb "/" c); reflexivity.
  - exact IH.
Qed.

Lemma path_name_dir (dir name : string) :
  plain_name name = true -> path_name (dir +:+ "/" +:+ name) = name.
Proof.
  intros Hname. induction dir as [|c d IH].
  - change ("" +:+ "/" +:+ name) with (String "/" name).
    cbn [path_name]. rewrite Hname. reflexivity.
  - change (String c d +:+ "/" +:+ name) with (String c (d +:+ "/" +:+ name)).
    cbn [path_name]. rewrite plain_name_app.
    change ("/" +:+ name) with (String "/" name).
    rewrite (plain_name_cons "/" name), andb_false_r. exact IH.
Qed.

Lemma open_plain_plain dir name p :
  plain_name name = true -> open_plain dir name = Some p -> p = dir +:+ "/" +:+ name.
Proof. unfold open_plain. intros ->. intros [= <-]. reflexivity. Qed.

Lemma open_plain_name dir name p :
  open_plain dir name = Some p -> path_name p = path_name name.
Proof.
  unfold open_plain. destruct (plain_name name) eqn:Hplain; [|discriminate].
  intros [= <-]. rewrite path_name_dir, plain_path_name by exact Hplain. reflexivity.
Qed.

Definition lib : PandasLib := {|
    coerce_numeric c :=
      match c with
      | Str s => option_map inject_Z (parse_int s)
      | _ => None
      end;
    coerce_datetime fmt c :=
      match c with
      | Str s => parse_iso_date s
      | _ => None
      end;
    guess_datetime_format series := None;
    str_scalar c :=
      match c with
      | Num q =>
          if (Qden q =? 1)%positive then pretty (Qnum q)
          else pretty (Qnum q) +:+ "/" +:+ pretty (Zpos (Qden q))
      | Ts t => pretty t
      | Str s => s
      | NaN => "nan"
      end;
    open_csv := open_plain;
    open_csv_plain := open_plain_plain;
    open_csv_name := open_plain_name
  |}.

End Reference.

(* ===================================================================== *)
(** ** Vocabulary of the statements                                       *)
(* ===================================================================== *)

Module Spec.

(** Two cells hold identical values: the same text, the same timestamp,
    numbers of the same value, or both missing. *)
Definition identical (a b : cell) : Prop := canon a = canon b.

(** Row [i] repeats an earlier row on the columns [S]. *)
Definition repeats_earlier (df : DataFrame) (S : list string) (i : nat) : Prop :=
  exists j, j < i /\ forall c, c ∈ S -> identical (cell_at df c j) (cell_at df c i).

(** While [duplicated] visits the rows, the keys seen so far are those of
    the rows before [i]. *)
Definition seen_before (df : DataFrame) (cols : list string)
    (seen : list (list cell)) (i : nat) : Prop :=
  forall k, k ∈ seen <-> exists j, j < i /\ row_key df cols j = k.

(** The number of entries of a mask that are set. *)
Definition flagged_rows (mask : list bool) : nat := count_occ bool_dec mask true.

(** The rows a report says were dropped: the sum of [affected] over its
    [drop_duplicates] actions. *)
Definition rows_dropped (report : FixReport) : nat :=
  sum_list (map affected
              (filter (fun a => action a = "drop_duplicates") (actions report))).

(** The text ends with the suffix. *)
Definition ends_with (suffix s : string) : bool :=
  bool_decide (list_ascii_of_string suffix `suffix_of` list_ascii_of_string s).

(** A JSON value is a check result of the given status. *)
Definition has_status (st : string) (c : json) : bool :=
  match c with
  | JDict kv =>
      match get kv "status" with
      | Some (JStr s) => String.eqb s st
      | _ => false
      end
  | _ => false
  end.

(** The value of the [count] field of a check result when it is an
    integer (a JSON boolean counts as 0 or 1); a result without the field
    counts as 0. *)
Definition count_field (c : json) : option Z :=
  match c with
  | JDict kv =>
      match get kv "count" with
      | None => Some 0%Z
      | Some (JInt z) => Some z
      | Some (JBool b) => Some (if b then 1 else 0)%Z
      | Some _ => None
      end
  | _ => None
  end.

(** A JSON value is a dictionary whose count, when present, is an integer:
    what the check runner writes for every check. *)
Definition is_check_result (c : json) : Prop :=
  (exists kv, c = JDict kv) /\ is_Some (count_field c).

(** The count of a check result: its [count] field, 0 without one. *)
Definition count_of (c : json) : Z := default 0%Z (count_field c).

(** [l] is in descending order of count. *)
Definition descending (l : list json) : Prop :=
  StronglySorted (fun a b => (count_of b <= count_of a)%Z) l.

(** [l'] keeps the entries of equal count in the order they have in [l]. *)
Definition keeps_ties (l l' : list json) : Prop :=
  forall k, List.filter (fun c => (count_of c =? k)%Z) l'
            = List.filter (fun c => (count_of c =? k)%Z) l.

(** The column a check result contributes to the heatmap: that of a
    failing [null_rate] check with a non-empty column name. *)
Definition failing_null_col (r : CheckResult) : option string :=
  match r_column r with
  | Some c =>
      if bool_decide (r_type r = "null_rate" /\ r_status r = fail /\ c <> "")
      then Some c else None
  | None => None
  end.

(** [l] is in descending order of fraction. *)
Definition descending_fracs (l : list (string * option Q)) : Prop :=
  StronglySorted (fun a b => frac_geb a.2 b.2 = true) l.

(** A piece of the fix pipeline leaves the report file as it is. *)
Definition keeps_report_file {A} (m : io A) : Prop :=
  forall fs, (m fs).1 !! fix_report_path = fs !! fix_report_path.

(** A piece of the fix pipeline started in [st] accounts for every row: the
    rows of the frame and the rows reported as dropped add up to what they
    were, and the recorded row count of the start is kept. *)
Definition accounts_rows (st : DataFrame * FixReport)
    (m : io (DataFrame * FixReport)) : Prop :=
  forall fs st', (m fs).2 = Ok st' ->
    len st'.1 + rows_dropped st'.2 = len st.1 + rows_dropped st.2
    /\ total_rows_before st'.2 = total_rows_before st.2.

Definition step_ok (st : DataFrame * FixReport)
    (m : io (DataFrame * FixReport)) : Prop :=
  keeps_report_file m /\ accounts_rows st m.

(** A piece of the fix pipeline started in [st] returns, and the frame it
    returns has the column labels of [st]. *)
Definition returns (st : DataFrame * FixReport)
    (m : io (DataFrame * FixReport)) : Prop :=
  forall fs, exists fs' st', m fs = (fs', Ok st') /\ columns st'.1 = columns st.1.

(** A piece of the runner leaves the file at [target] as it is. *)
Definition keeps_file {A} (target : string) (m : io A) : Prop :=
  forall fs, (m fs).1 !! target = fs !! target.

(** The endings of the names of the quarantine files. *)
Definition quarantine_suffixes : list string :=
  ["_duplicate_rows.csv"; "_range_clipped.csv"; "_enum_invalid.csv";
   "_unparsed_dates.csv"].

(** The last component of the path has none of these endings: the path is
    that of no quarantine file. *)
Definition other_file (target : string) : Prop :=
  Forall (fun suffix => ends_with suffix (path_name target) = false)
    quarantine_suffixes.

(** The names of the quarantine files the fix loop may write for a table:
    the one of its duplicate rows and three for every column rule. *)
Definition column_quarantine_names (tname cname : string) : list string :=
  [tname +:+ "_" +:+ cname +:+ "_range_clipped.csv";
   tname +:+ "_" +:+ cname +:+ "_enum_invalid.csv";
   tname +:+ "_" +:+ cname +:+ "_unparsed_dates.csv"].

Definition quarantine_names (t : TableRule) : list string :=
  (table_name t +:+ "_duplicate_rows.csv")
  :: flat_map (fun col => column_quarantine_names (table_name t) (col_name col))
              (t_columns t).


(** The subset of every [duplicate] check names columns of the dataset. *)
Definition subsets_exist (tables : list TableRule) (cols : list string) : Prop :=
  Forall (fun t =>
            Forall (fun chk => ctype chk = "duplicate" ->
                      Forall (fun c => c ∈ cols) (subset_or (subset chk) cols))
                   (t_checks t))
         tables.

#[global] Instance subsets_exist_dec tables cols : Decision (subsets_exist tables cols).
Proof. unfold subsets_exist. apply _. Defined.

Section WithLib.
Context `{PandasLib}.
Variable utcnow : Z.

(** The value was present and did not parse as a date. *)
Definition parse_failed (fmt : option string) (c : cell) : Prop :=
  c <> NaN /\ to_datetime fmt c = None.

(** The value parsed, and its age in whole days exceeds [bound]. *)
Definition older_than (fmt : option string) (bound : Z) (c : cell) : Prop :=
  exists t, to_datetime fmt c = Some t /\ (bound < (utcnow - t) / 86400000000000)%Z.

#[global] Instance parse_failed_dec fmt c : Decision (parse_failed fmt c).
Proof. unfold parse_failed. apply _. Defined.

#[global] Instance older_than_dec fmt bound c : Decision (older_than fmt bound c).
Proof.
  unfold older_than. destruct (to_datetime fmt c) as [t|].
  - destruct (decide (bound < (utcnow - t) / 86400000000000)%Z) as [Hlt|Hge].
    + left. exists t. split; [reflexivity | exact Hlt].
    + right. intros (t' & Ht & Hlt). injection Ht as <-. exact (Hge Hlt).
  - right. intros (t' & Ht & _). discriminate Ht.
Defined.

(** The quarantine files of the rule document open for writing. *)
Definition quarantine_opens (tables : list TableRule) : Prop :=
  Forall (fun t => Forall (fun name => is_Some (open_csv quarantine_dir name))
                     (quarantine_names t))
         tables.

#[global] Instance quarantine_opens_dec tables : Decision (quarantine_opens tables).
Proof. unfold quarantine_opens. apply _. Defined.

(** The cell needs trimming: its text has leading or trailing white space. *)
Definition untrimmed (c : cell) : Prop :=
  c <> NaN /\ strip (astype_str c) <> astype_str c.

#[global] Instance untrimmed_dec c : Decision (untrimmed c).
Proof. unfold untrimmed. apply _. Defined.

(** What [trim_strings] makes of one column, and how many of its cells it
    counts as changed. *)
Definition trimmed (s : Series) : Series :=
  if bool_decide (s_dtype s = object)
  then mkSeries (s_name s) object (map (fun x => Str (strip (astype_str x))) (s_values s))
  else s.

Definition trim_count (s : Series) : nat :=
  if bool_decide (s_dtype s = object)
  then length (filter untrimmed (s_values s))
  else 0.

End WithLib.

End Spec.

(* ===================================================================== *)
(** ** Worked inputs                                                      *)
(* ===================================================================== *)

(** Small datasets and rule documents, those of [tests/test_rules.py] among
    them, on which the statements below are evaluated. *)
Module Examples.

Definition int (z : Z) : cell := Num (inject_Z z).

Definition duplicate_on (subset : option (list string)) : Chk :=
  mkChk "duplicate" subset None None None None None None None None.

Definition range_of (lo hi : option Q) : Chk :=
  mkChk "range" None lo hi None None None None None None.

Definition null_rate_of (max_nulls : option Z) (max_null_frac : option float) : Chk :=
  mkChk "null_rate" None None None None max_nulls max_null_frac None None None.

Definition freshness_of (max_age_days : option Z) : Chk :=
  mkChk "freshness" None None None None None None None max_age_days None.

(** [id,amount] of [test_duplicate_detection]. *)
Definition orders : DataFrame :=
  mkDataFrame 4
    [mkSeries "id" numeric [int 1; int 1; int 2; int 3];
     mkSeries "amount" numeric [int 10; int 15; int 20; int 25]].

(** [id,notes] of [test_null_rate]. *)
Definition tickets : DataFrame :=
  mkDataFrame 4
    [mkSeries "id" numeric [int 1; int 2; int 3; int 4];
     mkSeries "notes" object [Str "a"; NaN; Str "b"; NaN]].

(** [id,amount] of [test_range_validation] and [id,status] of
    [test_enum_validation]. *)
Definition amounts : DataFrame :=
  mkDataFrame 4
    [mkSeries "id" numeric [int 1; int 2; int 3; int 4];
     mkSeries "amount" numeric [int 5; int 15; int 25; int (-3)]].

Definition statuses : DataFrame :=
  mkDataFrame 4
    [mkSeries "id" numeric [int 1; int 2; int 3; int 4];
     mkSeries "status" object
       [Str "new"; Str "processing"; Str "invalid"; Str "shipped"]].

Definition enum_rules : list TableRule :=
  [mkTableRule (Some "test") []
     [mkColumnRule "status"
        [mkChk "enum" None None None
           (Some [Str "new"; Str "processing"; Str "shipped"])
           None None None None None]]].

(** A text column with one value that is no number. *)
Definition payments : DataFrame :=
  mkDataFrame 2 [mkSeries "amount" object [Str "abc"; Str "25"]].

(** A date column: two values that are no dates, one old date. *)
Definition events : DataFrame :=
  mkDataFrame 3 [mkSeries "seen" object [Str "not-a-date"; Str "soon"; Str "2024-02-29"]].

(** Five rows of four columns, one amount above the bound. *)
Definition ledger : DataFrame :=
  mkDataFrame 5
    [mkSeries "id" numeric [int 1; int 2; int 3; int 4; int 5];
     mkSeries "amount" numeric [int 5; int 15; int 25; int 7; int 9];
     mkSeries "status" object [Str "new"; Str "shipped"; Str "new"; NaN; Str "new"];
     mkSeries "notes" object [Str "a"; Str "b"; Str "c"; Str "d"; Str "e"]].

(** A text column with white space around two values and one missing
    value, next to a numeric column. *)
Definition contacts : DataFrame :=
  mkDataFrame 3
    [mkSeries "name" object [Str " ann "; NaN; Str "bob"];
     mkSeries "age" numeric [int 31; int 40; NaN]].

Definition ledger_rules : list TableRule :=
  [mkTableRule (Some "ledger") []
     [mkColumnRule "amount" [range_of (Some 0%Q) (Some 20%Q)]]].

(** 2024-03-10 00:00 UTC. *)
Definition march_10 : Z := 1710028800000000000.

Definition empty_evaluation : Evaluation := mkEvaluation [] 0 0.

Definition range_rules : list TableRule :=
  [mkTableRule (Some "test") []
     [mkColumnRule "amount" [range_of (Some 0%Q) (Some 20%Q)]]].

Definition unbounded_range_rules : list TableRule :=
  [mkTableRule (Some "test") [] [mkColumnRule "amount" [range_of None None]]].

Definition duplicate_rules : list TableRule :=
  [mkTableRule (Some "test") [duplicate_on (Some ["id"])] []].

(** Two [null_rate] checks on one column, both failing on [tickets]. *)
Definition null_rate_rules : list TableRule :=
  [mkTableRule (Some "test") []
     [mkColumnRule "notes" [null_rate_of (Some 0%Z) None;
                            null_rate_of None (Some 0.25%float)]]].

(** [--fix-dry-run] with the default thresholds, and [--fix]. *)
Definition dry_run : Args := mkArgs true false true 2%float 5%float.
Definition real_fix : Args := mkArgs true true false 2%float 5%float.

(** [results.json] of a plain run with three failing checks and one
    passing check, and the run that summarises it. *)
Definition check_json (name st : string) (count : Z) : json :=
  JDict [("name", JStr name); ("status", JStr st); ("count", JInt count)].

Definition results_kv : list (string * json) :=
  [("source", JStr "orders.csv");
   ("passed", JInt 1);
   ("failed", JInt 3);
   ("checks", JList [check_json "t.a.range" "fail" 2;
                     check_json "t.b.enum" "pass" 0;
                     check_json "t.duplicate" "fail" 7;
                     check_json "t.c.null_rate" "fail" 2]);
   ("failure_samples", JDict [])].

Definition plain_run : RunAll.Run :=
  RunAll.mkRun (Some "orders.csv") false "/opt/dqs" "orders" "20250101-1200".

(** The assertions of one test: there is a check of the given type, and
    the first one has this status and count. *)
Definition first_of_type (ty : string) (ev : result Evaluation)
    : option (status * nat) :=
  match ev with
  | Ok ev =>
      match List.filter (fun r => String.eqb (r_type r) ty) (checks ev) with
      | r :: _ => Some (r_status r, r_count r)
      | [] => None
      end
  | Raise _ => None
  end.

End Examples.

(* ===================================================================== *)
(** ** checks/run_checks.py: failure samples and the results document     *)
(* ===================================================================== *)

Module Runner.

Definition samples_dir : string := "failures".
Definition results_path : string := "results.json".

(** [s.replace(".", "_")] *)
Fixpoint replace_dots (s : string) : string :=
  match s with
  | EmptyString => EmptyString
  | String c s' => String (if Ascii.eqb c "." then "_"%char else c) (replace_dots s')
  end.

(** [fname = c["name"].replace(".","_") + ".csv"] *)
Definition sample_name (c : CheckResult) : string := replace_dots (r_name c) +:+ ".csv".

(** [fpath = samples_dir / fname], for a name without path separator. *)
Definition sample_path (c : CheckResult) : string := samples_dir +:+ "/" +:+ sample_name c.

(** [df.head(n)] *)
Definition head (n : nat) (df : DataFrame) : DataFrame :=
  mkDataFrame (Nat.min n (len df))
    (map (fun s => mkSeries (s_name s) (s_dtype s) (take n (s_values s))) (data df)).

(** [str(status)] as the results document holds it. *)
Definition status_text (st : status) : string :=
  match st with
  | pass => "pass"
  | fail => "fail"
  end.

Section WithLib.
Context `{PandasLib}.

(** The clock reading [pd.Timestamp.utcnow()] when the samples are taken. *)
Variable utcnow : Z.

(** The chain [if ctype == "duplicate": ... elif ctype == "range" and
    cname in df.columns: ...] of the sample loop: the recomputed mask, or
    [None] when no branch applies. *)
Definition sample_mask (df : DataFrame) (c : CheckResult)
    : result (option (list bool)) :=
  let p := r_params c in
  if String.eqb (r_type c) "duplicate" then
    mask <- _mask_duplicate df (p_subset p) ;;
    Ok (Some mask)
  else
    match match r_column c with
          | Some cname => getitem df cname
          | None => None
          end with
    | Some s =>
        if String.eqb (r_type c) "range" then
          mask <- _mask_range (s_values s) (p_min p) (p_max p) ;;
          Ok (Some mask)
        else if String.eqb (r_type c) "enum" then
          Ok (Some (_mask_enum (s_values s) (default [] (p_allowed p))))
        else if String.eqb (r_type c) "null_rate" then
          Ok (Some (map isna (s_values s)))
        else if String.eqb (r_type c) "freshness" then
          Ok (Some (_mask_freshness utcnow (s_values s) (p_max_age_days p)
                      (p_parse_format p)))
        else Ok None
    | None => Ok None
    end.

(** [# Per-rule failure samples]: the loop over the check results, with the
    [failure_samples] dictionary built so far; an entry holds [fpath.name],
    the last component of the path. *)
Fixpoint failure_samples (df : DataFrame) (checks : list CheckResult)
    (samples : list (string * json)) : io (list (string * json)) :=
  match checks with
  | [] => ret samples
  | c :: rest =>
      if bool_decide (r_status c = fail) then
        match sample_mask df c with
        | Raise e => raise e
        | Ok None => failure_samples df rest samples
        | Ok (Some mask) =>
            _ <~ to_csv samples_dir (sample_name c) (head 200 (loc df mask)) ;;
            failure_samples df rest
              (RunAll.set_item samples (r_name c) (JStr (path_name (sample_name c))))
        end
      else failure_samples df rest samples
  end.

End WithLib.

Section Results.
Context `{PandasLib}.

(** [json.dump] of a [params] dictionary.  The values of a rule document
    are read by a YAML loader; how each is printed is left to this
    encoder. *)
Variable dump_params : Params -> json.

(** One entry of [checks] in the results document. *)
Definition check_entry (c : CheckResult) : json :=
  JDict [("name", JStr (r_name c));
         ("table", JStr (r_table c));
         ("column", match r_column c with Some cname => JStr cname | None => JNull end);
         ("type", JStr (r_type c));
         ("status", JStr (status_text (r_status c)));
         ("count", JInt (Z.of_nat (r_count c)));
         ("params", dump_params (r_params c))].

(** [viz = {"null_heatmap": {"cols": null_cols, "grid": grid}}] *)
Definition viz_json (v : list string * list (list nat)) : json :=
  JDict [("null_heatmap",
          JDict [("cols", JList (map JStr (fst v)));
                 ("grid", JList (map (fun row => JList (map (fun n => JInt (Z.of_nat n)) row))
                                   (snd v)))])].

(** The [evaluation] dictionary, with [viz] added when it is not [None]. *)
Definition evaluation_json (src : string) (ev : Evaluation)
    (samples : list (string * json)) (viz : option (list string * list (list nat)))
    : json :=
  JDict ([("source", JStr src);
          ("passed", JInt (Z.of_nat (passed ev)));
          ("failed", JInt (Z.of_nat (failed ev)));
          ("checks", JList (map check_entry (checks ev)));
          ("failure_samples", JDict samples)]
         ++ match viz with
            | Some v => [("viz", viz_json v)]
            | None => []
            end).

(** [main()] after the rule document and the dataset are read: [src] is the
    path of the dataset, [now] the clock while the checks are evaluated and
    [later] the clock while the samples are taken. *)
Definition main (now later : Z) (args : Args) (src : string)
    (tables : list TableRule) (df : DataFrame) : io unit :=
  match evaluate now df tables with
  | Raise e => raise e
  | Ok ev =>
      samples <~ failure_samples later df (checks ev) [] ;;
      df' <~ fix_stage args tables df ;;
      let viz := viz_data args (checks ev) df' in
      write results_path (JsonText (evaluation_json src ev samples viz))
  end.

End Results.

End Runner.

(* ===================================================================== *)
(** ** run_all.py: the dataset stem                                       *)
(* ===================================================================== *)

Module Orchestrator.

(** [_safe_stem] looks at the characters of the stem one by one: here a
    text is the list of its code points. *)
Definition text (s : string) : list N := map N_of_ascii (list_ascii_of_string s).

Section WithUnicode.

(** [c.isalnum()] for a code point from 128 on, as the character database
    of the interpreter has it. *)
Variable unicode_alnum : N -> bool.

(** [Path(path).stem]: the last component of the path without its last
    suffix, as the path library computes it. *)
Variable path_stem : string -> list N.

(** [c.isalnum()]: below 128 the digits and the letters of ASCII. *)
Definition isalnum (c : N) : bool :=
  (if c <? 128
   then ((48 <=? c) && (c <=? 57)) || ((65 <=? c) && (c <=? 90))
        || ((97 <=? c) && (c <=? 122))
   else unicode_alnum c)%N.

(** [c if c.isalnum() or c in ("-", "_") else "_"] *)
Definition safe_char (c : N) : N :=
  if isalnum c || (c =? 45)%N || (c =? 95)%N then c else 95%N.

(** ["".join(... for c in stem)] *)
Definition join_safe (stem : list N) : list N := map safe_char stem.

Definition _safe_stem (path : option string) : list N :=
  match path with
  | None => text "data"
  | Some EmptyString => text "data"
  | Some p =>
      match join_safe (path_stem p) with
      | [] => text "data"
      | s => s
      end
  end.

End WithUnicode.

End Orchestrator.

(* ===================================================================== *)
(** ** Vocabulary of the further statements                               *)
(* ===================================================================== *)

Module Props.
Import Spec Runner Orchestrator.

(** The result is a value, not an exception. *)
Definition returned {A} (r : result A) : Prop := exists a, r = Ok a.

(** The cell holds one of the allowed values: it is not missing, and an
    entry of the list is the same text or a number of the same value. *)
Definition listed (allowed : list cell) (c : cell) : Prop :=
  c <> NaN /\ exists a, a ∈ allowed /\ identical c a.

#[global] Instance listed_dec allowed c : Decision (listed allowed c).
Proof.
  destruct (decide (c = NaN)) as [Hc|Hc]; [right; intros [Hn _]; exact (Hn Hc)|].
  destruct (decide (canon c ∈ map canon allowed)) as [Hin|Hout].
  - left. split; [exact Hc|].
    apply list_elem_of_fmap in Hin as (a & Heq & Ha). exists a. split; assumption.
  - right. intros (_ & a & Ha & Heq). apply Hout. apply list_elem_of_fmap.
    exists a. split; assumption.
Defined.

(** A number lies strictly below the lower or strictly above the upper
    bound, where that bound is set. *)
Definition outside (lo hi : option Q) (q : Q) : Prop :=
  match lo with Some l => (q < l)%Q | None => False end
  \/ match hi with Some h => (h < q)%Q | None => False end.

(** A number lies within the bounds that are set. *)
Definition inside (lo hi : option Q) (q : Q) : Prop :=
  match lo with Some l => (l <= q)%Q | None => True end
  /\ match hi with Some h => (q <= h)%Q | None => True end.

(** The bounds as [clip] applies them: in order. *)
Definition clip_lower (lo hi : option Q) : option Q := (ordered_bounds lo hi).1.
Definition clip_upper (lo hi : option Q) : option Q := (ordered_bounds lo hi).2.

(** The checks of a table that are [duplicate] checks. *)
Definition duplicate_checks (t : TableRule) : list Chk :=
  filter (fun chk => ctype chk = "duplicate") (t_checks t).

(** The names of the results one table of the rule document yields: one
    per [duplicate] check, then one per check of every column rule whose
    column is in the dataset. *)
Definition result_names (df : DataFrame) (t : TableRule) : list string :=
  map (fun _ => table_name t +:+ ".duplicate") (duplicate_checks t)
  ++ flat_map (fun col =>
                 if has_column df (col_name col)
                 then map (fun chk => table_name t +:+ "." +:+ col_name col
                                        +:+ "." +:+ ctype chk) (col_checks col)
                 else [])
              (t_columns t).

(** A [range] check sets a bound. *)
Definition bounded (chk : Chk) : Prop :=
  ctype chk = "range" -> min_v chk <> None \/ max_v chk <> None.

(** Every [range] check of a column of the dataset sets a bound. *)
Definition ranges_bounded (tables : list TableRule) (cols : list string) : Prop :=
  Forall (fun t =>
            Forall (fun col => col_name col ∈ cols -> Forall bounded (col_checks col))
                   (t_columns t))
         tables.

(** A result that is an exception. *)
Definition raised {A} (r : result A) : Prop := exists e, r = Raise e.

(** The counters of an evaluation agree with its list of results. *)
Definition tallied (ev : Evaluation) : Prop :=
  passed ev = length (filter (fun r => r_status r = pass) (checks ev))
  /\ failed ev = length (filter (fun r => r_status r = fail) (checks ev)).

(** The position in a mask of its [j]-th set entry: the row of the frame
    that becomes row [j] of [df.loc[mask]]. *)
Fixpoint pick (m : list bool) (j : nat) : option nat :=
  match m with
  | [] => None
  | true :: m' =>
      match j with
      | 0 => Some 0
      | S j' => option_map S (pick m' j')
      end
  | false :: m' => option_map S (pick m' j)
  end.

(** The dtype of a column after its cells were overwritten. *)
Definition dtype_for (dt : dtype) (values : list cell) : dtype :=
  if forallb (fits dt) values then dt else object.

(** The path lies below the quarantine directory. *)
Definition in_quarantine (path : string) : bool := String.prefix "quarantine/" path.

(** The path lies below the directory of the failure samples. *)
Definition in_failures (path : string) : bool := String.prefix "failures/" path.

(** The path is none of the three files the fix stage writes under a fixed
    name or below the quarantine directory. *)
Definition outside_fix_stage (path : string) : Prop :=
  in_quarantine path = false /\ path <> fix_report_path /\ path <> cleaned_path.

(** A piece of the fix pipeline writes only below the quarantine directory. *)
Definition writes_quarantine_only {A} (m : io A) : Prop :=
  forall fs path, in_quarantine path = false -> (m fs).1 !! path = fs !! path.

(** A file that holds a sample of the frame: some of its rows, at most 200. *)
Definition is_sample (df : DataFrame) (f : file) : Prop :=
  exists sample, f = CsvText sample /\ len sample <= 200 /\ columns sample = columns df.

(** The entries of the [failure_samples] dictionary name their files. *)
Definition well_named (samples : list (string * json)) : Prop :=
  forall k v, get samples k = Some v ->
    v = JStr (path_name (replace_dots k +:+ ".csv")).

(** The names of a table rule and of its column rules hold no path
    separator. *)
Definition plain_names (t : TableRule) : Prop :=
  plain_name (table_name t) = true
  /\ Forall (fun col => plain_name (col_name col) = true) (t_columns t).

#[global] Instance plain_names_dec t : Decision (plain_names t).
Proof. unfold plain_names. apply _. Defined.

(** Every column of the frame is empty: a dataset with a header and no
    rows. *)
Definition no_cells (df : DataFrame) : Prop :=
  Forall (fun s => s_values s = []) (data df).

(** A piece of the fix pipeline started in [st] returns, if it returns, a
    frame with the column labels of [st]. *)
Definition keeps_labels (st : DataFrame * FixReport)
    (m : io (DataFrame * FixReport)) : Prop :=
  forall fs fs' st', m fs = (fs', Ok st') -> columns st'.1 = columns st.1.

(** A character that is kept in a dataset stem: a letter or a digit, a
    hyphen or an underscore. *)
Definition safe (unicode_alnum : N -> bool) (c : N) : Prop :=
  isalnum unicode_alnum c = true \/ c = 45%N \/ c = 95%N.

Section WithLib.
Context `{PandasLib}.

(** The cell coerces to a number outside the bounds. *)
Definition out_of_range (lo hi : option Q) (c : cell) : Prop :=
  match to_numeric c with
  | Some q => outside lo hi q
  | None => False
  end.

#[global] Instance out_of_range_dec lo hi c : Decision (out_of_range lo hi c).
Proof.
  unfold out_of_range, outside. destruct (to_numeric c) as [q|]; [|apply _].
  destruct lo as [l|], hi as [h|]; unfold Qlt; apply _.
Defined.

(** What [parse_dates] makes of one cell: the timestamp it parses to, or
    the cell itself. *)
Definition normalised (fmt : option string) (c : cell) : cell :=
  match to_datetime fmt c with
  | Some t => Ts t
  | None => c
  end.

(** The sample file of the check result can be opened for writing. *)
Definition sample_opens (r : CheckResult) : Prop :=
  is_Some (open_csv samples_dir (sample_name r)).

(** A failing check result can be checked again on the frame: the sample
    loop recomputes a mask for it, with as many set entries as its count. *)
Definition recheckable (utcnow : Z) (df : DataFrame) (r : CheckResult) : Prop :=
  r_status r = fail ->
  exists mask, sample_mask utcnow df r = Ok (Some mask) /\ sum_bool mask = r_count r.

End WithLib.

End Props.

(* ===================================================================== *)
(** ** Further worked inputs                                              *)
(* ===================================================================== *)

Module Cases.
Import Examples.

Definition enum_of (allowed : list cell) : Chk :=
  mkChk "enum" None None None (Some allowed) None None None None None.


Definition status_check : Chk := enum_of [Str "new"; Str "processing"; Str "shipped"].

(** The column of [amounts] and its check in [test_range_validation]. *)
Definition amount_column : Series :=
  mkSeries "amount" numeric [int 5; int 15; int 25; int (-3)].

Definition amount_check : Chk := range_of (Some 0%Q) (Some 20%Q).

(** A rule document with a table-level check that is no [duplicate] check
    and a rule for a column that [orders] does not have. *)
Definition mixed_rules : list TableRule :=
  [mkTableRule (Some "test")
     [duplicate_on (Some ["id"]); range_of (Some 0%Q) None]
     [mkColumnRule "amount" [amount_check];
      mkColumnRule "ghost" [status_check]]].

(** A [duplicate] check on a label that is no column of [orders] or
    [no_rows]. *)
Definition ghost_rules : list TableRule :=
  [mkTableRule (Some "test") [duplicate_on (Some ["ghost"])] []].

(** Two dates and a missing value. *)
Definition visits : DataFrame :=
  mkDataFrame 3 [mkSeries "seen" object [Str "2024-03-05"; Str "2024-03-04"; NaN]].

(** A dataset with a header and no rows. *)
Definition no_rows : DataFrame :=
  mkDataFrame 0 [mkSeries "id" numeric []; mkSeries "amount" numeric []].

(** A run without fixes and without the heatmap, as the tests start it. *)
Definition plain : Args := mkArgs false false false 2%float 5%float.

(** An encoder of [params] for the worked runs: the subset of a
    [duplicate] check, nothing of the other parameters. *)
Definition subset_only (p : Params) : json :=
  JDict [("subset", match p_subset p with
                    | Some l => JList (map JStr l)
                    | None => JNull
                    end)].

End Cases.

(* ===================================================================== *)
(** * Properties                                                          *)
(* ===================================================================== *)

Import Spec Examples.

(** ** Counting in boolean series *)

Lemma sum_bool_filter {A} (p : A -> bool) (P : A -> Prop) `{forall x, Decision (P x)}
    (l : list A) :
  (forall x, p x = true <-> P x) ->
  sum_bool (map p l) = length (filter P l).
Proof.
  intros Hp. induction l as [|x l IH]; simpl; [reflexivity|].
  rewrite filter_cons. destruct (decide (P x)) as [HP|HP].
  - apply Hp in HP. rewrite HP. simpl. f_equal. exact IH.
  - destruct (p x) eqn:E; [apply Hp in E; contradiction | exact IH].
Qed.

Lemma sum_bool_or {A} (p q : A -> bool) (l : list A) :
  (forall x, p x = true -> q x = false) ->
  sum_bool (map (fun x => p x || q x) l) = sum_bool (map p l) + sum_bool (map q l).
Proof.
  intros Hd. induction l as [|x l IH]; simpl; [reflexivity|].
  rewrite IH. destruct (p x) eqn:E; [rewrite (Hd _ E)|]; simpl; [lia|].
  destruct (q x); lia.
Qed.

Lemma sum_bool_count_occ (m : list bool) : sum_bool m = flagged_rows m.
Proof.
  unfold flagged_rows. induction m as [|b m IH]; simpl; [reflexivity|].
  destruct b; simpl; rewrite IH; reflexivity.
Qed.

Lemma sum_bool_negb (m : list bool) : sum_bool (map negb m) + sum_bool m = length m.
Proof. induction m as [|b m IH]; simpl; [reflexivity|]. destruct b; simpl; lia. Qed.

Lemma sum_bool_isna (col : list cell) :
  sum_bool (map isna col) = count_occ cell_eq_dec col NaN.
Proof.
  induction col as [|c col IH]; simpl; [reflexivity|].
  unfold isna at 1. destruct (cell_eq_dec c NaN) as [->|Hne].
  - rewrite bool_decide_eq_true_2 by reflexivity.
    destruct (cell_eq_dec NaN NaN); [simpl; rewrite IH; reflexivity | contradiction].
  - rewrite bool_decide_eq_false_2 by exact Hne. simpl. exact IH.
Qed.

Lemma status_of_count_fail n : status_of_count n = fail <-> 0 < n.
Proof. unfold status_of_count. destruct n; simpl; split; intros Hn; try done; lia. Qed.

Lemma status_of_count_pass n : status_of_count n = pass <-> n = 0.
Proof. unfold status_of_count. destruct n; simpl; split; intros Hn; try done; lia. Qed.

Lemma find_all_false {A} (f : A -> bool) (l : list A) :
  (forall x, x ∈ l -> f x = false) -> List.find f l = None.
Proof.
  induction l as [|x l IH]; intros Hall; simpl; [reflexivity|].
  rewrite (Hall x) by apply list_elem_of_here.
  apply IH. intros y Hy. apply Hall. apply list_elem_of_further, Hy.
Qed.

(** ** [df.duplicated]: first occurrences are kept *)

Section Duplicated.
Variables (df : DataFrame) (cols : list string).

Lemma duplicated_from_length n : forall seen i,
  length (duplicated_from df cols seen i n) = n.
Proof.
  induction n as [|n IH]; intros seen i; simpl; [reflexivity|].
  case_bool_decide; simpl; rewrite IH; reflexivity.
Qed.

Lemma seen_before_step seen i :
  seen_before df cols seen i ->
  seen_before df cols (if bool_decide (row_key df cols i ∈ seen) then seen
               else row_key df cols i :: seen) (S i).
Proof.
  intros Hinv k. case_bool_decide as Hin.
  - rewrite (Hinv k). split.
    + intros (j & Hj & Hk). exists j. split; [lia | exact Hk].
    + intros (j & Hj & Hk). destruct (decide (j = i)) as [->|Hne].
      * subst k. apply Hinv, Hin.
      * exists j. split; [lia | exact Hk].
  - rewrite elem_of_cons, (Hinv k). split.
    + intros [->|(j & Hj & Hk)]; [exists i | exists j]; split; try lia; done.
    + intros (j & Hj & Hk). destruct (decide (j = i)) as [->|Hne].
      * left. symmetry. exact Hk.
      * right. exists j. split; [lia | exact Hk].
Qed.

Lemma duplicated_from_lookup n : forall seen i t,
  seen_before df cols seen i ->
  t < n ->
  exists b, duplicated_from df cols seen i n !! t = Some b /\
    (b = true <-> exists j, j < i + t /\ row_key df cols j = row_key df cols (i + t)).
Proof.
  induction n as [|n IH]; intros seen i t Hinv Ht; [lia|].
  pose proof (seen_before_step seen i Hinv) as Hstep.
  destruct t as [|t].
  - exists (bool_decide (row_key df cols i ∈ seen)). split.
    + simpl. case_bool_decide; reflexivity.
    + rewrite bool_decide_eq_true, (Hinv _), Nat.add_0_r. reflexivity.
  - destruct (IH _ (S i) t Hstep ltac:(lia)) as (b & Hb & Hiff).
    exists b. split.
    + simpl. revert Hb. case_bool_decide; simpl; intros Hb; exact Hb.
    + replace (i + S t) with (S i + t) by lia. exact Hiff.
Qed.

Lemma row_key_identical i j :
  row_key df cols j = row_key df cols i <->
  forall c, c ∈ cols -> identical (cell_at df c j) (cell_at df c i).
Proof.
  unfold row_key, identical. split.
  - intros Heq c Hc. apply list_elem_of_In in Hc.
    exact (proj1 map_ext_in_iff Heq c Hc).
  - intros Hall. apply map_ext_in. intros c Hc. apply Hall, list_elem_of_In, Hc.
Qed.

Lemma duplicated_length mask : duplicated df cols = Ok mask -> length mask = len df.
Proof.
  unfold duplicated. destruct (len df) as [|n] eqn:Hlen; [intros [= <-]; reflexivity|].
  destruct (List.find _ cols); [discriminate|].
  intros Heq.
  apply (f_equal (fun r => match r with Ok m => length m | Raise _ => 0 end)) in Heq.
  rewrite duplicated_from_length in Heq. symmetry. exact Heq.
Qed.

Lemma duplicated_spec :
  (forall c, c ∈ cols -> c ∈ columns df) ->
  exists mask, duplicated df cols = Ok mask /\ length mask = len df /\
    forall i, i < len df -> (mask !! i = Some true <-> repeats_earlier df cols i).
Proof.
  intros Hcols. unfold duplicated.
  destruct (Nat.eq_dec (len df) 0) as [Hlen|Hlen].
  { rewrite Hlen. exists []. split; [reflexivity|]. split; [reflexivity|]. intros i Hi. lia. }
  replace (match len df with 0 => Ok [] | S _ => _ end)
    with (match List.find (fun c => negb (has_column df c)) cols with
          | Some c => Raise (KeyError c)
          | None => Ok (duplicated_from df cols [] 0 (len df))
          end) by (destruct (len df); [contradiction | reflexivity]).
  rewrite find_all_false.
  2:{ intros c Hc. unfold has_column. rewrite bool_decide_eq_true_2; [reflexivity|].
      apply Hcols, Hc. }
  eexists. split; [reflexivity|]. split; [apply duplicated_from_length|].
  intros i Hi.
  destruct (duplicated_from_lookup (len df) [] 0 i) as (b & Hb & Hiff); [|exact Hi|].
  { intros k. split; [intros Hk; inversion Hk | intros (j & Hj & _); lia]. }
  rewrite Hb. simpl in Hiff. unfold repeats_earlier.
  split.
  - intros [= ->]. destruct (proj1 Hiff eq_refl) as (j & Hj & Hk).
    exists j. split; [exact Hj | apply row_key_identical, Hk].
  - intros (j & Hj & Hk). f_equal. apply Hiff.
    exists j. split; [exact Hj | apply row_key_identical, Hk].
Qed.

End Duplicated.

(** ** checks/run_checks.py: the evaluation of one check *)

Lemma ok_by_count_iff (bound : option Z) (count : nat) :
  match bound with
  | None => true
  | Some m => (Z.of_nat count <=? m)%Z
  end = true
  <-> bound = None \/ exists m, bound = Some m /\ (Z.of_nat count <= m)%Z.
Proof.
  destruct bound as [m|].
  - rewrite Z.leb_le. split.
    + intros Hle. right. exists m. split; [reflexivity | exact Hle].
    + intros [Hnone|(m' & Hm & Hle)]; [discriminate | congruence].
  - split; [intros _; left; reflexivity | reflexivity].
Qed.

Lemma ok_by_frac_iff (bound : option float) (frac : float) :
  match bound with
  | None => true
  | Some f => PrimFloat.leb frac f
  end = true
  <-> bound = None \/ exists f, bound = Some f /\ PrimFloat.leb frac f = true.
Proof.
  destruct bound as [f|].
  - split.
    + intros Hle. right. exists f. split; [reflexivity | exact Hle].
    + intros [Hnone|(f' & Hf & Hle)]; [discriminate | congruence].
  - split; [intros _; left; reflexivity | reflexivity].
Qed.

Lemma pass_unless (a b : bool) (A B : Prop) :
  (a = true <-> A) -> (b = true <-> B) ->
  ((if a && b then pass else fail) = pass <-> A /\ B)
  /\ ((if a && b then pass else fail) = fail <-> ~ (A /\ B)).
Proof.
  intros Ha Hb. destruct a, b; simpl; (split; split; [| | |]);
    try (intros; discriminate); try reflexivity; intuition discriminate.
Qed.

Section Evaluation.
Context `{PandasLib} (utcnow : Z).

(** C3.  A [null_rate] check on an existing column yields one check result
    whose count is the number of missing values of the column; it passes
    exactly when the count is within [max_nulls] (if given) and the count
    divided by [max(1, len(df))] is within [max_null_frac] (if given), and
    fails otherwise. *)
Theorem null_rate_check (df : DataFrame) (tname cname : string) (s : Series)
    (chk : Chk) (ev : Evaluation) :
  getitem df cname = Some s ->
  ctype chk = "null_rate" ->
  exists r,
    eval_columns utcnow df tname [mkColumnRule cname [chk]] ev = Ok (append ev r)
    /\ r_type r = "null_rate" /\ r_column r = Some cname
    /\ r_count r = count_occ cell_eq_dec (s_values s) NaN
    /\ let within :=
         (max_nulls chk = None \/
          exists m, max_nulls chk = Some m /\ (Z.of_nat (r_count r) <= m)%Z) /\
         (max_null_frac chk = None \/
          exists f, max_null_frac chk = Some f /\
            PrimFloat.leb (truediv (Z.of_nat (r_count r))
                             (Z.of_nat (Nat.max 1 (len df)))) f = true) in
       (r_status r = pass <-> within) /\ (r_status r = fail <-> ~ within).
Proof.
  intros Hcol Hty. cbn [eval_columns col_name col_checks]. rewrite Hcol.
  cbn [eval_column_checks bind]. unfold eval_column_check. rewrite Hty.
  cbn [String.eqb Ascii.eqb Bool.eqb bind].
  eexists. split; [reflexivity|].
  cbn [r_type r_column r_count r_status]. rewrite sum_bool_isna.
  split; [reflexivity|]. split; [reflexivity|]. split; [reflexivity|].
  apply pass_unless; [apply ok_by_count_iff | apply ok_by_frac_iff].
Qed.

Lemma unparsed_iff fmt c : unparsed fmt c = true <-> parse_failed fmt c.
Proof.
  unfold unparsed, parse_failed, notna, isna.
  destruct (to_datetime fmt c) as [t|].
  - split; [discriminate | intros [_ Hnone]; discriminate].
  - rewrite negb_true_iff, bool_decide_eq_false. split.
    + intros Hc. split; [exact Hc | reflexivity].
    + intros [Hc _]. exact Hc.
Qed.

Lemma too_old_iff fmt bound c :
  too_old utcnow fmt bound c = true <-> older_than utcnow fmt bound c.
Proof.
  unfold too_old, older_than, age_days, ns_per_day.
  destruct (to_datetime fmt c) as [t|].
  - rewrite Z.ltb_lt. split.
    + intros Hlt. exists t. split; [reflexivity | exact Hlt].
    + intros (t' & [= <-] & Hlt). exact Hlt.
  - split; [discriminate | intros (t' & [=] & _)].
Qed.

Lemma unparsed_not_too_old fmt bound c :
  unparsed fmt c = true -> too_old utcnow fmt bound c = false.
Proof.
  unfold unparsed, too_old, age_days.
  destruct (to_datetime fmt c); [discriminate | reflexivity].
Qed.

(** C4.  A [freshness] check on an existing column counts the values that
    were present and did not parse as a date, plus, when [max_age_days] is
    set, the parsed values whose age in whole days exceeds it; the column
    is parsed with [parse_format] or, without one, with the format the
    library guesses for it.  The check fails exactly when [max_age_days] is
    set and the count is positive; without [max_age_days] it passes whatever
    the count. *)
Theorem freshness_check (df : DataFrame) (tname cname : string) (s : Series)
    (chk : Chk) (ev : Evaluation) :
  getitem df cname = Some s ->
  ctype chk = "freshness" ->
  exists r,
    eval_columns utcnow df tname [mkColumnRule cname [chk]] ev = Ok (append ev r)
    /\ r_type r = "freshness" /\ r_column r = Some cname
    /\ (let fmt := datetime_format (parse_format chk) (s_values s) in
        r_count r =
          length (filter (parse_failed fmt) (s_values s))
          + match max_age_days chk with
            | Some bound => length (filter (older_than utcnow fmt bound) (s_values s))
            | None => 0
            end)
    /\ (r_status r = fail <-> max_age_days chk <> None /\ 0 < r_count r)
    /\ (max_age_days chk = None -> r_status r = pass).
Proof.
  intros Hcol Hty. cbn [eval_columns col_name col_checks]. rewrite Hcol.
  cbn [eval_column_checks bind]. unfold eval_column_check. rewrite Hty.
  cbn [String.eqb Ascii.eqb Bool.eqb bind].
  eexists. split; [reflexivity|].
  cbn [r_type r_column r_count r_status].
  split; [reflexivity|]. split; [reflexivity|].
  unfold _mask_freshness. cbv zeta.
  destruct (max_age_days chk) as [bound|].
  - rewrite (sum_bool_or (unparsed _) (too_old utcnow _ bound))
      by apply unparsed_not_too_old.
    rewrite (sum_bool_filter _ _ _ (unparsed_iff _)).
    rewrite (sum_bool_filter _ _ _ (too_old_iff _ bound)).
    split; [reflexivity|]. split; [|discriminate].
    rewrite status_of_count_fail. split.
    + intros Hpos. split; [discriminate | exact Hpos].
    + intros [_ Hpos]. exact Hpos.
  - rewrite (sum_bool_filter _ _ _ (unparsed_iff _)).
    split; [lia|]. split; [|reflexivity].
    split; [discriminate | intros [Hset _]; contradiction].
Qed.

(** C5 (as amended).  A [duplicate] check whose subset [S] is a non-empty
    list of dataset columns -- or with [S] all dataset columns when the
    subset is absent or empty -- flags a row exactly when an earlier row has
    identical values across [S]; the count of its check result is the number
    of flagged rows and the status is fail exactly when the count is
    positive. *)
Theorem duplicate_check (df : DataFrame) (tname : string) (chk : Chk)
    (ev : Evaluation) (S : list string) :
  ctype chk = "duplicate" ->
  (subset chk = Some S /\ S <> [] \/
   (subset chk = None \/ subset chk = Some []) /\ S = columns df) ->
  (forall c, c ∈ S -> c ∈ columns df) ->
  exists r mask,
    eval_table_checks df tname [chk] ev = Ok (append ev r)
    /\ r_type r = "duplicate"
    /\ length mask = len df
    /\ (forall i, i < len df -> (mask !! i = Some true <-> repeats_earlier df S i))
    /\ r_count r = flagged_rows mask
    /\ (r_status r = fail <-> 0 < r_count r)
    /\ (r_status r = pass <-> r_count r = 0).
Proof.
  intros Hty HS Hcols.
  assert (subset_or (subset chk) (columns df) = S) as Hsub.
  { destruct HS as [[-> Hne]|[[->| ->] ->]]; try reflexivity.
    destruct S; [contradiction | reflexivity]. }
  destruct (duplicated_spec df S Hcols) as (mask & Hdup & Hlen & Hmask).
  cbn [eval_table_checks]. rewrite Hty. cbn [String.eqb Ascii.eqb Bool.eqb].
  unfold _mask_duplicate. rewrite Hsub, Hdup. cbn [bind].
  eexists _, mask. split; [reflexivity|].
  cbn [r_type r_count r_status].
  split; [reflexivity|]. split; [exact Hlen|]. split; [exact Hmask|].
  split; [apply sum_bool_count_occ|].
  split; [apply status_of_count_fail | apply status_of_count_pass].
Qed.

(** C6 (the code departs from the claim).  A [range] check that sets
    neither [min] nor [max] does not produce a check result: the mask helper
    ors two Python [False] constants and calls [fillna] on the resulting
    bool, which raises. *)
Theorem range_without_bounds_raises (nrows : nat) (tname cname : string)
    (col : list cell) subset allowed max_nulls max_null_frac fill_value
    max_age_days parse_format :
  eval_column_check utcnow nrows tname cname col
    (mkChk "range" subset None None allowed max_nulls max_null_frac fill_value
       max_age_days parse_format)
  = Raise (AttributeError "bool" "fillna").
Proof. reflexivity. Qed.

(** With a bound on either side the mask is a series and a result is
    produced: a row is flagged when its value coerces to a number below
    [min] or above [max]; a value that fails coercion is never flagged. *)
Lemma range_with_bound (col : list cell) (lo hi : option Q) :
  lo <> None \/ hi <> None ->
  _mask_range col lo hi
  = Ok (map (fun c =>
               match to_numeric c with
               | Some q =>
                   match lo with Some l => Qlt_bool q l | None => false end
                   || match hi with Some h => Qlt_bool h q | None => false end
               | None => false
               end) col).
Proof.
  unfold _mask_range, lt_scalar, gt_scalar.
  destruct lo as [l|], hi as [h|]; intros Hbound; cbn [or_ fillna_False].
  - f_equal. induction col as [|c col IH]; [reflexivity|].
    cbn [map zip_with]. rewrite IH. destruct (to_numeric c); reflexivity.
  - f_equal. rewrite !map_map. apply map_ext. intros c.
    destruct (to_numeric c); reflexivity.
  - f_equal. rewrite !map_map. apply map_ext. intros c.
    destruct (to_numeric c); [apply orb_false_r | reflexivity].
  - destruct Hbound as [Hb|Hb]; contradiction.
Qed.

End Evaluation.

(** The run of [test_null_rate]: two missing notes against [max_nulls: 0]. *)
Lemma null_rate_check_witness :
  exists r,
    eval_columns (H:=Reference.lib) march_10 tickets "test"
      [mkColumnRule "notes" [null_rate_of (Some 0%Z) None]] empty_evaluation
    = Ok (append empty_evaluation r)
    /\ r_count r = 2 /\ r_status r = fail.
Proof.
  destruct (null_rate_check (H:=Reference.lib) march_10 tickets "test" "notes"
              (mkSeries "notes" object [Str "a"; NaN; Str "b"; NaN])
              (null_rate_of (Some 0%Z) None) empty_evaluation eq_refl eq_refl)
    as (r & Hrun & _ & _ & Hcount & _ & Hfail).
  exists r. split; [exact Hrun|]. split; [exact Hcount|].
  apply Hfail. rewrite Hcount. intros [[Hnone|(m & Hm & Hle)] _].
  - discriminate Hnone.
  - injection Hm as <-. simpl in Hle. lia.
Defined.

(** Two values that are no dates and no age bound: the count is two and
    the check passes. *)
Lemma freshness_check_witness :
  exists r,
    eval_columns (H:=Reference.lib) march_10 events "test"
      [mkColumnRule "seen" [freshness_of None]] empty_evaluation
    = Ok (append empty_evaluation r)
    /\ r_count r = 2 /\ r_status r = pass.
Proof.
  destruct (freshness_check (H:=Reference.lib) march_10 events "test" "seen"
              (mkSeries "seen" object [Str "not-a-date"; Str "soon"; Str "2024-02-29"])
              (freshness_of None) empty_evaluation eq_refl eq_refl)
    as (r & Hrun & _ & _ & Hcount & _ & Hpass).
  exists r. split; [exact Hrun|]. split; [exact Hcount | exact (Hpass eq_refl)].
Defined.

(** The run of [test_duplicate_detection]: subset [id] on four rows. *)
Lemma duplicate_check_witness :
  exists r mask,
    eval_table_checks orders "test" [duplicate_on (Some ["id"])]
      empty_evaluation = Ok (append empty_evaluation r)
    /\ r_type r = "duplicate"
    /\ length mask = len orders
    /\ (forall i, i < len orders ->
          (mask !! i = Some true <-> repeats_earlier orders ["id"] i))
    /\ r_count r = flagged_rows mask
    /\ (r_status r = fail <-> 0 < r_count r)
    /\ (r_status r = pass <-> r_count r = 0).
Proof.
  apply (duplicate_check orders "test" (duplicate_on (Some ["id"]))
           empty_evaluation ["id"] eq_refl).
  - left. split; [reflexivity | discriminate].
  - intros c Hc. apply list_elem_of_singleton in Hc as ->. apply list_elem_of_here.
Defined.

(** C5, the claim as stated fails: with the empty subset every later row
    repeats an earlier one across the (no) columns of the subset, yet the
    code compares all columns and flags none. *)
Lemma duplicate_empty_subset_counterexample :
  exists r,
    eval_table_checks orders "test" [duplicate_on (Some [])]
      empty_evaluation = Ok (append empty_evaluation r)
    /\ r_count r = 0 /\ r_status r = pass
    /\ repeats_earlier orders [] 1.
Proof.
  eexists. split; [reflexivity|]. split; [reflexivity|]. split; [reflexivity|].
  exists 0. split; [lia|]. intros c Hc. inversion Hc.
Qed.

(** A rule document with an unbounded [range] check stops the evaluation. *)
Lemma unbounded_range_example :
  evaluate (H:=Reference.lib) march_10 payments unbounded_range_rules
  = Raise (AttributeError "bool" "fillna").
Proof. reflexivity. Qed.

(** ** tests/test_rules.py: the four scenarios, evaluated *)

Lemma test_duplicate_detection :
  first_of_type "duplicate" (evaluate (H:=Reference.lib) march_10 orders duplicate_rules)
  = Some (fail, 1).
Proof. reflexivity. Qed.

Lemma test_enum_validation :
  first_of_type "enum" (evaluate (H:=Reference.lib) march_10 statuses enum_rules)
  = Some (fail, 1).
Proof. reflexivity. Qed.

Lemma test_range_validation :
  first_of_type "range" (evaluate (H:=Reference.lib) march_10 amounts range_rules)
  = Some (fail, 2).
Proof. reflexivity. Qed.

Lemma test_null_rate :
  first_of_type "null_rate"
    (evaluate (H:=Reference.lib) march_10 tickets
       [mkTableRule (Some "test") []
          [mkColumnRule "notes" [null_rate_of (Some 0%Z) None]]])
  = Some (fail, 2).
Proof. reflexivity. Qed.

(** ** checks/fixers.py: columns by name *)

Lemma getitem_app_fresh idx (pre post : list Series) (c : string) :
  c ∉ map s_name pre ->
  getitem (mkDataFrame idx (pre ++ post)) c = getitem (mkDataFrame idx post) c.
Proof.
  unfold getitem. simpl. induction pre as [|s pre IH]; intros Hfresh; simpl; [reflexivity|].
  rewrite bool_decide_eq_false_2.
  - apply IH. intros Hin. apply Hfresh. simpl. apply list_elem_of_further, Hin.
  - intros Heq. apply Hfresh. simpl. rewrite Heq. apply list_elem_of_here.
Qed.

Lemma replace_column_app_fresh (pre post : list Series) c dt values :
  c ∉ map s_name pre ->
  replace_column (pre ++ post) c dt values = pre ++ replace_column post c dt values.
Proof.
  induction pre as [|s pre IH]; intros Hfresh; simpl; [reflexivity|].
  rewrite bool_decide_eq_false_2.
  - f_equal. apply IH. intros Hin. apply Hfresh. simpl. apply list_elem_of_further, Hin.
  - intros Heq. apply Hfresh. simpl. rewrite Heq. apply list_elem_of_here.
Qed.

Lemma getitem_map (f : Series -> Series) (df : DataFrame) (c : string) :
  (forall s, s_name (f s) = s_name s) ->
  getitem (mkDataFrame (index df) (map f (data df))) c = option_map f (getitem df c).
Proof.
  intros Hname. unfold getitem. simpl.
  induction (data df) as [|s l IH]; simpl; [reflexivity|].
  rewrite Hname. case_bool_decide; [reflexivity | exact IH].
Qed.

Lemma getitem_name (df : DataFrame) (c : string) (s : Series) :
  getitem df c = Some s -> s_name s = c.
Proof.
  unfold getitem. intros Hfind. apply find_some in Hfind as [_ Hname].
  apply bool_decide_eq_true in Hname. exact Hname.
Qed.

Section Trim.
Context `{PandasLib}.

Lemma trimmed_name (s : Series) : s_name (trimmed s) = s_name s.
Proof. unfold trimmed. case_bool_decide; reflexivity. Qed.

Lemma ne_str_untrimmed (x : cell) :
  ne_str (astype_str x) (strip (astype_str x)) = true <-> untrimmed x.
Proof.
  unfold ne_str, untrimmed. rewrite negb_true_iff, String.eqb_neq. split.
  - intros Hne. split; [|congruence].
    intros ->. apply Hne. reflexivity.
  - intros [_ Hne]. congruence.
Qed.

Lemma zip_with_map_r {A B C} (f : A -> B -> C) (g : A -> B) (l : list A) :
  zip_with f l (map g l) = map (fun x => f x (g x)) l.
Proof. induction l as [|x l IH]; simpl; [reflexivity | f_equal; exact IH]. Qed.

Lemma trim_column_step idx (pre post : list Series) (s : Series) (n : nat) :
  s_name s ∉ map s_name pre ->
  trim_column (mkDataFrame idx (pre ++ s :: post), n) (s_name s)
  = (mkDataFrame idx (pre ++ trimmed s :: post), n + trim_count s).
Proof.
  intros Hfresh. unfold trim_column.
  rewrite getitem_app_fresh by exact Hfresh.
  unfold getitem. simpl. rewrite bool_decide_eq_true_2 by reflexivity.
  unfold trimmed, trim_count. case_bool_decide as Hdt.
  - unfold setitem. simpl. rewrite replace_column_app_fresh by exact Hfresh.
    simpl. rewrite bool_decide_eq_true_2 by reflexivity.
    rewrite zip_with_map_r, !map_map.
    rewrite (sum_bool_filter _ _ _ ne_str_untrimmed). reflexivity.
  - rewrite Nat.add_0_r. reflexivity.
Qed.

Lemma trim_fold idx (post : list Series) : forall (pre : list Series) (n : nat),
  NoDup (map s_name (pre ++ post)) ->
  fold_left trim_column (map s_name post) (mkDataFrame idx (pre ++ post), n)
  = (mkDataFrame idx (pre ++ map trimmed post), n + sum_list (map trim_count post)).
Proof.
  induction post as [|s post IH]; intros pre n Hnd; cbn [map fold_left sum_list].
  - rewrite Nat.add_0_r. reflexivity.
  - rewrite trim_column_step.
    2:{ rewrite map_app in Hnd. simpl in Hnd.
        apply NoDup_app in Hnd as (_ & Hdisj & _).
        intros Hin. apply (Hdisj _ Hin). apply list_elem_of_here. }
    replace (pre ++ trimmed s :: post) with ((pre ++ [trimmed s]) ++ post)
      by (rewrite <- app_assoc; reflexivity).
    rewrite IH.
    + rewrite <- app_assoc. simpl. f_equal. lia.
    + rewrite <- app_assoc. simpl. rewrite !map_app in *. simpl.
      rewrite trimmed_name. exact Hnd.
Qed.

Lemma trim_strings_all (df : DataFrame) (report : FixReport) (tname : string) :
  NoDup (columns df) ->
  trim_strings df (columns df) report tname
  = (mkDataFrame (index df) (map trimmed (data df)),
     let total := sum_list (map trim_count (data df)) in
     if 0 <? total
     then add report (tname +:+ "_trim") tname None "trim_strings" total ""
     else report).
Proof.
  intros Hnd. unfold trim_strings, columns.
  destruct df as [idx l]. cbn [data index] in *.
  pose proof (trim_fold idx l [] 0 Hnd) as Hfold. cbn [app] in Hfold.
  rewrite Hfold. reflexivity.
Qed.

(** C10.  [trim_strings] replaces every text (object) column as a whole by
    the stripped string conversion of its cells.  Afterwards the column
    holds no missing value: every cell that was missing holds the text
    [nan].  The action's [affected] total counts, over the text columns,
    only the cells that were present and had white space to strip, so the
    converted missing cells are not counted. *)
Theorem trim_strings_object_column (df : DataFrame) (report : FixReport)
    (tname c : string) (s : Series) :
  NoDup (columns df) ->
  getitem df c = Some s ->
  s_dtype s = object ->
  exists df' report' s',
    trim_strings df (columns df) report tname = (df', report')
    /\ getitem df' c = Some s'
    /\ s_dtype s' = object
    /\ s_values s' = map (fun x => Str (strip (astype_str x))) (s_values s)
    /\ (forall x, x ∈ s_values s' -> x <> NaN)
    /\ (forall i, s_values s !! i = Some NaN -> s_values s' !! i = Some (Str "nan"))
    /\ (let total := sum_list (map trim_count (data df)) in
        report' = if 0 <? total
                  then add report (tname +:+ "_trim") tname None "trim_strings" total ""
                  else report)
    /\ trim_count s = length (filter untrimmed (s_values s))
    /\ (forall x, untrimmed x -> x <> NaN).
Proof.
  intros Hnd Hcol Hdt.
  rewrite (trim_strings_all df report tname Hnd).
  eexists _, _, (trimmed s). split; [reflexivity|].
  split; [rewrite (getitem_map trimmed df c trimmed_name), Hcol; reflexivity|].
  unfold trimmed, trim_count. rewrite !bool_decide_eq_true_2 by exact Hdt. simpl.
  split; [reflexivity|]. split; [reflexivity|].
  split.
  { intros x Hx. apply list_elem_of_fmap in Hx as (y & -> & _). discriminate. }
  split.
  { intros i Hi. rewrite list_lookup_fmap, Hi. reflexivity. }
  split; [reflexivity|]. split; [reflexivity|].
  intros x [Hx _]. exact Hx.
Qed.

End Trim.

(** ** The fix pipeline: what every step keeps *)

Lemma step_ok_ret st : step_ok st (ret st).
Proof. split; [intros fs; reflexivity | intros fs st' [= <-]; split; reflexivity]. Qed.

Lemma step_ok_bind st m k :
  step_ok st m ->
  (forall st1, step_ok st1 (k st1)) ->
  step_ok st (io_bind m k).
Proof.
  intros [Hf Hr] Hk. split.
  - intros fs. unfold io_bind. specialize (Hf fs).
    destruct (m fs) as [fs1 [st1|e]]; simpl in *; [|exact Hf].
    destruct (Hk st1) as [Hf1 _]. rewrite (Hf1 fs1). exact Hf.
  - intros fs st' Hres. unfold io_bind in Hres. specialize (Hr fs).
    destruct (m fs) as [fs1 [st1|e]]; simpl in *; [|discriminate].
    destruct (Hr st1 eq_refl) as [Hrows Hbefore].
    destruct (Hk st1) as [_ Hr1]. destruct (Hr1 fs1 st' Hres) as [Hrows1 Hbefore1].
    split; [lia | congruence].
Qed.

(** ** Files that [to_csv] opens *)

Lemma list_ascii_app (a b : string) :
  list_ascii_of_string (a +:+ b) = list_ascii_of_string a ++ list_ascii_of_string b.
Proof.
  induction a as [|c a IH]; [reflexivity|].
  change (String c a +:+ b) with (String c (a +:+ b)).
  cbn [list_ascii_of_string]. rewrite IH. reflexivity.
Qed.

Lemma string_of_list_app (k l : list ascii) :
  string_of_list_ascii (k ++ l) = string_of_list_ascii k +:+ string_of_list_ascii l.
Proof.
  induction k as [|c k IH]; [reflexivity|].
  cbn [app string_of_list_ascii]. rewrite IH. reflexivity.
Qed.

Lemma ends_with_refl s : ends_with s s = true.
Proof. apply bool_decide_eq_true. reflexivity. Qed.

Lemma ends_with_app suffix a b :
  ends_with suffix b = true -> ends_with suffix (a +:+ b) = true.
Proof.
  unfold ends_with. rewrite !bool_decide_eq_true, list_ascii_app. apply suffix_app_r.
Qed.

Lemma ends_with_split suffix s :
  ends_with suffix s = true -> exists pre, s = pre +:+ suffix.
Proof.
  unfold ends_with. rewrite bool_decide_eq_true. intros [k Hk].
  exists (string_of_list_ascii k).
  rewrite <- (string_of_list_ascii_of_string s), Hk, string_of_list_app.
  rewrite string_of_list_ascii_of_string. reflexivity.
Qed.

Lemma path_name_ends suffix name :
  plain_name suffix = true ->
  ends_with suffix name = true ->
  ends_with suffix (path_name name) = true.
Proof.
  intros Hplain (pre & ->)%ends_with_split.
  rewrite Reference.path_name_app by exact Hplain.
  apply ends_with_app, ends_with_refl.
Qed.

Ltac ends_with_suffix :=
  first [apply ends_with_refl | apply ends_with_app; ends_with_suffix].

Section ToCsv.
Context `{PandasLib}.

(** A file whose name ends in [suffix] is not a file whose last component
    ends otherwise. *)
Lemma open_csv_other dir name suffix target p :
  plain_name suffix = true ->
  ends_with suffix name = true ->
  ends_with suffix (path_name target) = false ->
  open_csv dir name = Some p ->
  p <> target.
Proof.
  intros Hsuffix Hname Hends Hopen ->.
  apply open_csv_name in Hopen.
  pose proof (path_name_ends suffix name Hsuffix Hname) as Hn.
  rewrite <- Hopen in Hn. congruence.
Qed.

Lemma to_csv_keeps dir name df suffix target fs :
  plain_name suffix = true ->
  ends_with suffix name = true ->
  ends_with suffix (path_name target) = false ->
  (to_csv dir name df fs).1 !! target = fs !! target.
Proof.
  intros Hsuffix Hname Hends. unfold to_csv, write.
  destruct (open_csv dir name) as [p|] eqn:Hopen; [|reflexivity].
  simpl. apply lookup_insert_ne.
  exact (open_csv_other dir name suffix target p Hsuffix Hname Hends Hopen).
Qed.

Lemma to_csv_opens dir name df fs :
  is_Some (open_csv dir name) -> exists fs', to_csv dir name df fs = (fs', Ok tt).
Proof. intros [p Hp]. unfold to_csv, write. rewrite Hp. eexists. reflexivity. Qed.

Lemma to_csv_plain dir name df fs fs' :
  plain_name name = true ->
  to_csv dir name df fs = (fs', Ok tt) ->
  fs' = <[dir +:+ "/" +:+ name := CsvText df]> fs.
Proof.
  intros Hplain. unfold to_csv, write.
  destruct (open_csv dir name) as [p|] eqn:Hopen; [|discriminate].
  apply open_csv_plain in Hopen as ->; [|exact Hplain]. intros [= <-]. reflexivity.
Qed.

Lemma to_csv_raise dir name df fs fs' e :
  to_csv dir name df fs = (fs', Raise e) ->
  fs' = fs /\ e = OSError (dir +:+ "/" +:+ name) /\ open_csv dir name = None.
Proof.
  unfold to_csv, write. destruct (open_csv dir name); [discriminate|].
  intros [= <- <-]. repeat split.
Qed.

End ToCsv.

(** ** Row counts of the frame operations *)

Lemma len_setitem df c dt values : len (setitem df c dt values) = len df.
Proof. reflexivity. Qed.

Lemma len_loc_setitem df mask c new : len (loc_setitem df mask c new) = len df.
Proof. unfold loc_setitem. destruct (getitem df c); reflexivity. Qed.

Lemma rows_dropped_add report rule table column act n notes :
  rows_dropped (add report rule table column act n notes)
  = rows_dropped report + (if bool_decide (act = "drop_duplicates") then n else 0).
Proof.
  unfold rows_dropped, add. simpl.
  rewrite filter_app, map_app, sum_list_with_app.
  rewrite filter_cons, filter_nil. simpl.
  destruct (decide (act = "drop_duplicates")) as [->|Hne].
  - rewrite bool_decide_eq_true_2 by reflexivity. simpl. lia.
  - rewrite bool_decide_eq_false_2 by exact Hne. simpl. lia.
Qed.

Section Steps.
Context `{PandasLib}.

Lemma trim_column_len st col : len (trim_column st col).1 = len st.1.
Proof.
  unfold trim_column. destruct st as [df n].
  destruct (getitem df col) as [s|]; [|reflexivity].
  case_bool_decide; reflexivity.
Qed.

Lemma trim_strings_len df cols report tname :
  len (trim_strings df cols report tname).1 = len df.
Proof.
  unfold trim_strings.
  assert (forall st, len (fold_left trim_column cols st).1 = len st.1) as Hfold.
  { induction cols as [|c cols IH]; intros st; simpl; [reflexivity|].
    rewrite IH. apply trim_column_len. }
  specialize (Hfold (df, 0)). destruct (fold_left trim_column cols (df, 0)). exact Hfold.
Qed.

Lemma trim_strings_report df cols report tname :
  rows_dropped (trim_strings df cols report tname).2 = rows_dropped report
  /\ total_rows_before (trim_strings df cols report tname).2 = total_rows_before report.
Proof.
  unfold trim_strings. destruct (fold_left trim_column cols (df, 0)) as [df' n]. simpl.
  destruct (0 <? n); [|split; reflexivity].
  rewrite rows_dropped_add. simpl. split; [lia | reflexivity].
Qed.

Lemma clip_range_rows df column lo hi report tname qdir fs fs' df' report' :
  clip_range df column lo hi report tname qdir fs = (fs', Ok (df', report')) ->
  len df' = len df
  /\ rows_dropped report' = rows_dropped report
  /\ total_rows_before report' = total_rows_before report.
Proof.
  unfold clip_range. destruct (getitem df column) as [col|].
  2:{ intros [= <- <- <-]. repeat split. }
  destruct (0 <? _).
  - unfold io_bind. destruct (to_csv _ _ _ fs) as [fs1 [[]|e]]; [|discriminate].
    intros [= <- <- <-]. simpl. rewrite rows_dropped_add. simpl. repeat split. lia.
  - intros [= <- <- <-]. repeat split.
Qed.

Lemma enforce_enum_rows df column allowed report tname qdir fs fs' df' report' :
  enforce_enum df column allowed report tname qdir fs = (fs', Ok (df', report')) ->
  df' = df
  /\ rows_dropped report' = rows_dropped report
  /\ total_rows_before report' = total_rows_before report.
Proof.
  unfold enforce_enum. destruct (getitem df column) as [col|].
  2:{ intros [= <- <- <-]. repeat split. }
  destruct (0 <? _).
  - unfold io_bind. destruct (to_csv _ _ _ fs) as [fs1 [[]|e]]; [|discriminate].
    intros [= <- <- <-]. simpl. rewrite rows_dropped_add. simpl. repeat split. lia.
  - intros [= <- <- <-]. repeat split.
Qed.

Lemma fill_nulls_rows df column v report tname :
  len (fill_nulls df column v report tname).1 = len df
  /\ rows_dropped (fill_nulls df column v report tname).2 = rows_dropped report
  /\ total_rows_before (fill_nulls df column v report tname).2 = total_rows_before report.
Proof.
  unfold fill_nulls. destruct (getitem df column) as [col|]; [|repeat split].
  destruct (0 <? _); [|repeat split]. simpl.
  rewrite len_loc_setitem, rows_dropped_add. simpl. repeat split. lia.
Qed.

Lemma parse_dates_rows df column fmt report tname qdir fs fs' df' report' :
  parse_dates df column fmt report tname qdir fs = (fs', Ok (df', report')) ->
  len df' = len df
  /\ rows_dropped report' = rows_dropped report
  /\ total_rows_before report' = total_rows_before report.
Proof.
  unfold parse_dates. destruct (getitem df column) as [col|].
  2:{ intros [= <- <- <-]. repeat split. }
  unfold io_bind.
  destruct (0 <? sum_bool (zip_with _ _ _)).
  - destruct (to_csv _ _ _ fs) as [fs1 [[]|e]]; [|discriminate]. simpl.
    destruct (0 <? sum_bool (map _ _)); intros [= <- <- <-]; simpl;
      rewrite ?len_loc_setitem, ?rows_dropped_add; simpl; repeat split; lia.
  - simpl. destruct (0 <? sum_bool (map _ _)); intros [= <- <- <-]; simpl;
      rewrite ?len_loc_setitem; repeat split.
Qed.

Lemma drop_exact_duplicates_rows df subset report tname qdir fs fs' df' report' :
  drop_exact_duplicates df subset report tname qdir fs = (fs', Ok (df', report')) ->
  len df' + rows_dropped report' = len df + rows_dropped report
  /\ total_rows_before report' = total_rows_before report
  /\ len df' <= len df.
Proof.
  unfold drop_exact_duplicates.
  destruct (duplicated df _) as [mask|e] eqn:Hdup; [|discriminate].
  apply duplicated_length in Hdup.
  destruct (0 <? sum_bool mask).
  - unfold io_bind. destruct (to_csv _ _ _ fs) as [fs1 [[]|e]]; [|discriminate].
    intros [= <- <- <-]. simpl. rewrite rows_dropped_add. simpl.
    pose proof (sum_bool_negb mask). split; [lia|]. split; [reflexivity | lia].
  - intros [= <- <- <-]. split; [reflexivity|]. split; [reflexivity | lia].
Qed.

(** ** The steps leave the other files alone *)

(** Writing a quarantine file and going on without writing keeps a file
    whose name ends otherwise. *)
Lemma keeps_to_csv_then {A} dir name content suffix target (a : A) :
  plain_name suffix = true ->
  ends_with suffix name = true ->
  ends_with suffix (path_name target) = false ->
  keeps_file target (_ <~ to_csv dir name content ;; ret a).
Proof.
  intros Hsuffix Hname Hends fs.
  pose proof (to_csv_keeps dir name content suffix target fs Hsuffix Hname Hends) as Hkeep.
  unfold io_bind. destruct (to_csv dir name content fs) as [fs1 [[]|e]]; exact Hkeep.
Qed.

Lemma report_other : other_file fix_report_path.
Proof. repeat constructor. Qed.

Lemma other_file_inv target :
  other_file target ->
  ends_with "_duplicate_rows.csv" (path_name target) = false
  /\ ends_with "_range_clipped.csv" (path_name target) = false
  /\ ends_with "_enum_invalid.csv" (path_name target) = false
  /\ ends_with "_unparsed_dates.csv" (path_name target) = false.
Proof.
  unfold other_file, quarantine_suffixes. rewrite !Forall_cons. tauto.
Qed.

Lemma keeps_clip_range target df column lo hi report tname qdir :
  other_file target ->
  keeps_file target (clip_range df column lo hi report tname qdir).
Proof.
  intros (_ & Hends & _)%other_file_inv.
  unfold clip_range. destruct (getitem df column); [|intros fs; reflexivity].
  destruct (0 <? _); [|intros fs; reflexivity].
  apply (keeps_to_csv_then _ _ _ "_range_clipped.csv"); [reflexivity | | exact Hends].
  ends_with_suffix.
Qed.

Lemma keeps_enforce_enum target df column allowed report tname qdir :
  other_file target ->
  keeps_file target (enforce_enum df column allowed report tname qdir).
Proof.
  intros (_ & _ & Hends & _)%other_file_inv.
  unfold enforce_enum. destruct (getitem df column); [|intros fs; reflexivity].
  destruct (0 <? _); [|intros fs; reflexivity].
  apply (keeps_to_csv_then _ _ _ "_enum_invalid.csv"); [reflexivity | | exact Hends].
  ends_with_suffix.
Qed.

Lemma keeps_parse_dates target df column fmt report tname qdir :
  other_file target ->
  keeps_file target (parse_dates df column fmt report tname qdir).
Proof.
  intros (_ & _ & _ & Hends)%other_file_inv.
  intros fs. unfold parse_dates. destruct (getitem df column); [|reflexivity].
  unfold io_bind at 1.
  destruct (0 <? sum_bool (zip_with _ _ _)).
  - match goal with
    | |- context [io_bind (to_csv ?d ?n ?c) (fun _ => ret ?a) fs] =>
        pose proof (keeps_to_csv_then d n c "_unparsed_dates.csv" target a
                      eq_refl ltac:(ends_with_suffix) Hends fs) as Hkeep;
        destruct (io_bind (to_csv d n c) (fun _ => ret a) fs) as [fs1 [r|e]]
    end; [|exact Hkeep].
    destruct (0 <? sum_bool (map _ _)); exact Hkeep.
  - simpl. destruct (0 <? sum_bool (map _ _)); reflexivity.
Qed.

Lemma keeps_drop_exact_duplicates target df subset report tname qdir :
  other_file target ->
  keeps_file target (drop_exact_duplicates df subset report tname qdir).
Proof.
  intros (Hends & _)%other_file_inv.
  unfold drop_exact_duplicates.
  destruct (duplicated df _); [|intros fs; reflexivity].
  destruct (0 <? _); [|intros fs; reflexivity].
  apply (keeps_to_csv_then _ _ _ "_duplicate_rows.csv"); [reflexivity | | exact Hends].
  ends_with_suffix.
Qed.

(** ** The loops *)

Lemma step_ok_fix_column_check tname cname st chk :
  step_ok st (fix_column_check tname cname st chk).
Proof.
  destruct st as [df report]. unfold fix_column_check.
  repeat match goal with |- context [String.eqb ?a ?b] => destruct (String.eqb a b) end.
  - split; [apply (keeps_clip_range fix_report_path), report_other|].
    intros fs st' Hres.
    destruct (clip_range _ _ _ _ _ _ _ fs) as [fs' [[df' report']|e]] eqn:Heq;
      [|discriminate].
    injection Hres as <-. apply clip_range_rows in Heq as (Hlen & Hdrop & Hbefore).
    simpl. split; [lia | exact Hbefore].
  - destruct (allowed chk) as [al|]; [|apply step_ok_ret].
    split; [apply (keeps_enforce_enum fix_report_path), report_other|].
    intros fs st' Hres.
    destruct (enforce_enum _ _ _ _ _ _ fs) as [fs' [[df' report']|e]] eqn:Heq;
      [|discriminate].
    injection Hres as <-. apply enforce_enum_rows in Heq as (-> & Hdrop & Hbefore).
    simpl. split; [lia | exact Hbefore].
  - destruct (fill_value chk) as [v|]; [|apply step_ok_ret].
    split; [intros fs; reflexivity|].
    intros fs st' [= <-].
    destruct (fill_nulls_rows df cname v report tname) as (Hlen & Hdrop & Hbefore).
    simpl. split; [lia | exact Hbefore].
  - split; [apply (keeps_parse_dates fix_report_path), report_other|].
    intros fs st' Hres.
    destruct (parse_dates _ _ _ _ _ _ fs) as [fs' [[df' report']|e]] eqn:Heq;
      [|discriminate].
    injection Hres as <-. apply parse_dates_rows in Heq as (Hlen & Hdrop & Hbefore).
    simpl. split; [lia | exact Hbefore].
  - apply step_ok_ret.
Qed.

Lemma step_ok_fix_column_checks tname cname chks : forall st,
  step_ok st (fix_column_checks tname cname chks st).
Proof.
  induction chks as [|chk chks IH]; intros st; simpl; [apply step_ok_ret|].
  apply step_ok_bind; [apply step_ok_fix_column_check | exact IH].
Qed.

Lemma step_ok_fix_columns tname cols : forall st,
  step_ok st (fix_columns tname cols st).
Proof.
  induction cols as [|col cols IH]; intros st; simpl; [apply step_ok_ret|].
  apply step_ok_bind; [apply step_ok_fix_column_checks | exact IH].
Qed.

Lemma step_ok_fix_table_checks tname chks : forall st,
  step_ok st (fix_table_checks tname chks st).
Proof.
  induction chks as [|chk chks IH]; intros st; simpl; [apply step_ok_ret|].
  destruct (String.eqb _ _); [|apply IH].
  apply step_ok_bind; [|exact IH].
  split; [apply (keeps_drop_exact_duplicates fix_report_path), report_other|].
  intros fs [df' report'] Hres.
  destruct (drop_exact_duplicates _ _ _ _ _ fs) as [fs' r] eqn:Heq. simpl in Hres. subst r.
  apply drop_exact_duplicates_rows in Heq as (Hrows & Hbefore & _).
  split; [exact Hrows | exact Hbefore].
Qed.

Lemma step_ok_fix_tables tables : forall st,
  step_ok st (fix_tables tables st).
Proof.
  induction tables as [|t tables IH]; intros st; simpl; [apply step_ok_ret|].
  pose proof (trim_strings_len st.1 (columns st.1) st.2 (table_name t)) as Hlen.
  pose proof (trim_strings_report st.1 (columns st.1) st.2 (table_name t)) as [Hdrop Hbefore].
  set (st1 := trim_strings st.1 (columns st.1) st.2 (table_name t)) in *.
  assert (step_ok st1 (st2 <~ fix_table_checks (table_name t) (t_checks t) st1 ;;
                       st3 <~ fix_columns (table_name t) (t_columns t) st2 ;;
                       fix_tables tables st3)) as [Hf Hr].
  { apply step_ok_bind; [apply step_ok_fix_table_checks|]. intros st2.
    apply step_ok_bind; [apply step_ok_fix_columns | exact IH]. }
  split; [exact Hf|].
  intros fs st' Hres. destruct (Hr fs st' Hres) as [Hrows Hb].
  split; [lia | congruence].
Qed.

End Steps.

(** ** The fix pipeline returns when its quarantine files open *)

Lemma columns_setitem df c dt values : columns (setitem df c dt values) = columns df.
Proof.
  unfold columns, setitem. simpl.
  induction (data df) as [|s l IH]; simpl; [reflexivity|].
  case_bool_decide as Hname; simpl; [rewrite Hname; reflexivity | rewrite IH; reflexivity].
Qed.

Lemma columns_loc_setitem df mask c new : columns (loc_setitem df mask c new) = columns df.
Proof.
  unfold loc_setitem. destruct (getitem df c); [apply columns_setitem | reflexivity].
Qed.

Lemma columns_loc df mask : columns (loc df mask) = columns df.
Proof. unfold columns, loc. simpl. rewrite map_map. reflexivity. Qed.

Section Returns.
Context `{PandasLib}.

Lemma trim_strings_columns df cols report tname :
  columns (trim_strings df cols report tname).1 = columns df.
Proof.
  unfold trim_strings.
  assert (forall st, columns (fold_left trim_column cols st).1 = columns st.1) as Hfold.
  { induction cols as [|c cols IH]; intros st; simpl; [reflexivity|].
    rewrite IH. unfold trim_column. destruct st as [df0 n].
    destruct (getitem df0 c); [|reflexivity].
    case_bool_decide; [apply columns_setitem | reflexivity]. }
  specialize (Hfold (df, 0)). destruct (fold_left trim_column cols (df, 0)). exact Hfold.
Qed.

Lemma returns_ret st : returns st (ret st).
Proof. intros fs. exists fs, st. split; reflexivity. Qed.

Lemma returns_bind st m k :
  returns st m ->
  (forall st1, columns st1.1 = columns st.1 -> returns st1 (k st1)) ->
  returns st (io_bind m k).
Proof.
  intros Hm Hk fs. destruct (Hm fs) as (fs1 & st1 & Heq & Hcols).
  destruct (Hk st1 Hcols fs1) as (fs2 & st2 & Heq2 & Hcols2).
  exists fs2, st2. unfold io_bind. rewrite Heq. split; [exact Heq2 | congruence].
Qed.

Lemma returns_fix_column_check tname cname st chk :
  Forall (fun name => is_Some (open_csv quarantine_dir name))
    (column_quarantine_names tname cname) ->
  returns st (fix_column_check tname cname st chk).
Proof.
  intros Hopen. unfold column_quarantine_names in Hopen.
  apply Forall_cons in Hopen as [[p1 Hp1] Hopen].
  apply Forall_cons in Hopen as [[p2 Hp2] Hopen].
  apply Forall_cons in Hopen as [[p3 Hp3] _].
  destruct st as [df report]. intros fs. unfold fix_column_check.
  repeat match goal with |- context [String.eqb ?a ?b] => destruct (String.eqb a b) end.
  - unfold clip_range. destruct (getitem df cname); [|eexists _, _; split; reflexivity].
    unfold io_bind, to_csv, write. rewrite Hp1.
    destruct (0 <? _); eexists _, _; (split; [reflexivity|]); simpl;
      rewrite ?columns_setitem; reflexivity.
  - destruct (allowed chk); [|eexists _, _; split; reflexivity].
    unfold enforce_enum. destruct (getitem df cname); [|eexists _, _; split; reflexivity].
    unfold io_bind, to_csv, write. rewrite Hp2.
    destruct (0 <? _); eexists _, _; split; reflexivity.
  - destruct (fill_value chk); [|eexists _, _; split; reflexivity].
    eexists _, _. split; [reflexivity|]. simpl.
    unfold fill_nulls. destruct (getitem df cname); [|reflexivity].
    destruct (0 <? _); [apply columns_loc_setitem | reflexivity].
  - unfold parse_dates. destruct (getitem df cname); [|eexists _, _; split; reflexivity].
    unfold io_bind, to_csv, write. rewrite Hp3.
    destruct (0 <? sum_bool (zip_with _ _ _)); simpl;
      destruct (0 <? sum_bool (map _ _)); simpl;
      eexists _, _; (split; [reflexivity|]); simpl;
      rewrite ?columns_loc_setitem; reflexivity.
  - eexists _, _. split; reflexivity.
Qed.

Lemma returns_fix_column_checks tname cname chks : forall st,
  Forall (fun name => is_Some (open_csv quarantine_dir name))
    (column_quarantine_names tname cname) ->
  returns st (fix_column_checks tname cname chks st).
Proof.
  induction chks as [|chk chks IH]; intros st Hopen; simpl; [apply returns_ret|].
  apply returns_bind; [apply returns_fix_column_check, Hopen | intros st1 _; apply IH, Hopen].
Qed.

Lemma returns_fix_columns tname cols : forall st,
  Forall (fun name => is_Some (open_csv quarantine_dir name))
    (flat_map (fun col => column_quarantine_names tname (col_name col)) cols) ->
  returns st (fix_columns tname cols st).
Proof.
  induction cols as [|col cols IH]; intros st Hopen; simpl; [apply returns_ret|].
  cbn [flat_map] in Hopen. apply Forall_app in Hopen as [Hcol Hrest].
  apply returns_bind; [apply returns_fix_column_checks, Hcol | intros st1 _; apply IH, Hrest].
Qed.

Lemma returns_fix_table_checks tname chks : forall st,
  is_Some (open_csv quarantine_dir (tname +:+ "_duplicate_rows.csv")) ->
  Forall (fun chk => ctype chk = "duplicate" ->
            Forall (fun c => c ∈ columns st.1) (subset_or (subset chk) (columns st.1)))
         chks ->
  returns st (fix_table_checks tname chks st).
Proof.
  intros st [p Hp]. revert st.
  induction chks as [|chk chks IH]; intros st Hsub; simpl; [apply returns_ret|].
  apply Forall_cons in Hsub as [Hchk Hrest].
  destruct (String.eqb_spec (ctype chk) "duplicate") as [Htype|_]; [|apply IH, Hrest].
  apply returns_bind.
  - intros fs. unfold drop_exact_duplicates.
    specialize (Hchk Htype). rewrite Forall_forall in Hchk.
    destruct (duplicated_spec st.1 _ Hchk) as (mask & -> & _).
    unfold io_bind, to_csv, write. rewrite Hp.
    destruct (0 <? _); eexists _, _; (split; [reflexivity|]); simpl;
      rewrite ?columns_loc; reflexivity.
  - intros st1 Hcols. apply IH. rewrite Hcols. exact Hrest.
Qed.

(** The fix pipeline returns a frame and a report whenever the subsets of
    the [duplicate] checks name columns of the dataset and the quarantine
    files open. *)
Lemma fix_tables_returns tables : forall st,
  subsets_exist tables (columns st.1) ->
  quarantine_opens tables ->
  returns st (fix_tables tables st).
Proof.
  induction tables as [|t tables IH]; intros st Hsub Hopen; simpl; [apply returns_ret|].
  apply Forall_cons in Hsub as [Ht Hrest].
  apply Forall_cons in Hopen as [Hnames Hopen]. unfold quarantine_names in Hnames.
  apply Forall_cons in Hnames as [Hdup Hcols].
  pose proof (trim_strings_columns st.1 (columns st.1) st.2 (table_name t)) as Hlabels.
  set (st1 := trim_strings st.1 (columns st.1) st.2 (table_name t)) in *.
  intros fs.
  assert (returns st1 (st2 <~ fix_table_checks (table_name t) (t_checks t) st1 ;;
                       st3 <~ fix_columns (table_name t) (t_columns t) st2 ;;
                       fix_tables tables st3)) as Hret.
  { apply returns_bind; [apply returns_fix_table_checks; [exact Hdup | rewrite Hlabels; exact Ht]|].
    intros st2 Hcols2. apply returns_bind; [apply returns_fix_columns, Hcols|].
    intros st3 Hcols3. apply IH; [|exact Hopen]. unfold subsets_exist.
    rewrite Hcols3, Hcols2, Hlabels. exact Hrest. }
  destruct (Hret fs) as (fs' & st' & Heq & Hcols').
  exists fs', st'. split; [exact Heq | congruence].
Qed.

End Returns.

Section Stage.
Context `{PandasLib}.

Lemma fix_tables_rows tables df fs fs' st :
  fix_tables tables (df, initial_report df) fs = (fs', Ok st) ->
  len df = len st.1 + rows_dropped st.2
  /\ total_rows_before st.2 = Some (len df).
Proof.
  intros Hrun. destruct (step_ok_fix_tables tables (df, initial_report df)) as [_ Hr].
  destruct (Hr fs st) as [Hrows Hbefore]; [rewrite Hrun; reflexivity|].
  simpl in *. unfold rows_dropped in Hrows at 2. simpl in Hrows.
  split; [lia | exact Hbefore].
Qed.

(** C7.  The report of a fix run has [total_rows_after <= total_rows_before],
    and the difference is what the [drop_duplicates] actions removed: of the
    six fix steps, [trim_strings], [clip_range], [enforce_enum], [fill_nulls]
    and [parse_dates] return a frame with as many rows as they were given,
    and [drop_exact_duplicates] returns one with no more rows.  Stated for
    the runs of the fix loop that return a frame and a report, and for the
    steps that return. *)
Theorem fix_report_row_counts (tables : list TableRule) (df : DataFrame)
    (fs fs' : files) (st : DataFrame * FixReport) :
  fix_tables tables (df, initial_report df) fs = (fs', Ok st) ->
  (let report := final_report st in
   total_rows_before report = Some (len df)
   /\ total_rows_after report = Some (len st.1)
   /\ len st.1 <= len df
   /\ len df = len st.1 + rows_dropped report)
  /\ (forall df cols report tname,
        len (trim_strings df cols report tname).1 = len df)
  /\ (forall df column lo hi report tname qdir fs fs' df' report',
        clip_range df column lo hi report tname qdir fs = (fs', Ok (df', report')) ->
        len df' = len df)
  /\ (forall df column allowed report tname qdir fs fs' df' report',
        enforce_enum df column allowed report tname qdir fs = (fs', Ok (df', report')) ->
        len df' = len df)
  /\ (forall df column v report tname,
        len (fill_nulls df column v report tname).1 = len df)
  /\ (forall df column fmt report tname qdir fs fs' df' report',
        parse_dates df column fmt report tname qdir fs = (fs', Ok (df', report')) ->
        len df' = len df)
  /\ (forall df subset report tname qdir fs fs' df' report',
        drop_exact_duplicates df subset report tname qdir fs = (fs', Ok (df', report')) ->
        len df' <= len df).
Proof.
  intros Hrun.
  split; [|split; [|split; [|split; [|split; [|split]]]]].
  - intros report.
    destruct (fix_tables_rows _ _ _ _ _ Hrun) as [Hrows Hbefore].
    subst report. unfold final_report. simpl.
    split; [exact Hbefore|]. split; [reflexivity|].
    change (rows_dropped _) with (rows_dropped st.2). split; lia.
  - intros. apply trim_strings_len.
  - intros df0 column lo hi report0 tname qdir fs0 fs1 df1 report1 Heq.
    apply clip_range_rows in Heq as (Hlen & _). exact Hlen.
  - intros df0 column al report0 tname qdir fs0 fs1 df1 report1 Heq.
    apply enforce_enum_rows in Heq as (-> & _). reflexivity.
  - intros. apply fill_nulls_rows.
  - intros df0 column fmt report0 tname qdir fs0 fs1 df1 report1 Heq.
    apply parse_dates_rows in Heq as (Hlen & _). exact Hlen.
  - intros df0 subset report0 tname qdir fs0 fs1 df1 report1 Heq.
    apply drop_exact_duplicates_rows in Heq as (_ & _ & Hle). exact Hle.
Qed.

Lemma guardrails_raise args report df fs fs' e :
  guardrails args report df fs = (fs', Raise e) -> fs' = fs.
Proof.
  unfold guardrails, cell_guardrail, io_bind, raise, ret, write.
  destruct (total_rows_before report) as [[|n]|]; try (intros [=]; fail).
  destruct (PrimFloat.ltb _ _); [intros [= <- _]; reflexivity|].
  destruct (total_cells _ _); [intros [=]|].
  destruct (PrimFloat.ltb (max_cell_changes_pct args) _);
    [intros [= <- _]; reflexivity | intros [=]].
Qed.

Lemma guardrails_pass args report df fs fs' n :
  total_rows_before report = Some (S n) ->
  guardrails args report df fs = (fs', Ok tt) ->
  fs' = <[fix_report_path := JsonText (to_dict report)]> fs
  /\ PrimFloat.ltb (max_impact_pct args) (impact_pct report (S n)) = false
  /\ (total_cells (S n) df = 0 \/
      PrimFloat.ltb (max_cell_changes_pct args)
        (cell_pct report (total_cells (S n) df)) = false).
Proof.
  intros Hbefore. unfold guardrails, cell_guardrail, io_bind, raise, ret, write.
  rewrite Hbefore.
  destruct (PrimFloat.ltb _ _) eqn:Himpact; [intros [=]|].
  destruct (total_cells (S n) df) as [|c] eqn:Hcells.
  - intros Heq. injection Heq as <-. split; [reflexivity|]. split; [reflexivity | left; reflexivity].
  - destruct (PrimFloat.ltb (max_cell_changes_pct args) _) eqn:Hcell; [intros [=]|].
    intros Heq. injection Heq as <-. split; [reflexivity|]. split; [reflexivity | right; reflexivity].
Qed.

(** C1 (as amended).  In a fix run the report is written to
    [fix_report.json] only after both guardrails have passed: a run that
    raises -- on the row-impact guardrail, on the cell-change guardrail, or
    earlier -- leaves [fix_report.json] as it was before the run, and a run
    on a non-empty dataset that completes has written the report and passed
    both guardrails. *)
Theorem fix_report_written_after_guardrails (args : Args) (tables : list TableRule)
    (df : DataFrame) (fs fs' : files) (out : result DataFrame) :
  fix_stage args tables df fs = (fs', out) ->
  (forall e, out = Raise e -> fs' !! fix_report_path = fs !! fix_report_path)
  /\ (forall df', out = Ok df' ->
        fix_ args || fix_dry_run args = true ->
        0 < len df ->
        exists report,
          fs' !! fix_report_path = Some (JsonText (to_dict report))
          /\ total_rows_before report = Some (len df)
          /\ total_rows_after report = Some (len df')
          /\ PrimFloat.ltb (max_impact_pct args) (impact_pct report (len df)) = false
          /\ (total_cells (len df) df' = 0 \/
              PrimFloat.ltb (max_cell_changes_pct args)
                (cell_pct report (total_cells (len df) df')) = false)).
Proof.
  unfold fix_stage. destruct (fix_ args || fix_dry_run args) eqn:Hmode.
  2:{ intros [= <- <-]. split; [intros e [=] | intros df' _ [=]]. }
  unfold io_bind.
  destruct (step_ok_fix_tables tables (df, initial_report df)) as [Hfile _].
  specialize (Hfile fs).
  destruct (fix_tables tables (df, initial_report df) fs) as [fs1 [st|e1]] eqn:Hrun;
    simpl in Hfile.
  2:{ intros [= <- <-]. split; [intros e _; exact Hfile | intros df' [=]]. }
  destruct (fix_tables_rows _ _ _ _ _ Hrun) as [_ Hbefore].
  destruct (guardrails args (final_report st) st.1 fs1) as [fs2 [[]|e2]] eqn:Hguard.
  2:{ apply guardrails_raise in Hguard as ->.
      intros [= <- <-]. split; [intros e _; exact Hfile | intros df' [=]]. }
  intros Hout.
  assert (fs' !! fix_report_path = fs2 !! fix_report_path /\ out = Ok st.1) as [Hfs' ->].
  { revert Hout. unfold write, ret.
    destruct (fix_ args && negb (fix_dry_run args)); intros [= <- <-].
    - split; [|reflexivity]. apply lookup_insert_ne. discriminate.
    - split; reflexivity. }
  split; [intros e [=]|].
  intros df' [= <-] _ Hpos.
  destruct (len df) as [|n] eqn:Hlen; [lia|].
  destruct (guardrails_pass args (final_report st) st.1 fs1 fs2 n) as (-> & Himpact & Hcell);
    [exact Hbefore | exact Hguard |].
  exists (final_report st).
  split; [rewrite Hfs'; apply lookup_insert_eq|].
  split; [exact Hbefore|]. split; [reflexivity|].
  split; [exact Himpact | exact Hcell].
Qed.

End Stage.

(** ** [clip_range] on a column with text that is no number *)

Section Clip.
Context `{PandasLib}.

(** What [clip_range] does to an existing column: nothing when no coerced
    value lies outside the bounds; otherwise the whole column becomes the
    coerced and clipped series, so a cell that failed coercion becomes NaN. *)
Lemma clip_range_assigns_whole_column df column lo hi report tname qdir fs col
    fs' df' report' :
  getitem df column = Some col ->
  clip_range df column lo hi report tname qdir fs = (fs', Ok (df', report')) ->
  let changed c :=
    match to_numeric c with
    | Some v => ne_num (Some v) (clip lo hi (Some v))
    | None => false
    end in
  (sum_bool (map changed (s_values col)) = 0 -> df' = df /\ report' = report)
  /\ (0 < sum_bool (map changed (s_values col)) ->
      df' = setitem df column numeric
              (map (fun c => of_numeric (clip lo hi (to_numeric c))) (s_values col))).
Proof.
  intros Hcol Hrun changed. revert Hrun. unfold clip_range. rewrite Hcol.
  rewrite zip_with_map_r, !map_map.
  assert (map (fun c => ne_num (to_numeric c) (clip lo hi (to_numeric c))
                        && bool_decide (to_numeric c <> None)) (s_values col)
          = map changed (s_values col)) as ->.
  { apply map_ext. intros c. unfold changed.
    destruct (to_numeric c) as [v|].
    - rewrite bool_decide_eq_true_2 by discriminate. apply andb_true_r.
    - rewrite bool_decide_eq_false_2 by (intros Hn; apply Hn; reflexivity).
      apply andb_false_r. }
  destruct (sum_bool (map changed (s_values col))) as [|n] eqn:Hn.
  - intros [= <- <- <-]. split; [intros _; split; reflexivity | lia].
  - cbn [Nat.ltb Nat.leb]. unfold io_bind.
    destruct (to_csv _ _ _ fs) as [fs1 [[]|e]]; [|discriminate].
    intros [= <- <- <-]. split; [discriminate | intros _; reflexivity].
Qed.

(** With bounds in order, [clip_range] counts a cell exactly when its value
    coerces to a number strictly below [min] or strictly above [max]. *)
Lemma clip_changes_outside (lo hi : option Q) (v : Q) :
  (forall l h, lo = Some l -> hi = Some h -> (l <= h)%Q) ->
  ne_num (Some v) (clip lo hi (Some v)) = true
  <-> (exists l, lo = Some l /\ (v < l)%Q) \/ (exists h, hi = Some h /\ (h < v)%Q).
Proof.
  intros Hord. unfold clip.
  assert (ordered_bounds lo hi = (lo, hi)) as ->.
  { destruct lo as [l|], hi as [h|]; try reflexivity. simpl.
    rewrite (proj2 (Qle_bool_iff l h) (Hord l h eq_refl eq_refl)). reflexivity. }
  clear Hord. unfold ne_num, clamp. rewrite negb_true_iff.
  assert (forall a b, Qle_bool a b = false <-> (b < a)%Q) as Hlt.
  { intros a b. split.
    - intros Hf. apply Qnot_le_lt. intros Hle. apply Qle_bool_iff in Hle. congruence.
    - intros Hba. destruct (Qle_bool a b) eqn:E; [|reflexivity].
      apply Qle_bool_iff in E. exfalso. exact (Qlt_not_le _ _ Hba E). }
  assert (forall a b, Qeq_bool a b = false <-> ~ (a == b)%Q) as Hne.
  { intros a b. split.
    - intros Hf Heq. apply Qeq_bool_iff in Heq. congruence.
    - intros Hn. destruct (Qeq_bool a b) eqn:E; [|reflexivity].
      apply Qeq_bool_iff in E. contradiction. }
  destruct hi as [h|]; [destruct (Qle_bool v h) eqn:Eh|].
  - destruct lo as [l|]; [destruct (Qle_bool l v) eqn:El|].
    + rewrite (proj2 (Qeq_bool_iff v v)) by reflexivity. split; [discriminate|].
      intros [(l' & [= <-] & Hl)|(h' & [= <-] & Hh)].
      * apply Hlt in Hl. congruence.
      * apply Hlt in Hh. congruence.
    + rewrite Hne. apply Hlt in El. split.
      * intros _. left. exists l. split; [reflexivity | exact El].
      * intros _ Heq. rewrite Heq in El. exact (Qlt_irrefl _ El).
    + rewrite (proj2 (Qeq_bool_iff v v)) by reflexivity. split; [discriminate|].
      intros [(l' & [=] & _)|(h' & [= <-] & Hh)]. apply Hlt in Hh. congruence.
  - rewrite Hne. apply Hlt in Eh. split.
    + intros _. right. exists h. split; [reflexivity | exact Eh].
    + intros _ Heq. rewrite Heq in Eh. exact (Qlt_irrefl _ Eh).
  - destruct lo as [l|]; [destruct (Qle_bool l v) eqn:El|].
    + rewrite (proj2 (Qeq_bool_iff v v)) by reflexivity. split; [discriminate|].
      intros [(l' & [= <-] & Hl)|(h' & [=] & _)]. apply Hlt in Hl. congruence.
    + rewrite Hne. apply Hlt in El. split.
      * intros _. left. exists l. split; [reflexivity | exact El].
      * intros _ Heq. rewrite Heq in El. exact (Qlt_irrefl _ El).
    + rewrite (proj2 (Qeq_bool_iff v v)) by reflexivity. split; [discriminate|].
      intros [(l' & [=] & _)|(h' & [=] & _)].
Qed.

End Clip.

(** C2 (the code departs from the claim).  On the text column [abc, 25]
    with bounds 0 and 20, [clip_range] counts one affected cell and assigns
    the coerced, clipped series to the column: the cell [abc], which fails
    numeric coercion, is overwritten by NaN, where the claim leaves it
    unchanged. *)
Theorem clip_range_overwrites_uncoercible :
  exists fs' report',
    clip_range (H:=Reference.lib) payments "amount" (Some 0%Q) (Some 20%Q)
      new_report "test" quarantine_dir ∅
    = (fs', Ok (mkDataFrame 2 [mkSeries "amount" numeric [NaN; Num 20]], report'))
    /\ map affected (actions report') = [1]
    /\ cell_at payments "amount" 0 = Str "abc"
    /\ to_numeric (H:=Reference.lib) (Str "abc") = None.
Proof.
  eexists _, _. split; [vm_compute; reflexivity|].
  split; [reflexivity|]. split; reflexivity.
Qed.

(** ** Worked runs of the fix pipeline *)

(** A text column with padded and missing values: the padded cell is
    counted, the missing cell becomes [nan] and is not. *)
Lemma trim_strings_object_column_witness :
  exists df' s',
    trim_strings (H:=Reference.lib) contacts (columns contacts) new_report "t"
    = (df', add new_report "t_trim" "t" None "trim_strings" 1 "")
    /\ getitem df' "name" = Some s'
    /\ s_values s' = [Str "ann"; Str "nan"; Str "bob"].
Proof.
  assert (NoDup (columns contacts)) as Hnd
    by (apply (bool_decide_unpack _); reflexivity).
  destruct (trim_strings_object_column (H:=Reference.lib) contacts new_report "t" "name"
              (mkSeries "name" object [Str " ann "; NaN; Str "bob"])
              Hnd eq_refl eq_refl)
    as (df' & report' & s' & Hrun & Hcol & _ & Hvalues & _ & _ & Hreport & _).
  exists df', s'. split; [|split; [exact Hcol | exact Hvalues]].
  rewrite Hrun, Hreport. reflexivity.
Defined.

(** Four orders, one repeated id and one amount above the bound: one row
    is dropped, one cell is clipped, and the report accounts for both. *)
Lemma fix_report_row_counts_witness :
  exists fs' st,
    fix_tables (H:=Reference.lib) (duplicate_rules ++ ledger_rules)
      (orders, initial_report orders) ∅ = (fs', Ok st)
    /\ total_rows_before (final_report st) = Some 4
    /\ total_rows_after (final_report st) = Some 3
    /\ rows_dropped (final_report st) = 1.
Proof.
  pose (run := fix_tables (H:=Reference.lib) (duplicate_rules ++ ledger_rules)
                 (orders, initial_report orders) ∅).
  pose (st := match run.2 with Ok st => st | Raise _ => (orders, new_report) end).
  assert (run = (run.1, Ok st)) as Hrun by (vm_compute; reflexivity).
  destruct (fix_report_row_counts (H:=Reference.lib) _ _ _ _ _ Hrun)
    as ((Hbefore & Hafter & _ & Hsum) & _).
  exists run.1, st. split; [exact Hrun|].
  split; [exact Hbefore|]. split; [exact Hafter|].
  vm_compute. reflexivity.
Defined.

(** A real fix of the ledger: one clipped cell in twenty passes both
    guardrails, and the report is on disk afterwards. *)
Lemma fix_report_written_after_guardrails_witness :
  exists df' report,
    (fix_stage (H:=Reference.lib) real_fix ledger_rules ledger ∅).2 = Ok df'
    /\ (fix_stage (H:=Reference.lib) real_fix ledger_rules ledger ∅).1 !! fix_report_path
       = Some (JsonText (to_dict report))
    /\ total_rows_before report = Some 5
    /\ total_rows_after report = Some 5.
Proof.
  pose (run := fix_stage (H:=Reference.lib) real_fix ledger_rules ledger ∅).
  pose (df' := match run.2 with Ok df' => df' | Raise _ => ledger end).
  assert (run = (run.1, Ok df')) as Hrun by (vm_compute; reflexivity).
  destruct (fix_report_written_after_guardrails (H:=Reference.lib) _ _ _ _ _ _ Hrun)
    as [_ Hdone].
  destruct (Hdone df' eq_refl eq_refl ltac:(vm_compute; lia))
    as (report & Hfile & Hbefore & Hafter & _).
  exists df', report. fold run. rewrite Hrun.
  split; [reflexivity|]. split; [exact Hfile|]. split; [exact Hbefore | exact Hafter].
Defined.

(** C1, the claim as stated fails: a dry run that the cell-change guardrail
    aborts (one cell of two clipped, 50 percent against 5) ends with no
    [fix_report.json] in the output directory. *)
Lemma cell_guardrail_abort_leaves_no_report :
  exists observed allowed,
    (fix_stage (H:=Reference.lib) dry_run range_rules payments ∅).2
    = Raise (SystemExit CellChanges observed allowed)
    /\ (fix_stage (H:=Reference.lib) dry_run range_rules payments ∅).1 !! fix_report_path
       = None.
Proof. eexists _, _. split; vm_compute; reflexivity. Qed.

(** ** checks/run_checks.py: the null heatmap *)

Lemma frac_geb_total a b : frac_geb a b = false -> frac_geb b a = true.
Proof.
  destruct a as [x|], b as [y|]; simpl; try (reflexivity || discriminate).
  intros Hle. apply Qle_bool_iff. apply Qlt_le_weak, Qnot_le_lt.
  intros Hyx. apply Qle_bool_iff in Hyx. congruence.
Qed.

Lemma frac_geb_trans a b c :
  frac_geb a b = true -> frac_geb b c = true -> frac_geb a c = true.
Proof.
  destruct a as [x|], b as [y|], c as [z|]; simpl; try (reflexivity || discriminate).
  rewrite !Qle_bool_iff. intros Hyx Hzy. eapply Qle_trans; eassumption.
Qed.

Lemma insert_desc_perm x l : insert_desc x l ≡ₚ x :: l.
Proof.
  induction l as [|y l IH]; simpl; [reflexivity|].
  destruct (frac_geb x.2 y.2); [reflexivity|].
  rewrite IH. apply Permutation_swap.
Qed.

Lemma sort_values_desc_perm l : sort_values_desc l ≡ₚ l.
Proof.
  induction l as [|x l IH]; simpl; [reflexivity|].
  rewrite insert_desc_perm, IH. reflexivity.
Qed.

Lemma insert_desc_sorted x l : descending_fracs l -> descending_fracs (insert_desc x l).
Proof.
  unfold descending_fracs.
  induction l as [|y l IH]; intros Hs; simpl.
  - constructor; constructor.
  - apply StronglySorted_inv in Hs as [Hs Hy].
    destruct (frac_geb x.2 y.2) eqn:Hxy.
    + constructor; [constructor; assumption|].
      constructor; [exact Hxy|].
      eapply Forall_impl; [exact Hy|]. intros z Hz. simpl in Hz.
      eapply frac_geb_trans; eassumption.
    + constructor; [apply IH, Hs|].
      rewrite insert_desc_perm. constructor; [apply frac_geb_total, Hxy | exact Hy].
Qed.

Lemma sort_values_desc_sorted l : descending_fracs (sort_values_desc l).
Proof.
  induction l as [|x l IH]; simpl; [constructor | apply insert_desc_sorted, IH].
Qed.

Lemma filter_bool_perm {A} (f : A -> bool) (l l' : list A) :
  l ≡ₚ l' -> List.filter f l ≡ₚ List.filter f l'.
Proof.
  induction 1 as [|x l l' _ IH|x y l|l l' l'' _ IH1 _ IH2]; simpl.
  - reflexivity.
  - destruct (f x); [constructor; exact IH | exact IH].
  - destruct (f x), (f y); try reflexivity. apply Permutation_swap.
  - etransitivity; eassumption.
Qed.

Lemma filter_bool_sorted {A} (R : A -> A -> Prop) (f : A -> bool) (l : list A) :
  StronglySorted R l -> StronglySorted R (List.filter f l).
Proof.
  induction 1 as [|x l _ IH Hx]; simpl; [constructor|].
  destruct (f x); [|exact IH].
  constructor; [exact IH|].
  apply Forall_forall. intros y Hy.
  apply list_elem_of_In, filter_In in Hy as [Hy _].
  rewrite Forall_forall in Hx. apply Hx, list_elem_of_In, Hy.
Qed.

Lemma filter_bool_all {A} (f : A -> bool) (l : list A) :
  (forall x, x ∈ l -> f x = true) -> List.filter f l = l.
Proof.
  induction l as [|x l IH]; intros Hall; simpl; [reflexivity|].
  rewrite (Hall x) by apply list_elem_of_here.
  f_equal. apply IH. intros y Hy. apply Hall, list_elem_of_further, Hy.
Qed.

(** The fraction of missing values is positive exactly when one is missing. *)
Lemma positive_mean_isna (values : list cell) :
  positive (mean_isna values) = true <-> 0 < count_occ cell_eq_dec values NaN.
Proof.
  unfold mean_isna. rewrite sum_bool_isna.
  destruct (length values) as [|n] eqn:Hlen.
  - apply length_zero_iff_nil in Hlen as ->. simpl. split; [discriminate | lia].
  - unfold positive, Qlt_bool, Qle_bool. simpl.
    rewrite negb_true_iff, Z.leb_gt. lia.
Qed.

Lemma failing_null_cols_omap (checks : list CheckResult) :
  failing_null_cols checks = omap failing_null_col checks.
Proof.
  induction checks as [|r checks IH]; [reflexivity|].
  cbn [failing_null_cols omap list_omap]. unfold failing_null_col at 1.
  destruct (r_column r) as [[|a c]|]; [| |exact IH].
  - case_bool_decide as Hd; [|exact IH].
    destruct Hd as (_ & _ & Hne). contradiction.
  - destruct (String.eqb_spec (r_type r) "null_rate") as [Hty|Hty]; simpl.
    + case_bool_decide as Hst.
      * rewrite bool_decide_eq_true_2 by (split; [|split]; [assumption..|discriminate]).
        rewrite IH. reflexivity.
      * rewrite bool_decide_eq_false_2 by (intros (_ & Hst' & _); contradiction).
        exact IH.
    + rewrite bool_decide_eq_false_2 by (intros (Hty' & _ & _); contradiction).
      exact IH.
Qed.

(** C8 (as amended).  The [cols] of the null heatmap are: when a
    [null_rate] check is failing, the columns of the failing [null_rate]
    checks, one entry per failing check in check order (a column that two
    failing checks name appears twice); otherwise the columns whose fraction
    of missing values over the first 1000 rows is positive -- those with a
    missing value there -- in descending order of fraction.  Either way only
    columns of the dataset are kept and the list is cut to 14. *)
Theorem heatmap_cols_selection (checks : list CheckResult) (df : DataFrame) :
  let failing := omap failing_null_col checks in
  (failing <> [] ->
     heatmap_cols checks df = take 14 (List.filter (has_column df) failing))
  /\ (failing = [] ->
        exists l,
          l ≡ₚ List.filter (fun p => positive p.2) (head_fracs df)
          /\ descending_fracs l
          /\ heatmap_cols checks df = take 14 (map fst l))
  /\ (forall s, s ∈ data df ->
        positive (mean_isna (take 1000 (s_values s))) = true
        <-> 0 < count_occ cell_eq_dec (take 1000 (s_values s)) NaN)
  /\ length (heatmap_cols checks df) <= 14
  /\ (forall c, c ∈ heatmap_cols checks df -> c ∈ columns df)
  /\ (forall args,
        viz_data args checks df
        = if viz args
          then Some (heatmap_cols checks df, heatmap_grid df (heatmap_cols checks df))
          else None).
Proof.
  intros failing. subst failing. rewrite <- failing_null_cols_omap.
  split; [|split; [|split; [|split; [|split; [|reflexivity]]]]].
  - intros Hne. unfold heatmap_cols, candidate_cols.
    destruct (failing_null_cols checks); [contradiction | reflexivity].
  - intros Hnil. unfold heatmap_cols, candidate_cols. rewrite Hnil.
    set (l := List.filter (fun p => positive p.2) (sort_values_desc (head_fracs df))).
    exists l. split; [apply filter_bool_perm, sort_values_desc_perm|].
    split; [apply filter_bool_sorted, sort_values_desc_sorted|].
    f_equal. apply filter_bool_all. intros c Hc.
    apply list_elem_of_fmap in Hc as ([c' f] & -> & Hin).
    apply list_elem_of_In, filter_In in Hin as [Hin _].
    apply list_elem_of_In in Hin. rewrite sort_values_desc_perm in Hin.
    apply list_elem_of_fmap in Hin as (s & [= -> _] & Hs).
    apply bool_decide_eq_true. apply list_elem_of_fmap. exists s. split; [reflexivity | exact Hs].
  - intros s _. apply positive_mean_isna.
  - unfold heatmap_cols. rewrite length_take. lia.
  - intros c Hc. unfold heatmap_cols in Hc.
    apply subseteq_take in Hc.
    apply list_elem_of_In, filter_In in Hc as [_ Hc].
    apply bool_decide_eq_true in Hc. exact Hc.
Qed.

(** C8, the claim as stated fails: two failing [null_rate] checks on the
    column [notes] put it into [cols] twice, where the claim lists distinct
    columns. *)
Lemma heatmap_cols_repeat_counterexample :
  exists ev,
    evaluate (H:=Reference.lib) march_10 tickets null_rate_rules = Ok ev
    /\ map r_status (checks ev) = [fail; fail]
    /\ heatmap_cols (checks ev) tickets = ["notes"; "notes"]
    /\ ~ NoDup (heatmap_cols (checks ev) tickets).
Proof.
  eexists. split; [vm_compute; reflexivity|].
  split; [reflexivity|]. split; [reflexivity|].
  intros Hnd. apply NoDup_cons_1_1 in Hnd. apply Hnd, list_elem_of_here.
Qed.

(** Without a failing [null_rate] check the columns come from the
    fractions: [notes] is the one column of [tickets] with missing values. *)
Lemma heatmap_cols_example :
  heatmap_cols [] tickets = ["notes"].
Proof. reflexivity. Qed.

(** ** run_all.py: the summary block *)

Import RunAll.

(** *** The sort key is the [count] field *)

Lemma count_key_field (c : json) : count_key c = count_field c.
Proof.
  destruct c as [| | | | |l|kv]; try reflexivity.
  unfold count_key, count_field, c_get.
  destruct (get kv "count") as [[]|]; reflexivity.
Qed.

Lemma key_or_0_count (c : json) : key_or_0 c = count_of c.
Proof. unfold key_or_0, count_of. rewrite count_key_field. reflexivity. Qed.

(** *** The stable descending sort *)

Lemma insert_by_count_perm x l : insert_by_count x l ≡ₚ x :: l.
Proof.
  induction l as [|y l IH]; simpl; [reflexivity|].
  destruct (key_or_0 x <? key_or_0 y)%Z; [|reflexivity].
  rewrite IH. apply Permutation_swap.
Qed.

Lemma sort_perm l : fold_right insert_by_count [] l ≡ₚ l.
Proof.
  induction l as [|x l IH]; simpl; [reflexivity|].
  rewrite insert_by_count_perm, IH. reflexivity.
Qed.

Lemma insert_by_count_sorted x l : descending l -> descending (insert_by_count x l).
Proof.
  unfold descending.
  induction l as [|y l IH]; intros Hs; simpl.
  - constructor; constructor.
  - apply StronglySorted_inv in Hs as [Hs Hy]. rewrite !key_or_0_count.
    destruct (Z.ltb_spec (count_of x) (count_of y)) as [Hlt|Hge].
    + constructor; [apply IH, Hs|].
      rewrite insert_by_count_perm. constructor; [lia | exact Hy].
    + constructor; [constructor; assumption|].
      constructor; [exact Hge|].
      eapply Forall_impl; [exact Hy|]. intros z Hz. simpl in Hz. lia.
Qed.

Lemma sort_sorted l : descending (fold_right insert_by_count [] l).
Proof.
  induction l as [|x l IH]; simpl; [constructor | apply insert_by_count_sorted, IH].
Qed.

Lemma insert_by_count_ties x l k :
  List.filter (fun c => (count_of c =? k)%Z) (insert_by_count x l)
  = List.filter (fun c => (count_of c =? k)%Z) (x :: l).
Proof.
  induction l as [|y l IH]; [reflexivity|].
  cbn [insert_by_count]. rewrite !key_or_0_count.
  destruct (Z.ltb_spec (count_of x) (count_of y)) as [Hlt|Hge]; [|reflexivity].
  cbn [List.filter] in *. rewrite IH.
  destruct (Z.eqb_spec (count_of x) k) as [Hx|Hx];
    destruct (Z.eqb_spec (count_of y) k) as [Hy|Hy]; try reflexivity.
  lia.
Qed.

Lemma sort_ties l : keeps_ties l (fold_right insert_by_count [] l).
Proof.
  intros k. induction l as [|x l IH]; [reflexivity|].
  cbn [fold_right]. rewrite insert_by_count_ties. cbn [List.filter].
  rewrite IH. reflexivity.
Qed.

(** *** The [try] block *)

Lemma with_status_filter checks st :
  Forall is_check_result checks ->
  with_status checks st = Ok (List.filter (has_status st) checks).
Proof.
  induction 1 as [|c checks [[kv ->] _] _ IH]; [reflexivity|].
  cbn [with_status c_get bind]. rewrite IH. cbn [bind List.filter has_status].
  destruct (get kv "status") as [[]|]; reflexivity.
Qed.

Lemma sorted_by_count_desc_ok l :
  Forall is_check_result l ->
  sorted_by_count_desc l = Ok (fold_right insert_by_count [] l).
Proof.
  intros Hall. unfold sorted_by_count_desc.
  replace (forallb _ l) with true; [reflexivity|].
  symmetry. apply forallb_forall. intros c Hc.
  apply bool_decide_eq_true. rewrite Forall_forall in Hall.
  rewrite count_key_field. apply (Hall c). apply list_elem_of_In, Hc.
Qed.

Lemma set_item_fresh kv k v :
  get kv k = None -> set_item kv k v = kv ++ [(k, v)].
Proof.
  induction kv as [|[k' v'] kv IH]; simpl; [reflexivity|].
  destruct (String.eqb k' k); [discriminate|].
  intros Hget. rewrite IH by exact Hget. reflexivity.
Qed.

Lemma Forall_filter_bool {A} (P : A -> Prop) (f : A -> bool) l :
  Forall P l -> Forall P (List.filter f l).
Proof.
  induction 1 as [|x l Hx _ IH]; simpl; [constructor|].
  destruct (f x); [constructor; assumption | exact IH].
Qed.

(** C9.  Given a results document without a [summary] field whose checks
    are check results, the orchestrator writes back to [results.json] the
    document with a summary appended: [passed] and [failed] are recounted
    from the [checks] list, and [top_failing] is the first five of the
    failing checks put in descending order of their [count] field, checks
    of equal count keeping their original relative order -- so no failing
    check left out has a larger count than one taken. *)
Theorem summary_injected (r : Run) (fs : files) (kv : list (string * json))
    (checks : list json) :
  fs !! canonical_results = Some (JsonText (JDict kv)) ->
  get kv "summary" = None ->
  (get kv "checks" = Some (JList checks) \/ get kv "checks" = None /\ checks = []) ->
  Forall is_check_result checks ->
  exists ordered,
    summarise r fs !! canonical_results
    = Some (JsonText (JDict (kv ++
        [("summary",
          JDict [("dataset", JStr (dataset r));
                 ("mode", JStr (mode r));
                 ("timestamp", JStr (stamp r));
                 ("passed", JInt (Z.of_nat (length (List.filter (has_status "pass") checks))));
                 ("failed", JInt (Z.of_nat (length (List.filter (has_status "fail") checks))));
                 ("top_failing", JList (take 5 ordered))])])))
    /\ ordered ≡ₚ List.filter (has_status "fail") checks
    /\ descending ordered
    /\ keeps_ties (List.filter (has_status "fail") checks) ordered
    /\ (forall a b, a ∈ take 5 ordered -> b ∈ drop 5 ordered ->
          (count_of b <= count_of a)%Z).
Proof.
  intros Hfile Hsummary Hchecks Hall.
  exists (fold_right insert_by_count [] (List.filter (has_status "fail") checks)).
  split; [|split; [apply sort_perm | split; [apply sort_sorted | split; [apply sort_ties|]]]].
  2:{ intros a b Ha Hb.
      pose proof (sort_sorted (List.filter (has_status "fail") checks)) as Hsorted.
      unfold descending in Hsorted.
      rewrite <- (take_drop 5 (fold_right insert_by_count [] _)) in Hsorted.
      exact (StronglySorted_app_1_elem_of _ _ _ _ _ Hsorted Ha Hb). }
  assert (iter (match get kv "checks" with Some c => c | None => JList [] end) = Ok checks)
    as Hiter.
  { destruct Hchecks as [-> | [-> ->]]; reflexivity. }
  unfold summarise. rewrite Hfile.
  unfold with_summary. cbn [loads bind]. rewrite Hsummary, Hiter. cbn [bind].
  rewrite !with_status_filter by exact Hall. cbn [bind].
  rewrite sorted_by_count_desc_ok by (apply Forall_filter_bool, Hall). cbn [bind].
  rewrite set_item_fresh by exact Hsummary.
  rewrite lookup_insert_eq.
  rewrite lookup_insert. case_decide as Hpath.
  - reflexivity.
  - apply lookup_insert_eq.
Qed.


(** A results document with three failing checks, two of them with the
    same count. *)
Lemma summary_injected_witness :
  exists ordered,
    summarise plain_run {[ canonical_results := JsonText (JDict results_kv) ]}
      !! canonical_results
    = Some (JsonText (JDict (results_kv ++
        [("summary",
          JDict [("dataset", JStr "orders.csv");
                 ("mode", JStr "plain");
                 ("timestamp", JStr "20250101-1200");
                 ("passed", JInt 1);
                 ("failed", JInt 3);
                 ("top_failing", JList (take 5 ordered))])])))
    /\ ordered ≡ₚ [check_json "t.a.range" "fail" 2;
                   check_json "t.duplicate" "fail" 7;
                   check_json "t.c.null_rate" "fail" 2]
    /\ descending ordered.
Proof.
  destruct (summary_injected plain_run
              {[ canonical_results := JsonText (JDict results_kv) ]} results_kv
              [check_json "t.a.range" "fail" 2; check_json "t.b.enum" "pass" 0;
               check_json "t.duplicate" "fail" 7; check_json "t.c.null_rate" "fail" 2])
    as (ordered & Hfile & Hperm & Hsorted & _).
  - apply lookup_singleton_eq.
  - reflexivity.
  - left. reflexivity.
  - repeat constructor; eexists; reflexivity.
  - exists ordered. split; [exact Hfile|]. split; [exact Hperm | exact Hsorted].
Defined.

(** The same document, evaluated: the check with count 7 comes first, the
    two checks with count 2 follow in their original order. *)
Lemma summary_example :
  summarise plain_run {[ canonical_results := JsonText (JDict results_kv) ]}
    !! canonical_results
  = Some (JsonText (JDict (results_kv ++
      [("summary",
        JDict [("dataset", JStr "orders.csv");
               ("mode", JStr "plain");
               ("timestamp", JStr "20250101-1200");
               ("passed", JInt 1);
               ("failed", JInt 3);
               ("top_failing",
                JList [check_json "t.duplicate" "fail" 7;
                       check_json "t.a.range" "fail" 2;
                       check_json "t.c.null_rate" "fail" 2])])]))).
Proof. vm_compute. reflexivity. Qed.

(* ===================================================================== *)
(** * Further properties                                                  *)
(* ===================================================================== *)

Import Runner Orchestrator Props Cases.

(** ** checks/run_checks.py: the [enum] and the [range] check *)



Lemma Qlt_bool_iff (x y : Q) : Qlt_bool x y = true <-> (x < y)%Q.
Proof.
  unfold Qlt_bool. rewrite negb_true_iff. split.
  - intros Hf. apply Qnot_le_lt. intros Hle. apply Qle_bool_iff in Hle. congruence.
  - intros Hlt. destruct (Qle_bool y x) eqn:E; [|reflexivity].
    apply Qle_bool_iff in E. exfalso. exact (Qlt_not_le _ _ Hlt E).
Qed.

Lemma getitem_is_Some df c : is_Some (getitem df c) <-> c ∈ columns df.
Proof.
  unfold getitem, columns. induction (data df) as [|s l IH]; simpl.
  - split; [intros [x Hx]; discriminate | intros Hin; inversion Hin].
  - case_bool_decide as Hname.
    + split; [intros _; rewrite Hname; apply list_elem_of_here | intros _; eexists; reflexivity].
    + rewrite IH, elem_of_cons. split; [intros Hin; right; exact Hin|].
      intros [Heq|Hin]; [congruence | exact Hin].
Qed.

Lemma getitem_None df c : getitem df c = None <-> c ∉ columns df.
Proof.
  rewrite <- getitem_is_Some. destruct (getitem df c) as [s|]; split.
  - discriminate.
  - intros Hn. exfalso. apply Hn. eexists; reflexivity.
  - intros _ [x Hx]. discriminate.
  - reflexivity.
Qed.

Section EnumRange.
Context `{PandasLib} (utcnow : Z).


Lemma mask_range_out_of_range (col : list cell) (lo hi : option Q) :
  lo <> None \/ hi <> None ->
  exists mask, _mask_range col lo hi = Ok mask
    /\ sum_bool mask = length (filter (out_of_range lo hi) col).
Proof.
  intros Hb. rewrite (range_with_bound col lo hi Hb).
  eexists. split; [reflexivity|]. apply sum_bool_filter.
  intros c. unfold out_of_range, outside. destruct (to_numeric c) as [q|]; [|done].
  rewrite orb_true_iff.
  destruct lo as [l|], hi as [h|]; rewrite ?Qlt_bool_iff; intuition discriminate.
Qed.

(** X2.  A [range] check that sets a bound, on an existing column, counts
    the cells whose value coerces to a number strictly below [min] or
    strictly above [max], and fails exactly when that count is positive.  A
    cell that does not coerce to a number -- text, a missing value -- is
    never counted. *)
Theorem range_check (df : DataFrame) (tname cname : string) (s : Series)
    (chk : Chk) (ev : Evaluation) :
  getitem df cname = Some s ->
  ctype chk = "range" ->
  min_v chk <> None \/ max_v chk <> None ->
  exists r,
    eval_columns utcnow df tname [mkColumnRule cname [chk]] ev = Ok (append ev r)
    /\ r_type r = "range" /\ r_column r = Some cname
    /\ r_count r = length (filter (out_of_range (min_v chk) (max_v chk)) (s_values s))
    /\ (r_status r = fail <-> 0 < r_count r)
    /\ (r_status r = pass <-> r_count r = 0)
    /\ (forall c, to_numeric c = None -> ~ out_of_range (min_v chk) (max_v chk) c).
Proof.
  intros Hcol Hty Hb. cbn [eval_columns col_name col_checks]. rewrite Hcol.
  cbn [eval_column_checks bind]. unfold eval_column_check. rewrite Hty.
  cbn [String.eqb Ascii.eqb Bool.eqb].
  destruct (mask_range_out_of_range (s_values s) _ _ Hb) as (mask & -> & Hsum).
  cbn [bind]. eexists. split; [reflexivity|].
  cbn [r_type r_column r_count r_status]. rewrite Hsum.
  split; [reflexivity|]. split; [reflexivity|]. split; [reflexivity|].
  split; [apply status_of_count_fail|]. split; [apply status_of_count_pass|].
  intros c Hc. unfold out_of_range. rewrite Hc. intros [].
Qed.

(** X3.  With [max_age_days] set to [bound], the freshness mask flags a row
    exactly when its value was present and did not parse, or parsed to a
    time at least [bound + 1] whole days before the clock reading: the age
    is counted in whole days, rounded down, and compared strictly.  A value
    less than [bound + 1] days old is not flagged.  Values are parsed under
    the given format or, without one, the format inferred for the column. *)
Theorem freshness_age_boundary (series : list cell) (bound : Z)
    (parse_format : option string) (i : nat) (c : cell) :
  series !! i = Some c ->
  let fmt := datetime_format parse_format series in
  (_mask_freshness utcnow series (Some bound) parse_format !! i = Some true
   <-> parse_failed fmt c
       \/ exists t, to_datetime fmt c = Some t
             /\ ((bound + 1) * ns_per_day <= utcnow - t)%Z)
  /\ (forall t, to_datetime fmt c = Some t ->
        (utcnow - t < (bound + 1) * ns_per_day)%Z ->
        _mask_freshness utcnow series (Some bound) parse_format !! i = Some false).
Proof.
  intros Hc fmt.
  assert (forall t, (bound <? (utcnow - t) / ns_per_day)%Z = true
                    <-> ((bound + 1) * ns_per_day <= utcnow - t)%Z) as Hdiv.
  { intros t. rewrite Z.ltb_lt. unfold ns_per_day. split.
    - intros Hlt.
      pose proof (Z.mul_div_le (utcnow - t) 86400000000000 ltac:(lia)). nia.
    - intros Hle.
      assert (bound + 1 <= (utcnow - t) / 86400000000000)%Z
        by (apply Z.div_le_lower_bound; lia).
      lia. }
  unfold _mask_freshness. cbv zeta. fold fmt.
  rewrite list_lookup_fmap, Hc. cbn [fmap option_fmap option_map].
  split.
  - split.
    + intros [= Hor]. apply orb_true_iff in Hor as [Hun|Hold].
      * left. apply unparsed_iff, Hun.
      * right. unfold too_old, age_days in Hold.
        destruct (to_datetime fmt c) as [t|]; [|discriminate].
        exists t. split; [reflexivity | apply Hdiv, Hold].
    + intros [Hfail|(t & Ht & Hle)]; f_equal; apply orb_true_iff.
      * left. apply unparsed_iff, Hfail.
      * right. unfold too_old, age_days. rewrite Ht. apply Hdiv, Hle.
  - intros t Ht Hlt. f_equal. unfold unparsed, too_old, age_days. rewrite Ht. simpl.
    destruct (bound <? (utcnow - t) / ns_per_day)%Z eqn:E; [|reflexivity].
    apply Hdiv in E. lia.
Qed.

End EnumRange.

(** ** The evaluation loop *)

Lemma returned_bind {A B} (r : result A) (k : A -> result B) :
  returned (Py.bind r k) <-> exists a, r = Ok a /\ returned (k a).
Proof.
  destruct r as [a|e]; simpl.
  - split; [intros Hk; exists a; split; [reflexivity | exact Hk]|].
    intros (a' & [= <-] & Hk). exact Hk.
  - split; [intros [b Hb]; discriminate | intros (a & Ha & _); discriminate].
Qed.

Lemma tallied_append ev r : tallied ev -> tallied (append ev r).
Proof.
  intros [Hp Hf]. unfold tallied, append. cbn [checks passed failed].
  rewrite !filter_app, !length_app, !filter_cons, !filter_nil, Hp, Hf.
  destruct (r_status r); split; simpl; repeat case_decide; repeat case_bool_decide;
    simpl; try lia; try congruence.
Qed.

Lemma tallied_fold rs : forall ev, tallied ev -> tallied (fold_left append rs ev).
Proof.
  induction rs as [|r rs IH]; intros ev Hev; simpl; [exact Hev|].
  apply IH, tallied_append, Hev.
Qed.

Lemma tallied_total ev : tallied ev -> passed ev + failed ev = length (checks ev).
Proof.
  intros [-> ->]. induction (checks ev) as [|r l IH]; [reflexivity|].
  rewrite !filter_cons. destruct (r_status r); repeat case_decide; simpl; try congruence; lia.
Qed.

Lemma checks_fold rs : forall ev, checks (fold_left append rs ev) = checks ev ++ rs.
Proof.
  induction rs as [|r rs IH]; intros ev; simpl; [rewrite app_nil_r; reflexivity|].
  rewrite IH. simpl. rewrite <- app_assoc. reflexivity.
Qed.

Lemma duplicated_returned df cols :
  returned (duplicated df cols) <-> len df = 0 \/ Forall (fun c => c ∈ columns df) cols.
Proof.
  unfold duplicated, returned. destruct (len df) as [|n].
  { split; [intros _; left; reflexivity | intros _; eexists; reflexivity]. }
  destruct (List.find _ cols) as [c|] eqn:Hfind.
  - split; [intros [m Hm]; discriminate|].
    intros [Hlen|Hall]; [discriminate|]. apply find_some in Hfind as [Hin Hc].
    rewrite Forall_forall in Hall. apply list_elem_of_In, Hall in Hin.
    unfold has_column in Hc. rewrite bool_decide_eq_true_2 in Hc by exact Hin. discriminate.
  - split; [|intros _; eexists; reflexivity].
    intros _. right. apply Forall_forall. intros c Hc.
    apply list_elem_of_In in Hc. apply (find_none _ _ Hfind) in Hc.
    apply negb_false_iff, bool_decide_eq_true in Hc. exact Hc.
Qed.

Section Loops.
Context `{PandasLib} (utcnow : Z).

Lemma eval_table_checks_trace df tname chks : forall ev ev',
  eval_table_checks df tname chks ev = Ok ev' ->
  exists rs, ev' = fold_left append rs ev
    /\ map r_name rs
       = map (fun _ => tname +:+ ".duplicate")
             (filter (fun chk => ctype chk = "duplicate") chks)
    /\ Forall (recheckable utcnow df) rs.
Proof.
  induction chks as [|chk chks IH]; intros ev ev'; cbn [eval_table_checks].
  - intros [= <-]. exists []. split; [reflexivity|]. split; [reflexivity | constructor].
  - rewrite filter_cons.
    destruct (String.eqb_spec (ctype chk) "duplicate") as [Hty|Hty].
    + rewrite decide_True by exact Hty.
      destruct (_mask_duplicate df (subset chk)) as [mask|e] eqn:Hmask; [|discriminate].
      cbn [bind]. intros Hrest. apply IH in Hrest as (rs & -> & Hnames & Hall).
      eexists (_ :: rs). split; [reflexivity|]. cbn [map r_name]. rewrite Hnames.
      split; [reflexivity|]. constructor; [|exact Hall].
      intros _. exists mask. unfold sample_mask. cbn [r_type r_params p_subset String.eqb
        Ascii.eqb Bool.eqb]. rewrite Hmask. split; reflexivity.
    + rewrite decide_False by exact Hty. apply IH.
Qed.

Lemma eval_table_checks_returned df tname chks : forall ev,
  returned (eval_table_checks df tname chks ev)
  <-> len df = 0
      \/ Forall (fun chk => ctype chk = "duplicate" ->
                   Forall (fun c => c ∈ columns df) (subset_or (subset chk) (columns df)))
                chks.
Proof.
  induction chks as [|chk chks IH]; intros ev; cbn [eval_table_checks].
  - split; [intros _; right; constructor | intros _; eexists; reflexivity].
  - rewrite Forall_cons.
    destruct (String.eqb_spec (ctype chk) "duplicate") as [Hty|Hty].
    + rewrite returned_bind. unfold _mask_duplicate. split.
      * intros (mask & Hdup & Hrest). apply IH in Hrest as [Hlen|Hrest]; [left; exact Hlen|].
        assert (returned (duplicated df (subset_or (subset chk) (columns df)))) as Hret
          by (exists mask; exact Hdup).
        apply duplicated_returned in Hret as [Hlen|Hsub]; [left; exact Hlen|].
        right. split; [intros _; exact Hsub | exact Hrest].
      * intros Hcond.
        assert (returned (duplicated df (subset_or (subset chk) (columns df)))) as [mask Hdup].
        { apply duplicated_returned. destruct Hcond as [Hlen|[Hsub _]];
            [left; exact Hlen | right; exact (Hsub Hty)]. }
        exists mask. split; [exact Hdup|]. apply IH.
        destruct Hcond as [Hlen|[_ Hrest]]; [left; exact Hlen | right; exact Hrest].
    + rewrite IH. split.
      * intros [Hlen|Hrest]; [left; exact Hlen|].
        right. split; [intros Hd; contradiction | exact Hrest].
      * intros [Hlen|[_ Hrest]]; [left; exact Hlen | right; exact Hrest].
Qed.

Lemma eval_column_check_name nrows tname cname col chk r :
  eval_column_check utcnow nrows tname cname col chk = Ok r ->
  r_name r = tname +:+ "." +:+ cname +:+ "." +:+ ctype chk.
Proof.
  unfold eval_column_check.
  repeat match goal with |- context [String.eqb ?a ?b] => destruct (String.eqb a b) end;
    try (intros [= <-]; reflexivity).
  destruct (_mask_range _ _ _); [intros [= <-]; reflexivity | discriminate].
Qed.

Lemma eval_column_check_returned nrows tname cname col chk :
  returned (eval_column_check utcnow nrows tname cname col chk) <-> bounded chk.
Proof.
  unfold eval_column_check, bounded, returned.
  destruct (String.eqb_spec (ctype chk) "range") as [Hty|Hty].
  - split.
    + intros [r Hr] _. destruct (min_v chk) as [lo|]; [left; discriminate|].
      destruct (max_v chk) as [hi|]; [right; discriminate|]. discriminate Hr.
    + intros Hb. rewrite (range_with_bound _ _ _ (Hb Hty)). eexists; reflexivity.
  - split; [intros _ Hr; contradiction|]. intros _.
    repeat match goal with |- context [String.eqb ?a ?b] => destruct (String.eqb a b) end;
      eexists; reflexivity.
Qed.

Lemma eval_column_check_recheck df tname cname s chk r :
  getitem df cname = Some s ->
  eval_column_check utcnow (len df) tname cname (s_values s) chk = Ok r ->
  recheckable utcnow df r.
Proof.
  intros Hcol. unfold eval_column_check, recheckable, sample_mask.
  destruct (String.eqb_spec (ctype chk) "range") as [Hty|_].
  { destruct (_mask_range _ _ _) as [mask|e] eqn:Hmask; [|discriminate].
    intros [= <-] _. cbn [r_type r_column r_params r_count p_min p_max].
    rewrite Hty, Hcol. cbn [String.eqb Ascii.eqb Bool.eqb]. rewrite Hmask.
    exists mask. split; reflexivity. }
  destruct (String.eqb_spec (ctype chk) "enum") as [Hty|_].
  { intros [= <-] _. cbn [r_type r_column r_params r_count p_allowed].
    rewrite Hty, Hcol. cbn [String.eqb Ascii.eqb Bool.eqb default].
    eexists. split; reflexivity. }
  destruct (String.eqb_spec (ctype chk) "null_rate") as [Hty|_].
  { intros [= <-] _. cbn [r_type r_column r_params r_count].
    rewrite Hty, Hcol. cbn [String.eqb Ascii.eqb Bool.eqb].
    eexists. split; reflexivity. }
  destruct (String.eqb_spec (ctype chk) "freshness") as [Hty|_].
  { intros [= <-] _. cbn [r_type r_column r_params r_count p_max_age_days p_parse_format].
    rewrite Hty, Hcol. cbn [String.eqb Ascii.eqb Bool.eqb].
    eexists. split; reflexivity. }
  intros [= <-]. cbn [r_status]. discriminate.
Qed.

Lemma eval_column_checks_trace df tname cname s chks : forall ev ev',
  getitem df cname = Some s ->
  eval_column_checks utcnow (len df) tname cname (s_values s) chks ev = Ok ev' ->
  exists rs, ev' = fold_left append rs ev
    /\ map r_name rs = map (fun chk => tname +:+ "." +:+ cname +:+ "." +:+ ctype chk) chks
    /\ Forall (recheckable utcnow df) rs.
Proof.
  induction chks as [|chk chks IH]; intros ev ev' Hcol; cbn [eval_column_checks].
  - intros [= <-]. exists []. split; [reflexivity|]. split; [reflexivity | constructor].
  - destruct (eval_column_check _ _ _ _ _ chk) as [r|e] eqn:Hr; [|discriminate].
    cbn [bind]. intros Hrest. apply IH in Hrest as (rs & -> & Hnames & Hall); [|exact Hcol].
    exists (r :: rs). split; [reflexivity|]. cbn [map].
    rewrite (eval_column_check_name _ _ _ _ _ _ Hr), Hnames. split; [reflexivity|].
    constructor; [|exact Hall]. eapply eval_column_check_recheck; eassumption.
Qed.

Lemma eval_column_checks_returned nrows tname cname col chks : forall ev,
  returned (eval_column_checks utcnow nrows tname cname col chks ev)
  <-> Forall bounded chks.
Proof.
  induction chks as [|chk chks IH]; intros ev; cbn [eval_column_checks].
  - split; [intros _; constructor | intros _; eexists; reflexivity].
  - rewrite Forall_cons, returned_bind. split.
    + intros (r & Hr & Hrest). split; [|apply IH in Hrest; exact Hrest].
      apply (eval_column_check_returned nrows tname cname col). exists r. exact Hr.
    + intros [Hb Hrest].
      destruct (proj2 (eval_column_check_returned nrows tname cname col chk) Hb) as [r Hr].
      exists r. split; [exact Hr | apply IH, Hrest].
Qed.

Lemma eval_columns_trace df tname cols : forall ev ev',
  eval_columns utcnow df tname cols ev = Ok ev' ->
  exists rs, ev' = fold_left append rs ev
    /\ map r_name rs
       = flat_map (fun col =>
                     if has_column df (col_name col)
                     then map (fun chk => tname +:+ "." +:+ col_name col
                                            +:+ "." +:+ ctype chk) (col_checks col)
                     else [])
                  cols
    /\ Forall (recheckable utcnow df) rs.
Proof.
  induction cols as [|col cols IH]; intros ev ev'; cbn [eval_columns flat_map].
  - intros [= <-]. exists []. split; [reflexivity|]. split; [reflexivity | constructor].
  - unfold has_column. destruct (getitem df (col_name col)) as [s|] eqn:Hcol.
    + rewrite bool_decide_eq_true_2 by (apply getitem_is_Some; eexists; exact Hcol).
      destruct (eval_column_checks _ _ _ _ _ _ ev) as [ev1|e] eqn:Hchecks; [|discriminate].
      cbn [bind]. intros Hrest.
      apply eval_column_checks_trace in Hchecks as (rs1 & -> & Hn1 & Hall1); [|exact Hcol].
      apply IH in Hrest as (rs2 & -> & Hn2 & Hall2).
      exists (rs1 ++ rs2). rewrite fold_left_app, map_app, Hn1, Hn2.
      split; [reflexivity|]. split; [reflexivity | apply Forall_app; split; assumption].
    + rewrite bool_decide_eq_false_2 by (apply getitem_None; exact Hcol).
      apply IH.
Qed.

Lemma eval_columns_returned df tname cols : forall ev,
  returned (eval_columns utcnow df tname cols ev)
  <-> Forall (fun col => col_name col ∈ columns df -> Forall bounded (col_checks col)) cols.
Proof.
  induction cols as [|col cols IH]; intros ev; cbn [eval_columns].
  - split; [intros _; constructor | intros _; eexists; reflexivity].
  - rewrite Forall_cons. destruct (getitem df (col_name col)) as [s|] eqn:Hcol.
    + assert (col_name col ∈ columns df) as Hin
        by (apply getitem_is_Some; eexists; exact Hcol).
      rewrite returned_bind. split.
      * intros (ev1 & Hchecks & Hrest). split; [|apply IH in Hrest; exact Hrest].
        intros _. eapply eval_column_checks_returned. eexists. exact Hchecks.
      * intros [Hb Hrest].
        destruct (proj2 (eval_column_checks_returned (len df) tname (col_name col)
                           (s_values s) (col_checks col) ev) (Hb Hin)) as [ev1 Hev1].
        exists ev1. split; [exact Hev1 | apply IH, Hrest].
    + apply getitem_None in Hcol. rewrite IH. split.
      * intros Hrest. split; [intros Hin; contradiction | exact Hrest].
      * intros [_ Hrest]. exact Hrest.
Qed.

Lemma eval_tables_trace df tables : forall ev ev',
  eval_tables utcnow df tables ev = Ok ev' ->
  exists rs, ev' = fold_left append rs ev
    /\ map r_name rs = flat_map (result_names df) tables
    /\ Forall (recheckable utcnow df) rs.
Proof.
  induction tables as [|t tables IH]; intros ev ev'; cbn [eval_tables flat_map].
  - intros [= <-]. exists []. split; [reflexivity|]. split; [reflexivity | constructor].
  - destruct (eval_table_checks df _ _ ev) as [ev1|e] eqn:H1; [|discriminate].
    cbn [bind].
    destruct (eval_columns utcnow df _ _ ev1) as [ev2|e] eqn:H2; [|discriminate].
    cbn [bind]. intros Hrest.
    apply eval_table_checks_trace in H1 as (rs1 & -> & Hn1 & Hall1).
    apply eval_columns_trace in H2 as (rs2 & -> & Hn2 & Hall2).
    apply IH in Hrest as (rs3 & -> & Hn3 & Hall3).
    exists (rs1 ++ rs2 ++ rs3). rewrite !fold_left_app. split; [reflexivity|].
    split; [|repeat (apply Forall_app; split); assumption].
    unfold result_names, duplicate_checks. rewrite !map_app, Hn1, Hn2, Hn3, <- app_assoc.
    reflexivity.
Qed.

Lemma eval_tables_returned df tables : forall ev,
  returned (eval_tables utcnow df tables ev)
  <-> (len df = 0 \/ subsets_exist tables (columns df))
      /\ ranges_bounded tables (columns df).
Proof.
  unfold subsets_exist, ranges_bounded.
  induction tables as [|t tables IH]; intros ev; cbn [eval_tables].
  - split; [intros _; split; [right|]; constructor | intros _; eexists; reflexivity].
  - rewrite !Forall_cons, returned_bind. split.
    + intros (ev1 & H1 & Hrest). apply returned_bind in Hrest as (ev2 & H2 & Hrest).
      apply IH in Hrest as [Hs Hr].
      assert (returned (eval_table_checks df (table_name t) (t_checks t) ev)) as Ht
        by (eexists; exact H1).
      apply eval_table_checks_returned in Ht.
      split.
      * destruct Hs as [Hlen|Hs]; [left; exact Hlen|].
        destruct Ht as [Hlen|Ht]; [left; exact Hlen | right; split; assumption].
      * split; [|exact Hr]. eapply eval_columns_returned. eexists; exact H2.
    + intros [Hs [Hr1 Hr]].
      destruct (proj2 (eval_table_checks_returned df (table_name t) (t_checks t) ev))
        as [ev1 H1].
      { destruct Hs as [Hlen|[Hs1 _]]; [left; exact Hlen | right; exact Hs1]. }
      exists ev1. split; [exact H1|]. apply returned_bind.
      destruct (proj2 (eval_columns_returned df (table_name t) (t_columns t) ev1) Hr1)
        as [ev2 H2].
      exists ev2. split; [exact H2|]. apply IH. split; [|exact Hr].
      destruct Hs as [Hlen|[_ Hs]]; [left; exact Hlen | right; exact Hs].
Qed.

(** X4.  The counters of an evaluation that returned agree with its
    results: [passed] is the number of results with status pass, [failed]
    the number with status fail, and together they count every result. *)
Theorem evaluate_totals (df : DataFrame) (tables : list TableRule) (ev : Evaluation) :
  evaluate utcnow df tables = Ok ev ->
  passed ev = length (filter (fun r => r_status r = pass) (checks ev))
  /\ failed ev = length (filter (fun r => r_status r = fail) (checks ev))
  /\ passed ev + failed ev = length (checks ev).
Proof.
  unfold evaluate. intros Hev. apply eval_tables_trace in Hev as (rs & -> & _ & _).
  assert (tallied (fold_left append rs (mkEvaluation [] 0 0))) as Ht
    by (apply tallied_fold; split; reflexivity).
  destruct Ht as [Hp Hf]. split; [exact Hp|]. split; [exact Hf|].
  apply tallied_total. split; assumption.
Qed.

(** X5.  An evaluation that returned holds, table by table in rule order,
    one result named [table.duplicate] per [duplicate] check of the table,
    then one result named [table.column.type] per check of every column
    rule whose column is in the dataset: table checks of another type and
    rules of absent columns yield no result. *)
Theorem evaluate_result_names (df : DataFrame) (tables : list TableRule) (ev : Evaluation) :
  evaluate utcnow df tables = Ok ev ->
  map r_name (checks ev) = flat_map (result_names df) tables.
Proof.
  unfold evaluate. intros Hev. apply eval_tables_trace in Hev as (rs & -> & Hnames & _).
  rewrite checks_fold. exact Hnames.
Qed.

(** X6.  The evaluation raises, and produces no results, when a [range]
    check of a column of the dataset sets no bound, and on a dataset with
    rows when the subset of a [duplicate] check names a label that is no
    column. *)
Theorem evaluation_aborts (df : DataFrame) (tables : list TableRule) :
  (0 < len df /\ ~ subsets_exist tables (columns df))
  \/ ~ ranges_bounded tables (columns df) ->
  exists e, evaluate utcnow df tables = Raise e.
Proof.
  intros Hbad. unfold evaluate.
  destruct (eval_tables utcnow df tables (mkEvaluation [] 0 0)) as [ev|e] eqn:Hev;
    [|exists e; reflexivity].
  exfalso.
  assert (returned (eval_tables utcnow df tables (mkEvaluation [] 0 0))) as Hret
    by (exists ev; exact Hev).
  apply eval_tables_returned in Hret as [Hs Hr].
  destruct Hbad as [[Hlen Hsub]|Hrange]; [|exact (Hrange Hr)].
  destruct Hs as [Hzero|Hs]; [lia | exact (Hsub Hs)].
Qed.

End Loops.

(** ** Columns by name, continued *)

Lemma getitem_setitem df c dt values :
  c ∈ columns df -> getitem (setitem df c dt values) c = Some (mkSeries c dt values).
Proof.
  unfold getitem, setitem, columns. simpl.
  induction (data df) as [|s l IH]; intros Hin; [inversion Hin|].
  simpl. case_bool_decide as Hname; simpl.
  - rewrite bool_decide_eq_true_2 by reflexivity. reflexivity.
  - rewrite bool_decide_eq_false_2 by exact Hname. apply IH.
    simpl in Hin. apply elem_of_cons in Hin as [Heq|Hin]; [congruence | exact Hin].
Qed.

Lemma getitem_setitem_ne df c c' dt values :
  c' <> c -> getitem (setitem df c dt values) c' = getitem df c'.
Proof.
  intros Hne. unfold getitem, setitem. simpl.
  induction (data df) as [|s l IH]; [reflexivity|].
  simpl. case_bool_decide as Hname; simpl.
  - rewrite !bool_decide_eq_false_2 by congruence. reflexivity.
  - case_bool_decide; [reflexivity | exact IH].
Qed.

Lemma setitem_same df c s :
  getitem df c = Some s -> setitem df c (s_dtype s) (s_values s) = df.
Proof.
  unfold getitem, setitem. destruct df as [idx l]. simpl. intros Hfind. f_equal.
  induction l as [|s0 l IH]; [reflexivity|].
  simpl in *. case_bool_decide as Hname.
  - injection Hfind as ->. destruct s as [n d v]. simpl in *. subst n. reflexivity.
  - f_equal. apply IH, Hfind.
Qed.

Lemma setitem_setitem df c dt values dt' values' :
  setitem (setitem df c dt values) c dt' values' = setitem df c dt' values'.
Proof.
  unfold setitem. simpl. f_equal.
  induction (data df) as [|s l IH]; [reflexivity|].
  simpl. case_bool_decide as Hname; simpl.
  - rewrite bool_decide_eq_true_2 by reflexivity. reflexivity.
  - rewrite bool_decide_eq_false_2 by exact Hname. f_equal. exact IH.
Qed.

Lemma where_set_map (f : cell -> bool) (h : cell -> cell) (l : list cell) :
  where_set (map f l) l (map h l) = map (fun x => if f x then h x else x) l.
Proof. induction l as [|x l IH]; simpl; [reflexivity | f_equal; exact IH]. Qed.

Lemma sum_bool_zero_iff {A} (f : A -> bool) (l : list A) :
  sum_bool (map f l) = 0 <-> forall x, x ∈ l -> f x = false.
Proof.
  induction l as [|x l IH]; simpl.
  - split; [intros _ y Hy; inversion Hy | reflexivity].
  - split.
    + intros Hsum y Hy. apply elem_of_cons in Hy as [->|Hy].
      * destruct (f x); [discriminate | reflexivity].
      * apply IH; [destruct (f x); [discriminate | exact Hsum] | exact Hy].
    + intros Hall. rewrite (Hall x) by apply list_elem_of_here. simpl.
      apply IH. intros y Hy. apply Hall, list_elem_of_further, Hy.
Qed.

Lemma ltb_0_sum n : (0 <? n) = false <-> n = 0.
Proof. destruct n; simpl; split; intros; try done; lia. Qed.

Section FixSteps.
Context `{PandasLib}.


(** ** [fill_nulls] *)


(** ** [enforce_enum] *)


End FixSteps.

(** ** [clip_range]: the column afterwards *)

Lemma Qle_bool_false (a b : Q) : Qle_bool a b = false <-> (b < a)%Q.
Proof.
  split.
  - intros Hf. apply Qnot_le_lt. intros Hle. apply Qle_bool_iff in Hle. congruence.
  - intros Hba. destruct (Qle_bool a b) eqn:E; [|reflexivity].
    apply Qle_bool_iff in E. exfalso. exact (Qlt_not_le _ _ Hba E).
Qed.

Lemma ordered_bounds_ordered (lo hi : option Q) (l h : Q) :
  clip_lower lo hi = Some l -> clip_upper lo hi = Some h -> (l <= h)%Q.
Proof.
  unfold clip_lower, clip_upper, ordered_bounds.
  destruct lo as [a|], hi as [b|]; simpl; try discriminate.
  destruct (Qle_bool a b) eqn:E; simpl; intros [= <-] [= <-].
  - apply Qle_bool_iff, E.
  - apply Qlt_le_weak, Qle_bool_false, E.
Qed.

Lemma clip_clamp (lo hi : option Q) (x : option Q) :
  clip lo hi x = clamp (clip_lower lo hi) (clip_upper lo hi) x.
Proof.
  unfold clip, clip_lower, clip_upper. destruct (ordered_bounds lo hi). reflexivity.
Qed.

Lemma clamp_inside (lo hi : option Q) (v v' : Q) :
  (forall l h, lo = Some l -> hi = Some h -> (l <= h)%Q) ->
  clamp lo hi (Some v) = Some v' -> inside lo hi v'.
Proof.
  intros Hord. unfold clamp, inside. intros [= <-].
  destruct hi as [h|]; [destruct (Qle_bool v h) eqn:Eh|];
    (destruct lo as [l|];
     [pose proof (Hord l) as Hlh; destruct (Qle_bool l v) eqn:El|]);
    rewrite ?Qle_bool_iff in *; rewrite ?Qle_bool_false in *;
    try (specialize (Hlh _ eq_refl eq_refl));
    split; try exact I; lra.
Qed.

Lemma clamp_unchanged (lo hi : option Q) (v : Q) :
  ne_num (Some v) (clamp lo hi (Some v)) = false <-> inside lo hi v.
Proof.
  unfold ne_num, clamp, inside. rewrite negb_false_iff, Qeq_bool_iff.
  destruct hi as [h|]; [destruct (Qle_bool v h) eqn:Eh|];
    (destruct lo as [l|]; [destruct (Qle_bool l v) eqn:El|]);
    rewrite ?Qle_bool_iff in *; rewrite ?Qle_bool_false in *;
    (split; [intros Heq; split; try exact I; lra | intros [H1 H2]; lra]).
Qed.

Section ClipAgain.
Context `{PandasLib}.

Lemma clip_range_opens df column lo hi report tname qdir fs :
  is_Some (open_csv qdir (tname +:+ "_" +:+ column +:+ "_range_clipped.csv")) ->
  exists fs' df' report',
    clip_range df column lo hi report tname qdir fs = (fs', Ok (df', report')).
Proof.
  intros Hopen. unfold clip_range.
  destruct (getitem df column); [|eexists _, _, _; reflexivity].
  destruct (0 <? _); [|eexists _, _, _; reflexivity].
  unfold io_bind.
  destruct (to_csv _ _ _ fs) as [fs1 [[]|e]] eqn:Hcsv; [eexists _, _, _; reflexivity|].
  apply to_csv_raise in Hcsv as (_ & _ & Hnone). rewrite Hnone in Hopen.
  destruct Hopen as [p Hp]. discriminate Hp.
Qed.

Lemma clip_range_noop df column lo hi report tname qdir fs col :
  getitem df column = Some col ->
  (forall c q, c ∈ s_values col -> to_numeric c = Some q ->
     inside (clip_lower lo hi) (clip_upper lo hi) q) ->
  clip_range df column lo hi report tname qdir fs = (fs, Ok (df, report)).
Proof.
  intros Hcol Hin. unfold clip_range. rewrite Hcol.
  rewrite zip_with_map_r, !map_map.
  replace (sum_bool _) with 0; [reflexivity|].
  symmetry. apply sum_bool_zero_iff. intros c Hc.
  destruct (to_numeric c) as [q|] eqn:Hq.
  - rewrite clip_clamp, (proj2 (clamp_unchanged _ _ q) (Hin c q Hc Hq)). reflexivity.
  - rewrite bool_decide_eq_false_2 by (intros Hn; apply Hn; reflexivity).
    apply andb_false_r.
Qed.

Lemma clip_range_column (df : DataFrame) (column : string)
    (lo hi : option Q) (report : FixReport) (tname qdir : string) (fs fs' : files)
    (col : Series) (df' : DataFrame) (report' : FixReport) :
  getitem df column = Some col ->
  clip_range df column lo hi report tname qdir fs = (fs', Ok (df', report')) ->
  exists col',
    getitem df' column = Some col'
    /\ length (s_values col') = length (s_values col)
    /\ (forall c q, c ∈ s_values col' -> to_numeric c = Some q ->
          inside (clip_lower lo hi) (clip_upper lo hi) q).
Proof.
  intros Hcol Hrun.
  destruct (clip_range_assigns_whole_column df column lo hi report tname qdir fs col
              fs' df' report' Hcol Hrun) as (Hzero & Hpos).
  destruct (sum_bool (map (fun c => match to_numeric c with
                                    | Some v => ne_num (Some v) (clip lo hi (Some v))
                                    | None => false
                                    end) (s_values col))) as [|n] eqn:Hn.
  - destruct (Hzero eq_refl) as [-> ->]. exists col.
    split; [exact Hcol|]. split; [reflexivity|].
    intros c q Hc Hq. pose proof (proj1 (sum_bool_zero_iff _ _) Hn c Hc) as Hc'.
    cbn beta in Hc'. rewrite Hq, clip_clamp in Hc'. apply clamp_unchanged, Hc'.
  - rewrite (Hpos ltac:(lia)) in *. clear Hpos Hzero.
    assert (column ∈ columns df) as Hin by (apply getitem_is_Some; eexists; exact Hcol).
    eexists. split; [apply getitem_setitem, Hin|].
    cbn [s_values]. split; [apply length_map|].
    intros c q Hc Hq. apply list_elem_of_fmap in Hc as (x & -> & _).
    rewrite clip_clamp in Hq. destruct (to_numeric x) as [v|]; [|discriminate Hq].
    cbn [clamp of_numeric to_numeric] in Hq. injection Hq as <-.
    eapply clamp_inside; [apply ordered_bounds_ordered | reflexivity].
Qed.

(** X9.  [clip_range] on an existing column returns when its quarantine
    file can be opened.  After it returned, every cell of the column that
    is a number lies within the bounds as [clip] orders them, and a second
    [clip_range] with the same bounds changes nothing, writes nothing and
    reports nothing. *)
Theorem clip_range_within_bounds (df : DataFrame) (column : string)
    (lo hi : option Q) (report : FixReport) (tname qdir : string) (fs : files)
    (col : Series) :
  getitem df column = Some col ->
  (is_Some (open_csv qdir (tname +:+ "_" +:+ column +:+ "_range_clipped.csv")) ->
   exists fs' df' report',
     clip_range df column lo hi report tname qdir fs = (fs', Ok (df', report')))
  /\ forall fs' df' report',
  clip_range df column lo hi report tname qdir fs = (fs', Ok (df', report')) ->
  exists col',
    getitem df' column = Some col'
    /\ (forall c q, c ∈ s_values col' -> to_numeric c = Some q ->
          inside (clip_lower lo hi) (clip_upper lo hi) q)
    /\ clip_range df' column lo hi report' tname qdir fs' = (fs', Ok (df', report')).
Proof.
  intros Hcol. split; [apply clip_range_opens|]. intros fs' df' report' Hrun.
  destruct (clip_range_column df column lo hi report tname qdir fs fs' col df' report'
              Hcol Hrun) as (col' & Hcol' & _ & Hinside).
  exists col'.
  split; [exact Hcol'|]. split; [exact Hinside|].
  apply clip_range_noop with (col := col'); assumption.
Qed.

Lemma inside_not_outside lo hi q : inside lo hi q -> ~ outside lo hi q.
Proof.
  unfold inside, outside. intros [Hl Hh] [Hlo|Hhi].
  - destruct lo as [l|]; [exact (Qlt_not_le _ _ Hlo Hl) | exact Hlo].
  - destruct hi as [h|]; [exact (Qlt_not_le _ _ Hhi Hh) | exact Hhi].
Qed.

(** X10.  With a bound set and the bounds in order, the mask of the [range]
    check on the column that a [clip_range] that returned leaves flags no
    row: the fix repairs all that the check counts. *)
Theorem range_check_passes_after_clip (df : DataFrame) (column : string)
    (lo hi : option Q) (report : FixReport) (tname qdir : string) (fs fs' : files)
    (col : Series) (df' : DataFrame) (report' : FixReport) :
  getitem df column = Some col ->
  lo <> None \/ hi <> None ->
  (forall l h, lo = Some l -> hi = Some h -> (l <= h)%Q) ->
  clip_range df column lo hi report tname qdir fs = (fs', Ok (df', report')) ->
  exists col' mask,
    getitem df' column = Some col'
    /\ _mask_range (s_values col') lo hi = Ok mask
    /\ sum_bool mask = 0
    /\ length mask = length (s_values col).
Proof.
  intros Hcol Hb Hord Hrun.
  destruct (clip_range_column df column lo hi report tname qdir fs fs' col df' report'
              Hcol Hrun) as (col' & Hcol' & Hlen & Hinside).
  assert (clip_lower lo hi = lo /\ clip_upper lo hi = hi) as [Hlo Hhi].
  { unfold clip_lower, clip_upper, ordered_bounds.
    destruct lo as [l|], hi as [h|]; try (split; reflexivity).
    rewrite (proj2 (Qle_bool_iff l h) (Hord l h eq_refl eq_refl)). split; reflexivity. }
  rewrite Hlo, Hhi in Hinside.
  exists col'. rewrite (range_with_bound (s_values col') lo hi Hb).
  eexists. split; [exact Hcol'|]. split; [reflexivity|]. split.
  - apply sum_bool_zero_iff. intros c Hc. destruct (to_numeric c) as [q|] eqn:Hq; [|reflexivity].
    pose proof (inside_not_outside lo hi q (Hinside c q Hc Hq)) as Hnot.
    unfold outside in Hnot.
    destruct lo as [l|], hi as [h|]; apply orb_false_iff; split;
      try reflexivity; apply not_true_iff_false; rewrite Qlt_bool_iff; tauto.
  - rewrite length_map. exact Hlen.
Qed.

(** X11.  With a bound set and the bounds in order, [clip_range] returns
    when its quarantine file can be opened, and where it returns it has
    counted exactly the cells the [range] check counts: the [affected] of
    its action is that count, and with a count of zero it changes nothing,
    writes nothing and reports nothing. *)
Theorem clip_range_counts_like_range_check (df : DataFrame) (column : string)
    (lo hi : option Q) (report : FixReport) (tname qdir : string) (fs : files)
    (col : Series) :
  getitem df column = Some col ->
  lo <> None \/ hi <> None ->
  (forall l h, lo = Some l -> hi = Some h -> (l <= h)%Q) ->
  (is_Some (open_csv qdir (tname +:+ "_" +:+ column +:+ "_range_clipped.csv")) ->
   exists fs' df' report',
     clip_range df column lo hi report tname qdir fs = (fs', Ok (df', report')))
  /\ forall fs' df' report',
  clip_range df column lo hi report tname qdir fs = (fs', Ok (df', report')) ->
  exists mask,
    _mask_range (s_values col) lo hi = Ok mask
    /\ sum_bool mask = length (filter (out_of_range lo hi) (s_values col))
    /\ report' = (if 0 <? sum_bool mask
                  then add report (tname +:+ "_" +:+ column +:+ "_range") tname
                         (Some column) "clip" (sum_bool mask)
                         ("min=" +:+ str_bound lo +:+ ", max=" +:+ str_bound hi)
                  else report)
    /\ (sum_bool mask = 0 -> df' = df /\ fs' = fs).
Proof.
  intros Hcol Hb Hord. split; [apply clip_range_opens|]. intros fs' df' report'.
  destruct (mask_range_out_of_range (s_values col) lo hi Hb) as (mask & Hmask & Hsum).
  unfold clip_range. rewrite Hcol.
  rewrite zip_with_map_r, !map_map.
  assert (sum_bool (map (fun c => ne_num (to_numeric c) (clip lo hi (to_numeric c))
                                  && bool_decide (to_numeric c <> None)) (s_values col))
          = sum_bool mask) as ->.
  { rewrite Hsum. apply sum_bool_filter. intros c. unfold out_of_range, outside.
    destruct (to_numeric c) as [q|].
    - rewrite bool_decide_eq_true_2 by discriminate. rewrite andb_true_r.
      rewrite (clip_changes_outside lo hi q Hord).
      destruct lo as [l|], hi as [h|]; split;
        try (intros [(l' & [= <-] & Hl)|(h' & [= <-] & Hh)]); try (intros [Hl|Hh]);
        try contradiction; try discriminate;
        try (left; assumption); try (right; assumption);
        try (left; eexists; split; [reflexivity | assumption]);
        try (right; eexists; split; [reflexivity | assumption]).
    - rewrite andb_false_r. split; [discriminate | intros []]. }
  destruct (sum_bool mask) as [|n] eqn:Hn.
  - intros [= <- <- <-]. exists mask. rewrite Hn. split; [exact Hmask|].
    split; [exact Hsum|]. split; [reflexivity|]. intros _. split; reflexivity.
  - cbn [Nat.ltb Nat.leb]. unfold io_bind.
    destruct (to_csv _ _ _ fs) as [fs1 [[]|e]]; [|discriminate].
    intros [= <- <- <-]. exists mask. rewrite Hn. split; [exact Hmask|].
    split; [exact Hsum|]. split; [reflexivity|]. discriminate.
Qed.

End ClipAgain.

(** ** [parse_dates] *)

Lemma zip_with_map_l {A B C} (f : B -> A -> C) (g : A -> B) (l : list A) :
  zip_with f (map g l) l = map (fun x => f (g x) x) l.
Proof. induction l as [|x l IH]; simpl; [reflexivity | f_equal; exact IH]. Qed.

Lemma dtype_for_idem dt values : dtype_for (dtype_for dt values) values = dtype_for dt values.
Proof.
  unfold dtype_for. destruct (forallb (fits dt) values) eqn:E; [rewrite E; reflexivity|].
  replace (forallb (fits object) values) with true; [reflexivity|].
  symmetry. apply forallb_forall. intros c _. destruct c; reflexivity.
Qed.

Section ParseDates.
Context `{PandasLib}.

Lemma parse_dates_opens df column parse_format report tname qdir fs :
  is_Some (open_csv qdir (tname +:+ "_" +:+ column +:+ "_unparsed_dates.csv")) ->
  exists fs' df' report',
    parse_dates df column parse_format report tname qdir fs = (fs', Ok (df', report')).
Proof.
  intros Hopen. unfold parse_dates.
  destruct (getitem df column); [|eexists _, _, _; reflexivity].
  unfold io_bind.
  destruct (0 <? sum_bool (zip_with _ _ _)).
  - destruct (to_csv _ _ _ fs) as [fs1 [[]|e]] eqn:Hcsv.
    + cbn [ret]. destruct (0 <? _); eexists _, _, _; reflexivity.
    + apply to_csv_raise in Hcsv as (_ & _ & Hnone). rewrite Hnone in Hopen.
      destruct Hopen as [p Hp]. discriminate Hp.
  - cbn [ret]. destruct (0 <? _); eexists _, _, _; reflexivity.
Qed.

Lemma parse_dates_frame df column parse_format report tname qdir fs fs' df' report' col :
  getitem df column = Some col ->
  parse_dates df column parse_format report tname qdir fs = (fs', Ok (df', report')) ->
  let fmt := datetime_format parse_format (s_values col) in
  let bad := length (filter (parse_failed fmt) (s_values col)) in
  let parsed := sum_bool (map (fun c => bool_decide (to_datetime fmt c <> None)) (s_values col)) in
  let values := map (normalised fmt) (s_values col) in
  df' = (if 0 <? parsed
         then setitem df column (dtype_for (s_dtype col) values) values
         else df)
  /\ report' = (if 0 <? bad
                then add report (tname +:+ "_" +:+ column +:+ "_date_parse") tname
                       (Some column) "quarantine_unparsed_dates" bad
                       ("format=" +:+ match parse_format with
                                      | Some (String c f) => String c f
                                      | _ => "auto"
                                      end)
                else report)
  /\ (bad = 0 -> fs' = fs).
Proof.
  intros Hcol Hrun fmt bad parsed values. revert Hrun. unfold parse_dates. rewrite Hcol.
  fold fmt. rewrite zip_with_map_l, !map_map.
  assert (sum_bool (map (fun c => bool_decide (to_datetime fmt c = None) && notna c)
                      (s_values col)) = bad) as ->.
  { apply sum_bool_filter. intros c. unfold parse_failed, notna, isna.
    rewrite andb_true_iff, negb_true_iff, !bool_decide_eq_true, bool_decide_eq_false.
    tauto. }
  fold parsed.
  assert (loc_setitem df (map (fun c => bool_decide (to_datetime fmt c <> None)) (s_values col))
            column
            (map (fun c => match to_datetime fmt c with Some t => Ts t | None => NaN end)
               (s_values col))
          = setitem df column (dtype_for (s_dtype col) values) values) as Hset.
  { unfold loc_setitem. rewrite Hcol.
    rewrite (where_set_map (fun c => bool_decide (to_datetime fmt c <> None))
               (fun c => match to_datetime fmt c with Some t => Ts t | None => NaN end)).
    assert (map (fun x => if bool_decide (to_datetime fmt x <> None)
                          then match to_datetime fmt x with Some t => Ts t | None => NaN end
                          else x) (s_values col) = values) as ->.
    { apply map_ext. intros c. unfold normalised.
      destruct (to_datetime fmt c); [rewrite bool_decide_eq_true_2 by discriminate|
                                     rewrite bool_decide_eq_false_2 by (intros Hn; apply Hn; reflexivity)];
        reflexivity. }
    reflexivity. }
  unfold io_bind.
  destruct bad as [|n] eqn:Hbad.
  - change (0 <? 0) with false. cbv beta iota.
    unfold ret. destruct (0 <? parsed); intros [= <- <- <-]; rewrite ?Hset; repeat split.
  - change (0 <? S n) with true. cbv beta iota.
    destruct (to_csv _ _ _ fs) as [fs1 [[]|e]]; [|discriminate].
    unfold ret. destruct (0 <? parsed); intros [= <- <- <-]; rewrite ?Hset;
      (split; [reflexivity|]; split; [reflexivity | discriminate]).
Qed.

(** X12.  [parse_dates] on an existing column returns when its quarantine
    file can be opened.  Where it returns, it has replaced each cell of the
    column that parses -- under the given format or, without one, the
    format inferred for the column -- by its timestamp and left every other
    cell and every other column as it was.  It reports the cells that were
    present and did not parse as one quarantine action; when there is no
    such cell it reports and writes nothing. *)
Theorem parse_dates_normalises (df : DataFrame) (column : string)
    (parse_format : option string) (report : FixReport) (tname qdir : string)
    (fs : files) (col : Series) :
  getitem df column = Some col ->
  (is_Some (open_csv qdir (tname +:+ "_" +:+ column +:+ "_unparsed_dates.csv")) ->
   exists fs' df' report',
     parse_dates df column parse_format report tname qdir fs = (fs', Ok (df', report')))
  /\ forall fs' df' report',
  parse_dates df column parse_format report tname qdir fs = (fs', Ok (df', report')) ->
  let fmt := datetime_format parse_format (s_values col) in
  let bad := length (filter (parse_failed fmt) (s_values col)) in
  exists col',
    getitem df' column = Some col'
    /\ s_values col' = map (normalised fmt) (s_values col)
    /\ (forall c', c' <> column -> getitem df' c' = getitem df c')
    /\ report' = (if 0 <? bad
                  then add report (tname +:+ "_" +:+ column +:+ "_date_parse") tname
                         (Some column) "quarantine_unparsed_dates" bad
                         ("format=" +:+ match parse_format with
                                        | Some (String c f) => String c f
                                        | _ => "auto"
                                        end)
                  else report)
    /\ (bad = 0 -> fs' = fs).
Proof.
  intros Hcol. split; [apply parse_dates_opens|]. intros fs' df' report' Hrun fmt bad.
  assert (column ∈ columns df) as Hin by (apply getitem_is_Some; eexists; exact Hcol).
  destruct (parse_dates_frame df column parse_format report tname qdir fs fs' df' report'
              col Hcol Hrun) as (Hdf & Hreport & Hfiles).
  cbv zeta in Hdf, Hreport, Hfiles. fold fmt in Hdf, Hreport, Hfiles.
  fold bad in Hreport, Hfiles.
  set (values := map (normalised fmt) (s_values col)) in *.
  set (parsed := sum_bool (map (fun c => bool_decide (to_datetime fmt c <> None))
                             (s_values col))) in *.
  destruct (0 <? parsed) eqn:Hpos; subst df'.
  - eexists. split; [apply getitem_setitem, Hin|]. cbn [s_values].
    split; [reflexivity|].
    split; [intros c' Hne; apply getitem_setitem_ne, Hne|].
    split; [exact Hreport | exact Hfiles].
  - assert (values = s_values col) as Hvalues.
    { unfold values. rewrite <- (map_id (s_values col)) at 2. apply map_ext_in.
      intros c Hc. apply ltb_0_sum in Hpos.
      pose proof (proj1 (sum_bool_zero_iff _ _) Hpos c (proj2 (list_elem_of_In _ _) Hc)) as Hf.
      cbn beta in Hf. apply bool_decide_eq_false in Hf.
      unfold normalised. destruct (to_datetime fmt c); [|reflexivity].
      exfalso. apply Hf. discriminate. }
    exists col. split; [exact Hcol|].
    split; [symmetry; exact Hvalues|]. split; [reflexivity|].
    split; [exact Hreport | exact Hfiles].
Qed.

(** X13.  When every cell of the column that is present parses, the
    freshness mask of the column is the same before and after a
    [parse_dates] with the same format, whatever [max_age_days]:
    normalising the dates does not change what the check flags. *)
Theorem freshness_unchanged_by_parse_dates (utcnow : Z) (df : DataFrame)
    (column : string) (parse_format : option string) (report : FixReport)
    (tname qdir : string) (fs fs' : files) (col : Series) (df' : DataFrame)
    (report' : FixReport) :
  getitem df column = Some col ->
  parse_dates df column parse_format report tname qdir fs = (fs', Ok (df', report')) ->
  (forall c, c ∈ s_values col ->
     ~ parse_failed (datetime_format parse_format (s_values col)) c) ->
  exists col',
    getitem df' column = Some col'
    /\ forall max_age,
         _mask_freshness utcnow (s_values col') max_age parse_format
         = _mask_freshness utcnow (s_values col) max_age parse_format.
Proof.
  intros Hcol Hrun Hgood.
  destruct (parse_dates_frame df column parse_format report tname qdir fs fs' df' report'
              col Hcol Hrun) as (Hdf & _).
  cbv zeta in Hdf.
  set (fmt := datetime_format parse_format (s_values col)) in *.
  destruct (0 <? _) in Hdf; subst df'.
  2:{ exists col. split; [exact Hcol | reflexivity]. }
  eexists. split.
  { apply getitem_setitem, getitem_is_Some. eexists; exact Hcol. }
  intros max_age. cbn [s_values]. unfold _mask_freshness. cbv zeta. fold fmt.
  set (fmt' := datetime_format parse_format (map (normalised fmt) (s_values col))).
  assert (forall c, c ∈ s_values col ->
            to_datetime fmt' (normalised fmt c) = to_datetime fmt c
            /\ unparsed fmt' (normalised fmt c) = unparsed fmt c) as Hsame.
  { intros c Hc. pose proof (Hgood c Hc) as Hparse. unfold parse_failed in Hparse.
    unfold unparsed, normalised. destruct (to_datetime fmt c) as [t|] eqn:Ht.
    - split; reflexivity.
    - destruct (decide (c = NaN)) as [->|Hne]; [split; reflexivity|].
      exfalso. apply Hparse. split; [exact Hne | reflexivity]. }
  destruct max_age as [bound|]; rewrite map_map; apply map_ext_in; intros c Hc;
    apply list_elem_of_In in Hc; destruct (Hsame c Hc) as [Hdt Hun];
    unfold too_old; rewrite Hun, ?Hdt; reflexivity.
Qed.

End ParseDates.

(** ** [drop_exact_duplicates]: the rows that are kept *)

Lemma pick_Some m : forall j i,
  pick m j = Some i -> m !! i = Some true /\ j < sum_bool m /\ i < length m.
Proof.
  induction m as [|b m IH]; intros j i; simpl; [discriminate|].
  destruct b.
  - destruct j as [|j].
    + intros [= <-]. simpl. repeat split; lia.
    + destruct (pick m j) as [i'|] eqn:E; [|discriminate].
      intros [= <-]. destruct (IH _ _ E) as (H1 & H2 & H3). simpl. repeat split; [exact H1|lia..].
  - destruct (pick m j) as [i'|] eqn:E; [|discriminate].
    intros [= <-]. destruct (IH _ _ E) as (H1 & H2 & H3). simpl. repeat split; [exact H1|lia..].
Qed.

Lemma pick_defined m : forall j, j < sum_bool m -> exists i, pick m j = Some i.
Proof.
  induction m as [|b m IH]; intros j; simpl; [lia|].
  destruct b; simpl.
  - destruct j as [|j]; [intros _; eexists; reflexivity|].
    intros Hj. destruct (IH j ltac:(lia)) as [i ->]. eexists; reflexivity.
  - intros Hj. destruct (IH j Hj) as [i ->]. eexists; reflexivity.
Qed.

Lemma pick_inverse m : forall i, m !! i = Some true -> exists j, pick m j = Some i.
Proof.
  induction m as [|b m IH]; intros i; [discriminate|].
  destruct i as [|i]; simpl.
  - intros [= ->]. exists 0. reflexivity.
  - intros Hi. destruct (IH i Hi) as [j Hj].
    destruct b; [exists (S j) | exists j]; rewrite Hj; reflexivity.
Qed.

Lemma pick_mono m : forall j t a b,
  j < t -> pick m j = Some a -> pick m t = Some b -> a < b.
Proof.
  induction m as [|x m IH]; intros j t a b Hjt; simpl; [discriminate|].
  destruct x.
  - destruct t as [|t]; [lia|]. destruct j as [|j].
    + intros [= <-]. destruct (pick m t); [|discriminate]. intros [= <-]. lia.
    + destruct (pick m j) as [a'|] eqn:Ea; [|discriminate].
      destruct (pick m t) as [b'|] eqn:Eb; [|discriminate].
      intros [= <-] [= <-]. pose proof (IH j t a' b' ltac:(lia) Ea Eb). lia.
  - destruct (pick m j) as [a'|] eqn:Ea; [|discriminate].
    destruct (pick m t) as [b'|] eqn:Eb; [|discriminate].
    intros [= <-] [= <-]. pose proof (IH j t a' b' Hjt Ea Eb). lia.
Qed.

Lemma select_pick m : forall l j i,
  pick m j = Some i -> nth j (select m l) NaN = nth i l NaN.
Proof.
  induction m as [|b m IH]; intros l j i; simpl; [discriminate|].
  destruct l as [|x l].
  - intros _. destruct j, i; reflexivity.
  - destruct b.
    + destruct j as [|j]; [intros [= <-]; reflexivity|].
      destruct (pick m j) as [i'|] eqn:E; [|discriminate].
      intros [= <-]. simpl. apply IH, E.
    + destruct (pick m j) as [i'|] eqn:E; [|discriminate].
      intros [= <-]. simpl. apply IH, E.
Qed.

Lemma getitem_loc df m c :
  getitem (loc df m) c
  = option_map (fun s => mkSeries (s_name s) (s_dtype s) (select m (s_values s)))
      (getitem df c).
Proof.
  unfold getitem, loc. simpl. induction (data df) as [|s l IH]; [reflexivity|].
  simpl. case_bool_decide; [reflexivity | exact IH].
Qed.

Lemma cell_at_loc df m c j i :
  pick m j = Some i -> cell_at (loc df m) c j = cell_at df c i.
Proof.
  intros Hpick. unfold cell_at. rewrite getitem_loc.
  destruct (getitem df c) as [s|]; [|reflexivity].
  simpl. apply select_pick, Hpick.
Qed.

Lemma sum_bool_none (m : list bool) :
  (forall i, i < length m -> m !! i <> Some true) -> sum_bool m = 0.
Proof.
  induction m as [|b m IH]; intros Hall; [reflexivity|].
  destruct b; [exfalso; apply (Hall 0); [simpl; lia | reflexivity]|].
  simpl. apply IH. intros i Hi. apply (Hall (S i)). simpl. lia.
Qed.

Lemma identical_trans a b c : identical a b -> identical b c -> identical a c.
Proof. unfold identical. congruence. Qed.

Section Drop.
Context `{PandasLib}.

(** X14.  After [drop_exact_duplicates] no row repeats an earlier row on the
    subset, every row of the input is identical on the subset to a row that
    was kept, the mask of the [duplicate] check on the result flags no row,
    and a second application changes nothing, writes nothing and reports
    nothing. *)
Theorem drop_exact_duplicates_leaves_none (df : DataFrame)
    (subset : option (list string)) (report : FixReport) (tname qdir : string)
    (fs fs' : files) (df' : DataFrame) (report' : FixReport) :
  drop_exact_duplicates df subset report tname qdir fs = (fs', Ok (df', report')) ->
  let S := subset_or subset (columns df) in
  (forall i, i < len df' -> ~ repeats_earlier df' S i)
  /\ (forall i, i < len df ->
        exists j, j < len df' /\
          forall c, c ∈ S -> identical (cell_at df c i) (cell_at df' c j))
  /\ (exists mask, _mask_duplicate df' subset = Ok mask /\ sum_bool mask = 0)
  /\ drop_exact_duplicates df' subset report' tname qdir fs' = (fs', Ok (df', report')).
Proof.
  intros Hrun S.
  destruct (Nat.eq_dec (len df) 0) as [Hzero|Hrows].
  { assert (duplicated df S = Ok []) as Hdup
      by (unfold duplicated; rewrite Hzero; reflexivity).
    unfold drop_exact_duplicates in Hrun. fold S in Hrun. rewrite Hdup in Hrun.
    injection Hrun as <- <- <-.
    split; [intros i Hi; lia|]. split; [intros i Hi; lia|].
    split; [exists []; split; [exact Hdup | reflexivity]|].
    unfold drop_exact_duplicates. fold S. rewrite Hdup. reflexivity. }
  assert (forall c, c ∈ S -> c ∈ columns df) as Hcols.
  { apply Forall_forall.
    assert (returned (duplicated df S)) as Hret.
    { unfold drop_exact_duplicates in Hrun. fold S in Hrun.
      destruct (duplicated df S) as [mask|e]; [eexists; reflexivity|].
      discriminate Hrun. }
    apply duplicated_returned in Hret as [Hlen|Hall]; [contradiction | exact Hall]. }
  destruct (duplicated_spec df S Hcols) as (mask & Hdup & Hlen & Hmask).
  assert (forall d, columns d = columns df ->
            (forall i, i < len d -> ~ repeats_earlier d S i) ->
            (exists mask, _mask_duplicate d subset = Ok mask /\ sum_bool mask = 0)
            /\ forall r f, drop_exact_duplicates d subset r tname qdir f = (f, Ok (d, r)))
    as Hnoop.
  { intros d Hd Hnone.
    destruct (duplicated_spec d S) as (mask' & Hdup' & Hlen' & Hmask');
      [rewrite Hd; exact Hcols|].
    assert (sum_bool mask' = 0) as Hzero.
    { apply sum_bool_none. intros i Hi Htrue. rewrite Hlen' in Hi.
      apply (Hnone i Hi), Hmask'; assumption. }
    split.
    - exists mask'. unfold _mask_duplicate. rewrite Hd. fold S. split; assumption.
    - intros r f. unfold drop_exact_duplicates. rewrite Hd. fold S.
      rewrite Hdup', Hzero. reflexivity. }
  unfold drop_exact_duplicates in Hrun. fold S in Hrun. rewrite Hdup in Hrun.
  destruct (0 <? sum_bool mask) eqn:Hpos.
  - unfold io_bind in Hrun. destruct (to_csv _ _ _ fs) as [fs1 [[]|e]]; [|discriminate].
    injection Hrun as <- <- <-.
    set (m := map negb mask).
    assert (forall i, m !! i = Some true -> mask !! i = Some false) as Hkept.
    { intros i. unfold m. rewrite list_lookup_fmap.
      destruct (mask !! i) as [[]|]; simpl; intros [=]. reflexivity. }
    assert (forall i, i < len (loc df m) -> ~ repeats_earlier (loc df m) S i) as Hnone.
    { intros t Ht (j & Hjt & Hsame). cbn in Ht.
      destruct (pick_defined m t Ht) as [b Hb].
      destruct (pick_defined m j ltac:(lia)) as [a Ha].
      pose proof (pick_mono m j t a b Hjt Ha Hb) as Hab.
      destruct (pick_Some m t b Hb) as (Hmb & _ & Hblen).
      unfold m in Hblen. rewrite length_map, Hlen in Hblen.
      assert (mask !! b = Some true) as Htrue.
      { apply Hmask; [exact Hblen|]. exists a. split; [exact Hab|].
        intros c Hc. rewrite <- (cell_at_loc df m c j a Ha), <- (cell_at_loc df m c t b Hb).
        apply Hsame, Hc. }
      rewrite (Hkept b Hmb) in Htrue. discriminate. }
    split; [exact Hnone|]. split.
    + intros i. induction i as [i IH] using lt_wf_ind. intros Hi.
      destruct (mask !! i) as [[]|] eqn:Hmi.
      * apply Hmask in Hmi as (i0 & Hi0 & Hsame); [|exact Hi].
        destruct (IH i0 Hi0 ltac:(lia)) as (j & Hj & Hj0).
        exists j. split; [exact Hj|]. intros c Hc.
        eapply identical_trans; [|apply Hj0, Hc].
        unfold identical. symmetry. apply Hsame, Hc.
      * assert (m !! i = Some true) as Hm
          by (unfold m; rewrite list_lookup_fmap, Hmi; reflexivity).
        destruct (pick_inverse m i Hm) as [j Hj].
        exists j. split; [apply (pick_Some m j i Hj)|].
        intros c _. rewrite (cell_at_loc df m c j i Hj). reflexivity.
      * apply lookup_ge_None in Hmi. lia.
    + destruct (Hnoop (loc df m) (columns_loc df m) Hnone) as [Hcheck Hagain].
      split; [exact Hcheck | apply Hagain].
  - injection Hrun as <- <- <-.
    assert (forall i, i < len df -> ~ repeats_earlier df S i) as Hnone.
    { intros i Hi Hrep. apply Hmask in Hrep; [|exact Hi].
      apply ltb_0_sum in Hpos.
      assert (forall b, b ∈ mask -> b = false) as Hall.
      { intros b Hb. pose proof (proj1 (sum_bool_zero_iff id mask)) as Hz.
        rewrite map_id in Hz. apply (Hz Hpos b Hb). }
      apply list_elem_of_lookup_2 in Hrep. apply Hall in Hrep. discriminate. }
    split; [exact Hnone|]. split.
    + intros i Hi. exists i. split; [exact Hi|]. intros c _. reflexivity.
    + destruct (Hnoop df eq_refl Hnone) as [Hcheck Hagain].
      split; [exact Hcheck | apply Hagain].
Qed.

End Drop.

(** ** [str.strip] *)

Section StripBy.
Variable ps : list (list ascii).

Lemma drop_prefix_Some p : forall l r, drop_prefix p l = Some r -> l = p ++ r.
Proof.
  induction p as [|a p IH]; intros [|b l] r; simpl; try (intros [= <-]; reflexivity); try discriminate.
  destruct (Ascii.eqb_spec a b) as [->|_]; [|discriminate].
  intros Hr. rewrite (IH _ _ Hr). reflexivity.
Qed.

Lemma drop_prefix_app p : forall y z r,
  drop_prefix p y = Some r -> drop_prefix p (y ++ z) = Some (r ++ z).
Proof.
  induction p as [|a p IH]; intros [|b y] z r; simpl; try (intros [= <-]; reflexivity); try discriminate.
  destruct (Ascii.eqb a b); [apply IH | discriminate].
Qed.

Lemma drop_leading_Some l r :
  drop_leading ps l = Some r -> exists p, p ∈ ps /\ l = p ++ r.
Proof.
  induction ps as [|p ps' IH]; simpl; [discriminate|].
  destruct (drop_prefix p l) as [r'|] eqn:Hp.
  - intros [= <-]. exists p. split; [apply list_elem_of_here | apply drop_prefix_Some, Hp].
  - intros Hr. destruct (IH Hr) as (q & Hq & Hl).
    exists q. split; [apply list_elem_of_further, Hq | exact Hl].
Qed.

Lemma drop_leading_app y z :
  drop_leading ps (y ++ z) = None -> drop_leading ps y = None.
Proof.
  induction ps as [|p ps' IH]; simpl; [reflexivity|].
  destruct (drop_prefix p y) as [r|] eqn:Hp.
  - rewrite (drop_prefix_app p y z r Hp). discriminate.
  - destruct (drop_prefix p (y ++ z)); [discriminate | exact IH].
Qed.

Lemma lstrip_by_suffix n : forall l, exists pre, l = pre ++ lstrip_by ps n l.
Proof.
  induction n as [|n IH]; intros l; simpl; [exists []; reflexivity|].
  destruct (drop_leading ps l) as [r|] eqn:Hr; [|exists []; reflexivity].
  destruct (drop_leading_Some l r Hr) as (p & _ & ->).
  destruct (IH r) as (pre & Hpre). exists (p ++ pre).
  rewrite <- app_assoc, <- Hpre. reflexivity.
Qed.

Lemma lstrip_by_fixed n l : drop_leading ps l = None -> lstrip_by ps n l = l.
Proof. intros Hl. destruct n; simpl; [reflexivity | rewrite Hl; reflexivity]. Qed.

Hypothesis ps_nonempty : Forall (fun p => p <> []) ps.

Lemma lstrip_by_done n : forall l,
  length l <= n -> drop_leading ps (lstrip_by ps n l) = None.
Proof.
  induction n as [|n IH]; intros l Hn; simpl.
  - destruct l; [|simpl in Hn; lia].
    destruct (drop_leading ps []) as [r|] eqn:Hr; [|reflexivity].
    destruct (drop_leading_Some _ _ Hr) as (p & Hp & Heq).
    rewrite Forall_forall in ps_nonempty. specialize (ps_nonempty p Hp).
    destruct p; [contradiction | discriminate].
  - destruct (drop_leading ps l) as [r|] eqn:Hr; [|exact Hr].
    apply IH. destruct (drop_leading_Some _ _ Hr) as (p & Hp & ->).
    rewrite Forall_forall in ps_nonempty. specialize (ps_nonempty p Hp).
    rewrite length_app in Hn. destruct p; [contradiction|]. simpl in Hn. lia.
Qed.

End StripBy.

Lemma spaces_nonempty : Forall (fun p => p <> []) spaces.
Proof. repeat constructor; discriminate. Qed.

Lemma rspaces_nonempty : Forall (fun p => p <> []) (map (@rev ascii) spaces).
Proof. repeat constructor; discriminate. Qed.

Lemma strip_idem (s : string) : strip (strip s) = strip s.
Proof.
  unfold strip, rstrip, lstrip. cbv zeta.
  rewrite !list_ascii_of_string_of_list_ascii.
  set (x := lstrip_by spaces _ (list_ascii_of_string s)).
  assert (drop_leading spaces x = None) as Hx
    by (apply lstrip_by_done; [apply spaces_nonempty | reflexivity]).
  set (y := lstrip_by (map (@rev ascii) spaces) _ (rev x)).
  assert (drop_leading (map (@rev ascii) spaces) y = None) as Hy
    by (apply lstrip_by_done; [apply rspaces_nonempty | reflexivity]).
  destruct (lstrip_by_suffix (map (@rev ascii) spaces) (length (rev x)) (rev x))
    as (pre & Hpre). fold y in Hpre.
  assert (x = rev y ++ rev pre) as Hxy
    by (rewrite <- rev_app_distr, <- Hpre, rev_involutive; reflexivity).
  rewrite (lstrip_by_fixed spaces _ (rev y)).
  2:{ apply (drop_leading_app spaces (rev y) (rev pre)). rewrite <- Hxy. exact Hx. }
  rewrite rev_involutive, (lstrip_by_fixed _ _ y Hy). reflexivity.
Qed.

(** ** [trim_strings] applied again *)

Section TrimAgain.
Context `{PandasLib}.

Lemma trimmed_idem (s : Series) : trimmed (trimmed s) = trimmed s.
Proof.
  unfold trimmed. destruct (decide (s_dtype s = object)) as [Hdt|Hdt].
  2:{ rewrite (bool_decide_eq_false_2 (s_dtype s = object) Hdt).
      apply (bool_decide_eq_false_2 (s_dtype s = object)) in Hdt. rewrite Hdt. reflexivity. }
  rewrite (bool_decide_eq_true_2 (s_dtype s = object) Hdt).
  cbn [s_dtype s_name s_values]. rewrite bool_decide_eq_true_2 by reflexivity.
  f_equal. rewrite map_map. apply map_ext. intros c.
  cbn [astype_str]. rewrite strip_idem. reflexivity.
Qed.

Lemma trim_count_trimmed (s : Series) : trim_count (trimmed s) = 0.
Proof.
  unfold trim_count, trimmed. destruct (decide (s_dtype s = object)) as [Hdt|Hdt].
  - rewrite (bool_decide_eq_true_2 (s_dtype s = object) Hdt).
    cbn [s_dtype s_values]. rewrite bool_decide_eq_true_2 by reflexivity.
    induction (s_values s) as [|c l IH]; [reflexivity|].
    cbn [map]. rewrite filter_cons_False; [exact IH|].
    intros [_ Hne]. apply Hne. cbn [astype_str]. apply strip_idem.
  - rewrite (bool_decide_eq_false_2 (s_dtype s = object) Hdt).
    apply (bool_decide_eq_false_2 (s_dtype s = object)) in Hdt. rewrite Hdt. reflexivity.
Qed.

(** X15.  With unique column labels, [trim_strings] applied to its own
    result over all columns changes nothing and reports nothing. *)
Theorem trim_strings_idempotent (df : DataFrame) (report : FixReport) (tname : string) :
  NoDup (columns df) ->
  let df1 := (trim_strings df (columns df) report tname).1 in
  let report1 := (trim_strings df (columns df) report tname).2 in
  forall tname', trim_strings df1 (columns df1) report1 tname' = (df1, report1).
Proof.
  intros Hnd df1 report1 tname'. subst df1 report1.
  rewrite (trim_strings_all df report tname Hnd). cbn [fst snd].
  set (df1 := mkDataFrame (index df) (map trimmed (data df))).
  assert (columns df1 = columns df) as Hcols.
  { unfold columns, df1. cbn [data]. rewrite map_map. apply map_ext, trimmed_name. }
  rewrite trim_strings_all by (rewrite Hcols; exact Hnd).
  unfold df1. cbn [index data]. rewrite !map_map.
  rewrite (map_ext (fun s => trimmed (trimmed s)) trimmed trimmed_idem).
  rewrite (map_ext (fun s => trim_count (trimmed s)) (fun _ => 0) trim_count_trimmed).
  replace (sum_list (map (fun _ => 0) (data df))) with 0; [reflexivity|].
  clear. generalize (data df). intros l.
  induction l as [|s l IH]; [reflexivity | exact IH].
Qed.

(** X16.  After [trim_strings] over all columns a text column holds no
    missing value -- the missing cells have become the text [nan] -- so a
    [fill_nulls] on that frame fills nothing in it and reports nothing,
    whatever the fill value. *)
Theorem fill_nulls_after_trim_strings (df : DataFrame) (report : FixReport)
    (tname column : string) (s : Series) (v : cell) :
  NoDup (columns df) ->
  getitem df column = Some s ->
  s_dtype s = object ->
  let df1 := (trim_strings df (columns df) report tname).1 in
  (forall s1, getitem df1 column = Some s1 -> forall c, c ∈ s_values s1 -> c <> NaN)
  /\ forall report1 tname', fill_nulls df1 column v report1 tname' = (df1, report1).
Proof.
  intros Hnd Hcol Hdt df1. subst df1.
  rewrite (trim_strings_all df report tname Hnd). cbn [fst].
  set (df1 := mkDataFrame (index df) (map trimmed (data df))).
  assert (getitem df1 column = Some (trimmed s)) as Hcol1
    by (unfold df1; rewrite (getitem_map trimmed df column trimmed_name), Hcol; reflexivity).
  assert (forall c, c ∈ s_values (trimmed s) -> c <> NaN) as Hnone.
  { unfold trimmed. rewrite bool_decide_eq_true_2 by exact Hdt. cbn [s_values].
    intros c Hc. apply list_elem_of_fmap in Hc as (x & -> & _). discriminate. }
  split.
  - intros s1 Hs1. rewrite Hcol1 in Hs1. injection Hs1 as <-. exact Hnone.
  - intros report1 tname'. unfold fill_nulls. rewrite Hcol1.
    replace (sum_bool (map isna (s_values (trimmed s)))) with 0; [reflexivity|].
    symmetry. apply sum_bool_zero_iff. intros c Hc.
    apply bool_decide_eq_false, Hnone, Hc.
Qed.

End TrimAgain.

(** ** The files the fix stage writes *)

Lemma quarantine_ret {A} (a : A) : writes_quarantine_only (ret a).
Proof. intros fs path _. reflexivity. Qed.

Lemma quarantine_bind {A B} (m : io A) (k : A -> io B) :
  writes_quarantine_only m -> (forall a, writes_quarantine_only (k a)) ->
  writes_quarantine_only (io_bind m k).
Proof.
  intros Hm Hk fs path Hp. unfold io_bind. specialize (Hm fs path Hp).
  destruct (m fs) as [fs1 [a|e]]; simpl in *; [|exact Hm].
  rewrite (Hk a fs1 path Hp). exact Hm.
Qed.

Lemma prefix_app (s t : string) : String.prefix s (s +:+ t) = true.
Proof.
  induction s as [|a s IH]; simpl; [destruct t; reflexivity|].
  destruct (ascii_dec a a) as [_|Hne]; [exact IH | contradiction].
Qed.

Lemma kept_ret {A} target (a : A) : keeps_file target (ret a).
Proof. intros fs. reflexivity. Qed.

Lemma kept_bind {A B} target (m : io A) (k : A -> io B) :
  keeps_file target m -> (forall a, keeps_file target (k a)) ->
  keeps_file target (io_bind m k).
Proof.
  intros Hm Hk fs. unfold io_bind. specialize (Hm fs).
  destruct (m fs) as [fs1 [a|e]]; simpl in *; [|exact Hm].
  rewrite (Hk a fs1). exact Hm.
Qed.

Lemma no_cells_getitem df c s : no_cells df -> getitem df c = Some s -> s_values s = [].
Proof.
  unfold no_cells, getitem. intros Hall Hfind. apply find_some in Hfind as [Hin _].
  rewrite Forall_forall in Hall. apply Hall, list_elem_of_In, Hin.
Qed.

Lemma no_cells_setitem df c dt : no_cells df -> no_cells (setitem df c dt []).
Proof.
  unfold no_cells, setitem. cbn [data]. induction 1 as [|s l Hs Hl IH]; [constructor|].
  cbn [replace_column]. case_bool_decide; constructor; try assumption. reflexivity.
Qed.

Section Writes.
Context `{PandasLib}.

(** *** With plain names the quarantine files lie in the quarantine directory *)

Lemma quarantine_to_csv name df :
  plain_name name = true ->
  writes_quarantine_only (to_csv quarantine_dir name df).
Proof.
  intros Hplain fs path Hp.
  destruct (to_csv quarantine_dir name df fs) as [fs' [[]|e]] eqn:Hrun.
  - apply to_csv_plain in Hrun as ->; [|exact Hplain].
    cbn [fst]. apply lookup_insert_ne. intros Heq.
    assert (in_quarantine (quarantine_dir +:+ "/" +:+ name) = true) as Hin
      by exact (prefix_app "quarantine/" name).
    congruence.
  - apply to_csv_raise in Hrun as [-> _]. reflexivity.
Qed.

Lemma quarantine_fix_column_check tname cname st chk :
  plain_name tname = true -> plain_name cname = true ->
  writes_quarantine_only (fix_column_check tname cname st chk).
Proof.
  intros Ht Hc.
  assert (forall suffix, plain_name suffix = true ->
            plain_name (tname +:+ "_" +:+ cname +:+ suffix) = true) as Hname.
  { intros suffix Hs. rewrite !Reference.plain_name_app, Ht, Hc, Hs. reflexivity. }
  destruct st as [df report]. unfold fix_column_check.
  repeat match goal with |- context [String.eqb ?a ?b] => destruct (String.eqb a b) end.
  - unfold clip_range. destruct (getitem df cname); [|apply quarantine_ret].
    destruct (0 <? _); [|apply quarantine_ret].
    apply quarantine_bind; [apply quarantine_to_csv, Hname; reflexivity|].
    intros; apply quarantine_ret.
  - destruct (allowed chk); [|apply quarantine_ret].
    unfold enforce_enum. destruct (getitem df cname); [|apply quarantine_ret].
    destruct (0 <? _); [|apply quarantine_ret].
    apply quarantine_bind; [apply quarantine_to_csv, Hname; reflexivity|].
    intros; apply quarantine_ret.
  - destruct (fill_value chk); apply quarantine_ret.
  - unfold parse_dates. destruct (getitem df cname); [|apply quarantine_ret].
    apply quarantine_bind.
    + destruct (0 <? _); [|apply quarantine_ret].
      apply quarantine_bind; [apply quarantine_to_csv, Hname; reflexivity|].
      intros; apply quarantine_ret.
    + intros report'. destruct (0 <? _); apply quarantine_ret.
  - apply quarantine_ret.
Qed.

Lemma quarantine_fix_column_checks tname cname chks : forall st,
  plain_name tname = true -> plain_name cname = true ->
  writes_quarantine_only (fix_column_checks tname cname chks st).
Proof.
  induction chks as [|chk chks IH]; intros st Ht Hc; simpl; [apply quarantine_ret|].
  apply quarantine_bind; [apply quarantine_fix_column_check; assumption|].
  intros st1. apply IH; assumption.
Qed.

Lemma quarantine_fix_columns tname cols : forall st,
  plain_name tname = true ->
  Forall (fun col => plain_name (col_name col) = true) cols ->
  writes_quarantine_only (fix_columns tname cols st).
Proof.
  induction cols as [|col cols IH]; intros st Ht Hcols; simpl; [apply quarantine_ret|].
  apply Forall_cons in Hcols as [Hcol Hcols].
  apply quarantine_bind; [apply quarantine_fix_column_checks; assumption|].
  intros st1. apply IH; assumption.
Qed.

Lemma quarantine_fix_table_checks tname chks : forall st,
  plain_name tname = true ->
  writes_quarantine_only (fix_table_checks tname chks st).
Proof.
  induction chks as [|chk chks IH]; intros st Ht; simpl; [apply quarantine_ret|].
  destruct (String.eqb _ _); [|apply IH, Ht].
  apply quarantine_bind; [|intros st1; apply IH, Ht].
  unfold drop_exact_duplicates. destruct (duplicated _ _); [|intros fs path _; reflexivity].
  destruct (0 <? _); [|apply quarantine_ret].
  apply quarantine_bind; [|intros; apply quarantine_ret].
  apply quarantine_to_csv. rewrite Reference.plain_name_app, Ht. reflexivity.
Qed.

Lemma quarantine_fix_tables tables : forall st,
  Forall plain_names tables ->
  writes_quarantine_only (fix_tables tables st).
Proof.
  induction tables as [|t tables IH]; intros st Hplain; simpl; [apply quarantine_ret|].
  apply Forall_cons in Hplain as [[Ht Hcols] Hplain].
  apply quarantine_bind; [apply quarantine_fix_table_checks, Ht|]. intros st2.
  apply quarantine_bind; [apply quarantine_fix_columns; assumption|].
  intros st3. apply IH, Hplain.
Qed.

(** *** Whatever the names, no quarantine file is a file that ends otherwise *)

Lemma kept_fix_column_check target tname cname st chk :
  other_file target -> keeps_file target (fix_column_check tname cname st chk).
Proof.
  intros Hother. destruct st as [df report]. unfold fix_column_check.
  repeat match goal with |- context [String.eqb ?a ?b] => destruct (String.eqb a b) end.
  - apply keeps_clip_range, Hother.
  - destruct (allowed chk); [apply keeps_enforce_enum, Hother | apply kept_ret].
  - destruct (fill_value chk); apply kept_ret.
  - apply keeps_parse_dates, Hother.
  - apply kept_ret.
Qed.

Lemma kept_fix_column_checks target tname cname chks : forall st,
  other_file target -> keeps_file target (fix_column_checks tname cname chks st).
Proof.
  induction chks as [|chk chks IH]; intros st Hother; simpl; [apply kept_ret|].
  apply kept_bind; [apply kept_fix_column_check, Hother | intros st1; apply IH, Hother].
Qed.

Lemma kept_fix_columns target tname cols : forall st,
  other_file target -> keeps_file target (fix_columns tname cols st).
Proof.
  induction cols as [|col cols IH]; intros st Hother; simpl; [apply kept_ret|].
  apply kept_bind; [apply kept_fix_column_checks, Hother | intros st1; apply IH, Hother].
Qed.

Lemma kept_fix_table_checks target tname chks : forall st,
  other_file target -> keeps_file target (fix_table_checks tname chks st).
Proof.
  induction chks as [|chk chks IH]; intros st Hother; simpl; [apply kept_ret|].
  destruct (String.eqb _ _); [|apply IH, Hother].
  apply kept_bind; [apply keeps_drop_exact_duplicates, Hother | intros st1; apply IH, Hother].
Qed.

Lemma kept_fix_tables target tables : forall st,
  other_file target -> keeps_file target (fix_tables tables st).
Proof.
  induction tables as [|t tables IH]; intros st Hother; simpl; [apply kept_ret|].
  apply kept_bind; [apply kept_fix_table_checks, Hother|]. intros st2.
  apply kept_bind; [apply kept_fix_columns, Hother | intros st3; apply IH, Hother].
Qed.

Lemma guardrails_files args report df fs path :
  path <> fix_report_path ->
  (guardrails args report df fs).1 !! path = fs !! path.
Proof.
  intros Hp. unfold guardrails, cell_guardrail, io_bind, raise, ret, write.
  destruct (total_rows_before report) as [[|n]|]; try reflexivity.
  destruct (PrimFloat.ltb _ _); [reflexivity|].
  destruct (total_cells _ _); [simpl; apply lookup_insert_ne; congruence|].
  destruct (PrimFloat.ltb (max_cell_changes_pct args) _); [reflexivity|].
  simpl. apply lookup_insert_ne. congruence.
Qed.

(** What the fix stage leaves alone, given what its loop leaves alone. *)
Lemma fix_stage_after_loop (args : Args) (tables : list TableRule)
    (df : DataFrame) (path : string) :
  keeps_file path (fix_tables tables (df, initial_report df)) ->
  path <> fix_report_path ->
  path <> cleaned_path ->
  keeps_file path (fix_stage args tables df).
Proof.
  intros Hloop Hr Hc fs. specialize (Hloop fs). unfold fix_stage.
  destruct (fix_ args || fix_dry_run args); [|reflexivity].
  unfold io_bind.
  destruct (fix_tables tables (df, initial_report df) fs) as [fs1 [st|e]]; simpl in Hloop;
    [|exact Hloop].
  pose proof (guardrails_files args (final_report st) st.1 fs1 path Hr) as Hguard.
  destruct (guardrails args (final_report st) st.1 fs1) as [fs2 [[]|e]]; simpl in Hguard;
    [|simpl; congruence].
  destruct (fix_ args && negb (fix_dry_run args)); simpl.
  - rewrite lookup_insert_ne by congruence. congruence.
  - congruence.
Qed.

Lemma results_other : other_file "results.json".
Proof. repeat constructor. Qed.

Lemma cleaned_other : other_file cleaned_path.
Proof. repeat constructor. Qed.

Lemma fix_stage_files (args : Args) (tables : list TableRule)
    (df : DataFrame) (fs : files) (path : string) :
  Forall plain_names tables ->
  outside_fix_stage path ->
  (fix_stage args tables df fs).1 !! path = fs !! path.
Proof.
  intros Hplain (Hq & Hr & Hc).
  apply fix_stage_after_loop; [|exact Hr | exact Hc].
  intros fs0. apply quarantine_fix_tables; assumption.
Qed.

(** X17.  With table and column names that hold no path separator, the fix
    stage writes only below the quarantine directory, to [fix_report.json]
    and to [cleaned.csv]: every other path of the output directory is as it
    was, whether the stage returns or raises. *)
Theorem fix_stage_writes_only (args : Args) (tables : list TableRule)
    (df : DataFrame) (fs : files) (path : string) :
  Forall plain_names tables ->
  in_quarantine path = false ->
  path <> fix_report_path ->
  path <> cleaned_path ->
  (fix_stage args tables df fs).1 !! path = fs !! path.
Proof.
  intros Hplain Hq Hr Hc. unfold fix_stage.
  destruct (fix_ args || fix_dry_run args); [|reflexivity].
  unfold io_bind.
  pose proof (quarantine_fix_tables tables (df, initial_report df) Hplain fs path Hq)
    as Hloop.
  destruct (fix_tables tables (df, initial_report df) fs) as [fs1 [st|e]]; simpl in Hloop;
    [|exact Hloop].
  pose proof (guardrails_files args (final_report st) st.1 fs1 path Hr) as Hguard.
  destruct (guardrails args (final_report st) st.1 fs1) as [fs2 [[]|e]]; simpl in Hguard;
    [|simpl; congruence].
  destruct (fix_ args && negb (fix_dry_run args)); simpl.
  - rewrite lookup_insert_ne by congruence. congruence.
  - congruence.
Qed.

(** X18.  [cleaned.csv] is written only by a fix stage that completes with
    [--fix] and without [--fix-dry-run], and then holds the frame the stage
    returns; a dry run (also one combined with [--fix]), a run without fixes
    and a run that raises leave it as it was. *)
Theorem cleaned_csv_written_by_real_fix (args : Args) (tables : list TableRule)
    (df : DataFrame) (fs fs' : files) (out : result DataFrame) :
  fix_stage args tables df fs = (fs', out) ->
  (fix_ args && negb (fix_dry_run args) = false ->
     fs' !! cleaned_path = fs !! cleaned_path)
  /\ (forall e, out = Raise e -> fs' !! cleaned_path = fs !! cleaned_path)
  /\ (fix_ args && negb (fix_dry_run args) = true ->
      forall df', out = Ok df' -> fs' !! cleaned_path = Some (CsvText df')).
Proof.
  unfold fix_stage.
  destruct (fix_ args || fix_dry_run args) eqn:Hmode.
  2:{ intros [= <- <-]. apply orb_false_iff in Hmode as [-> _].
      split; [reflexivity|]. split; [intros e [=] | discriminate]. }
  unfold io_bind.
  pose proof (kept_fix_tables cleaned_path tables (df, initial_report df) cleaned_other fs)
    as Hloop.
  destruct (fix_tables tables (df, initial_report df) fs) as [fs1 [st|e]]; simpl in Hloop.
  2:{ intros [= <- <-]. split; [intros _; exact Hloop|].
      split; [intros e' _; exact Hloop | intros _ df' [=]]. }
  pose proof (guardrails_files args (final_report st) st.1 fs1 cleaned_path
                ltac:(discriminate)) as Hguard.
  destruct (guardrails args (final_report st) st.1 fs1) as [fs2 [[]|e]]; simpl in Hguard.
  2:{ intros [= <- <-]. split; [intros _; congruence|].
      split; [intros e' _; congruence | intros _ df' [=]]. }
  destruct (fix_ args && negb (fix_dry_run args)); simpl; intros [= <- <-].
  - split; [discriminate|]. split; [intros e [=]|].
    intros _ df' [= <-]. apply lookup_insert_eq.
  - split; [intros _; congruence|]. split; [intros e [=] | discriminate].
Qed.

(** *** A dataset without rows *)

Lemma trim_strings_no_cells df cols report tname :
  no_cells df ->
  no_cells (trim_strings df cols report tname).1
  /\ (trim_strings df cols report tname).2 = report.
Proof.
  intros Hdf. unfold trim_strings.
  assert (forall st, no_cells st.1 -> st.2 = 0 ->
            no_cells (fold_left trim_column cols st).1
            /\ (fold_left trim_column cols st).2 = 0) as Hfold.
  { induction cols as [|c cols IH]; intros st Hst Hn; cbn [fold_left]; [split; assumption|].
    destruct st as [d n]. cbn [fst snd] in *. subst n.
    unfold trim_column. destruct (getitem d c) as [s|] eqn:Hcol; [|apply IH; auto].
    case_bool_decide; [|apply IH; auto].
    rewrite (no_cells_getitem d c s Hst Hcol). cbn [map zip_with sum_bool].
    apply IH; [apply no_cells_setitem, Hst | reflexivity]. }
  destruct (Hfold (df, 0) Hdf eq_refl) as [Hcells Hzero].
  destruct (fold_left trim_column cols (df, 0)) as [df' n]. cbn [fst snd] in *.
  subst n. split; [exact Hcells | reflexivity].
Qed.

Lemma fix_column_check_no_cells tname cname st chk fs :
  no_cells st.1 -> fix_column_check tname cname st chk fs = (fs, Ok st).
Proof.
  destruct st as [df report]. cbn [fst]. intros Hdf. unfold fix_column_check.
  repeat match goal with |- context [String.eqb ?a ?b] => destruct (String.eqb a b) end.
  - unfold clip_range. destruct (getitem df cname) as [s|] eqn:Hcol; [|reflexivity].
    rewrite (no_cells_getitem df cname s Hdf Hcol). reflexivity.
  - destruct (allowed chk); [|reflexivity].
    unfold enforce_enum. destruct (getitem df cname) as [s|] eqn:Hcol; [|reflexivity].
    rewrite (no_cells_getitem df cname s Hdf Hcol). reflexivity.
  - destruct (fill_value chk); [|reflexivity].
    unfold fill_nulls, ret. destruct (getitem df cname) as [s|] eqn:Hcol; [|reflexivity].
    rewrite (no_cells_getitem df cname s Hdf Hcol). reflexivity.
  - unfold parse_dates. destruct (getitem df cname) as [s|] eqn:Hcol; [|reflexivity].
    rewrite (no_cells_getitem df cname s Hdf Hcol). reflexivity.
  - reflexivity.
Qed.

Lemma fix_columns_no_cells tname cols : forall st fs,
  no_cells st.1 -> fix_columns tname cols st fs = (fs, Ok st).
Proof.
  induction cols as [|col cols IH]; intros st fs Hst; cbn [fix_columns]; [reflexivity|].
  unfold io_bind.
  assert (fix_column_checks tname (col_name col) (col_checks col) st fs = (fs, Ok st)) as ->.
  { induction (col_checks col) as [|chk chks IHc]; cbn [fix_column_checks]; [reflexivity|].
    unfold io_bind. rewrite fix_column_check_no_cells by exact Hst. exact IHc. }
  apply IH, Hst.
Qed.

Lemma fix_table_checks_no_rows tname chks : forall st fs,
  len st.1 = 0 -> fix_table_checks tname chks st fs = (fs, Ok st).
Proof.
  induction chks as [|chk chks IH]; intros st fs Hlen; cbn [fix_table_checks];
    [reflexivity|].
  destruct (String.eqb _ _); [|apply IH, Hlen].
  unfold io_bind, drop_exact_duplicates, duplicated. rewrite Hlen.
  cbn [sum_bool Nat.ltb Nat.leb ret]. destruct st. apply IH, Hlen.
Qed.

Lemma fix_tables_no_rows tables : forall st fs,
  len st.1 = 0 -> no_cells st.1 ->
  exists df', fix_tables tables st fs = (fs, Ok (df', st.2)) /\ len df' = 0.
Proof.
  induction tables as [|t tables IH]; intros st fs Hlen Hcells; cbn [fix_tables].
  - exists st.1. destruct st. split; [reflexivity | exact Hlen].
  - pose proof (trim_strings_len st.1 (columns st.1) st.2 (table_name t)) as Hlen1.
    destruct (trim_strings_no_cells st.1 (columns st.1) st.2 (table_name t) Hcells)
      as [Hcells1 Hreport1].
    set (st1 := trim_strings st.1 (columns st.1) st.2 (table_name t)) in *.
    unfold io_bind.
    rewrite fix_table_checks_no_rows by (rewrite Hlen1; exact Hlen).
    rewrite fix_columns_no_cells by exact Hcells1.
    destruct (IH st1 fs) as (df' & Hrun & Hlen'); [rewrite Hlen1; exact Hlen | exact Hcells1|].
    exists df'. rewrite Hrun, Hreport1. split; [reflexivity | exact Hlen'].
Qed.

(** X19.  On a dataset without rows the fix stage completes, whatever the
    rules; it returns a frame without rows and leaves [fix_report.json] as
    it was: with [total_rows_before] zero, both guardrails and the dump are
    skipped. *)
Theorem fix_stage_empty_dataset (args : Args) (tables : list TableRule)
    (df : DataFrame) (fs : files) :
  len df = 0 ->
  no_cells df ->
  exists fs' df',
    fix_stage args tables df fs = (fs', Ok df')
    /\ len df' = 0
    /\ fs' !! fix_report_path = fs !! fix_report_path.
Proof.
  intros Hlen Hcells. unfold fix_stage.
  destruct (fix_ args || fix_dry_run args); [|exists fs, df; repeat split; assumption].
  unfold io_bind.
  destruct (fix_tables_no_rows tables (df, initial_report df) fs Hlen Hcells)
    as (df' & Hrun & Hlen').
  rewrite Hrun. cbn [snd fst].
  unfold guardrails. cbn [final_report total_rows_before initial_report snd]. rewrite Hlen.
  cbn [ret]. destruct (fix_ args && negb (fix_dry_run args)); cbn [write ret].
  - eexists _, _. split; [reflexivity|]. split; [exact Hlen'|].
    rewrite lookup_insert_ne by discriminate. reflexivity.
  - eexists _, _. split; [reflexivity|]. split; [exact Hlen' | reflexivity].
Qed.

Lemma affected_split (report : FixReport) :
  rows_dropped report + cell_changes report = sum_list (map affected (actions report)).
Proof.
  unfold rows_dropped, cell_changes. induction (actions report) as [|a l IH]; [reflexivity|].
  rewrite filter_cons. cbn [List.filter map sum_list sum_list_with].
  destruct (String.eqb_spec (action a) "drop_duplicates") as [Ha|Ha].
  - rewrite decide_True by exact Ha. simpl. lia.
  - rewrite decide_False by exact Ha. simpl. lia.
Qed.

(** X20.  After the fix loop, the rows dropped and the cell changes that the
    guardrail counts add up to the sum of [affected] over all actions of the
    report: every action counts toward exactly one of the two guardrails. *)
Theorem every_action_counts_once (tables : list TableRule) (df : DataFrame)
    (fs fs' : files) (st : DataFrame * FixReport) :
  fix_tables tables (df, initial_report df) fs = (fs', Ok st) ->
  let report := final_report st in
  (len df - len st.1) + cell_changes report = sum_list (map affected (actions report))
  /\ len st.1 <= len df.
Proof.
  intros Hrun report. destruct (fix_tables_rows _ _ _ _ _ Hrun) as [Hrows _].
  pose proof (affected_split st.2) as Hsplit.
  subst report. unfold final_report, cell_changes in *. cbn [actions] in *. lia.
Qed.

End Writes.

(** ** The fix loop keeps the column labels *)

Lemma duplicated_keeps_first df cols mask :
  duplicated df cols = Ok mask -> 0 < len df -> 0 < sum_bool (map negb mask).
Proof.
  unfold duplicated. destruct (len df) as [|n]; [lia|].
  destruct (List.find _ cols); [discriminate|].
  intros [= <-] _. cbn [duplicated_from map negb sum_bool]. lia.
Qed.

Section Labels.
Context `{PandasLib}.

Lemma shape_drop_exact_duplicates df subset report tname qdir fs fs' st' :
  drop_exact_duplicates df subset report tname qdir fs = (fs', Ok st') ->
  columns st'.1 = columns df /\ (0 < len df -> 0 < len st'.1).
Proof.
  unfold drop_exact_duplicates.
  destruct (duplicated df _) as [mask|e] eqn:Hdup; [|discriminate].
  destruct (0 <? _).
  - unfold io_bind. destruct (to_csv _ _ _ fs) as [fs1 [[]|e]]; [|discriminate].
    intros [= <- <-]. cbn [fst]. split; [apply columns_loc|].
    intros Hlen. exact (duplicated_keeps_first _ _ _ Hdup Hlen).
  - intros [= <- <-]. split; [reflexivity | intros Hlen; exact Hlen].
Qed.

Lemma shape_fix_column_check tname cname st chk fs fs' st' :
  fix_column_check tname cname st chk fs = (fs', Ok st') ->
  columns st'.1 = columns st.1 /\ len st'.1 = len st.1.
Proof.
  destruct st as [df report]. destruct st' as [df' report']. cbn [fst].
  unfold fix_column_check.
  repeat match goal with |- context [String.eqb ?a ?b] => destruct (String.eqb a b) end.
  - intros Hrun. split; [|apply (clip_range_rows _ _ _ _ _ _ _ _ _ _ _ Hrun)].
    revert Hrun. unfold clip_range. destruct (getitem df cname); [|intros [= <- <- <-]; reflexivity].
    destruct (0 <? _); [|intros [= <- <- <-]; reflexivity].
    unfold io_bind. destruct (to_csv _ _ _ fs) as [fs1 [[]|e]]; [|discriminate].
    intros [= <- <- <-]. apply columns_setitem.
  - destruct (allowed chk); [|intros [= <- <- <-]; split; reflexivity].
    intros Hrun. apply enforce_enum_rows in Hrun as [-> _]. split; reflexivity.
  - destruct (fill_value chk); [|intros [= <- <- <-]; split; reflexivity].
    intros [= <- Hfill].
    pose proof (fill_nulls_rows df cname c report tname) as (Hl & _).
    rewrite Hfill in Hl. split; [|exact Hl].
    revert Hfill. unfold fill_nulls. destruct (getitem df cname); [|intros [= <- <-]; reflexivity].
    destruct (0 <? _); intros [= <- <-]; [apply columns_loc_setitem | reflexivity].
  - intros Hrun. split; [|apply (parse_dates_rows _ _ _ _ _ _ _ _ _ _ Hrun)].
    revert Hrun. unfold parse_dates. destruct (getitem df cname); [|intros [= <- <- <-]; reflexivity].
    unfold io_bind.
    destruct (0 <? sum_bool (zip_with _ _ _)).
    + destruct (to_csv _ _ _ fs) as [fs1 [[]|e]]; [|discriminate]. cbn [ret].
      destruct (0 <? sum_bool (map _ _)); intros [= <- <- <-];
        [apply columns_loc_setitem | reflexivity].
    + cbn [ret]. destruct (0 <? sum_bool (map _ _)); intros [= <- <- <-];
        [apply columns_loc_setitem | reflexivity].
  - intros [= <- <- <-]. split; reflexivity.
Qed.

Lemma shape_fix_column_checks tname cname chks : forall st fs fs' st',
  fix_column_checks tname cname chks st fs = (fs', Ok st') ->
  columns st'.1 = columns st.1 /\ len st'.1 = len st.1.
Proof.
  induction chks as [|chk chks IH]; intros st fs fs' st'; cbn [fix_column_checks].
  { intros [= <- <-]. split; reflexivity. }
  unfold io_bind.
  destruct (fix_column_check _ _ st chk fs) as [fs1 [st1|e]] eqn:Hstep; [|discriminate].
  intros Hrest. apply shape_fix_column_check in Hstep as [Hc Hl].
  apply IH in Hrest as [Hc' Hl']. split; congruence.
Qed.

Lemma shape_fix_columns tname cols : forall st fs fs' st',
  fix_columns tname cols st fs = (fs', Ok st') ->
  columns st'.1 = columns st.1 /\ len st'.1 = len st.1.
Proof.
  induction cols as [|col cols IH]; intros st fs fs' st'; cbn [fix_columns].
  { intros [= <- <-]. split; reflexivity. }
  unfold io_bind.
  destruct (fix_column_checks _ _ _ st fs) as [fs1 [st1|e]] eqn:Hstep; [|discriminate].
  intros Hrest. apply shape_fix_column_checks in Hstep as [Hc Hl].
  apply IH in Hrest as [Hc' Hl']. split; congruence.
Qed.

(** The table-level checks keep the labels and at least one row of a frame
    that has rows; where they return on such a frame, every duplicate check
    names columns of it. *)
Lemma shape_fix_table_checks tname chks : forall st fs fs' st',
  fix_table_checks tname chks st fs = (fs', Ok st') ->
  columns st'.1 = columns st.1
  /\ (0 < len st.1 ->
      0 < len st'.1
      /\ Forall (fun chk => ctype chk = "duplicate" ->
                   Forall (fun c => c ∈ columns st.1)
                          (subset_or (subset chk) (columns st.1)))
                chks).
Proof.
  induction chks as [|chk chks IH]; intros st fs fs' st'; cbn [fix_table_checks].
  { intros [= <- <-]. split; [reflexivity|]. intros Hlen. split; [exact Hlen | constructor]. }
  destruct (String.eqb_spec (ctype chk) "duplicate") as [Hty|Hty].
  - unfold io_bind.
    destruct (drop_exact_duplicates _ _ _ _ _ fs) as [fs1 [st1|e]] eqn:Hdrop; [|discriminate].
    intros Hrest. destruct (shape_drop_exact_duplicates _ _ _ _ _ _ _ _ Hdrop) as [Hc Hl].
    apply IH in Hrest as [Hc' Hrest]. split; [congruence|].
    intros Hlen. destruct (Hrest (Hl Hlen)) as [Hlen' Hall]. split; [exact Hlen'|].
    constructor; [|rewrite <- Hc; exact Hall].
    intros _. unfold drop_exact_duplicates in Hdrop.
    destruct (duplicated st.1 _) as [mask|e] eqn:Hdup; [|discriminate Hdrop].
    assert (returned (duplicated st.1 (subset_or (subset chk) (columns st.1)))) as Hret
      by (eexists; exact Hdup).
    apply duplicated_returned in Hret as [Hzero|Hall']; [lia | exact Hall'].
  - intros Hrest. apply IH in Hrest as [Hc Hrest]. split; [exact Hc|].
    intros Hlen. destruct (Hrest Hlen) as [Hlen' Hall]. split; [exact Hlen'|].
    constructor; [intros Hd; contradiction | exact Hall].
Qed.

Lemma shape_fix_tables tables : forall st fs fs' st',
  fix_tables tables st fs = (fs', Ok st') ->
  columns st'.1 = columns st.1
  /\ (0 < len st.1 -> subsets_exist tables (columns st.1)).
Proof.
  unfold subsets_exist.
  induction tables as [|t tables IH]; intros st fs fs' st'; cbn [fix_tables].
  { intros [= <- <-]. split; [reflexivity | intros _; constructor]. }
  pose proof (trim_strings_columns st.1 (columns st.1) st.2 (table_name t)) as Hcols.
  pose proof (trim_strings_len st.1 (columns st.1) st.2 (table_name t)) as Hrows.
  set (st1 := trim_strings st.1 (columns st.1) st.2 (table_name t)) in *.
  unfold io_bind.
  destruct (fix_table_checks _ _ st1 fs) as [fs1 [st2|e]] eqn:H1; [|discriminate].
  destruct (fix_columns _ _ st2 fs1) as [fs2 [st3|e]] eqn:H2; [|discriminate].
  intros Hrest.
  apply shape_fix_table_checks in H1 as [Hc1 Hl1].
  apply shape_fix_columns in H2 as [Hc2 Hl2].
  apply IH in Hrest as [Hc3 Hl3].
  split; [congruence|]. intros Hlen. rewrite <- Hrows in Hlen.
  destruct (Hl1 Hlen) as [Hlen2 Hall]. constructor.
  - rewrite <- Hcols. exact Hall.
  - rewrite <- Hcols, <- Hc1, <- Hc2. apply Hl3. rewrite Hl2. exact Hlen2.
Qed.

(** X21.  The frame the fix loop returns has the column labels of the
    input, in order.  On a dataset with rows the loop returns only if the
    subsets of the [duplicate] checks name columns of it; it does return
    when they do and every quarantine file can be opened. *)
Theorem fix_tables_keeps_columns (tables : list TableRule) (df : DataFrame)
    (report : FixReport) (fs : files) :
  (forall fs' st, fix_tables tables (df, report) fs = (fs', Ok st) ->
     columns st.1 = columns df
     /\ (0 < len df -> subsets_exist tables (columns df)))
  /\ (subsets_exist tables (columns df) -> quarantine_opens tables ->
      exists fs' st, fix_tables tables (df, report) fs = (fs', Ok st)).
Proof.
  split.
  - intros fs' st Hrun. apply (shape_fix_tables _ _ _ _ _ Hrun).
  - intros Hsub Hopens.
    destruct (fix_tables_returns tables (df, report) Hsub Hopens fs)
      as (fs' & st & Hrun & _).
    exists fs', st. exact Hrun.
Qed.

End Labels.

(** ** checks/run_checks.py: the failure samples *)


Lemma get_set_item kv k v k' :
  get (set_item kv k v) k' = if String.eqb k k' then Some v else get kv k'.
Proof.
  induction kv as [|[k0 v0] kv IH]; simpl.
  - destruct (String.eqb k k'); reflexivity.
  - destruct (String.eqb_spec k0 k) as [->|Hne]; simpl.
    + destruct (String.eqb k k'); reflexivity.
    + rewrite IH. destruct (String.eqb_spec k0 k') as [->|Hne'].
      * rewrite (proj2 (String.eqb_neq k k')) by congruence. reflexivity.
      * reflexivity.
Qed.

Lemma len_head n df : len (head n df) = Nat.min n (len df).
Proof. reflexivity. Qed.

Lemma columns_head n df : columns (head n df) = columns df.
Proof. unfold columns, head. simpl. rewrite map_map. reflexivity. Qed.

Lemma plain_replace_dots (s : string) : plain_name (replace_dots s) = plain_name s.
Proof.
  induction s as [|c s IH]; [reflexivity|]. cbn [replace_dots].
  rewrite !Reference.plain_name_cons, IH. f_equal. f_equal.
  destruct (Ascii.eqb_spec c "."%char) as [->|_]; reflexivity.
Qed.

Lemma plain_sample_name (c : CheckResult) :
  plain_name (r_name c) = true -> plain_name (sample_name c) = true.
Proof.
  intros Hplain. unfold sample_name.
  rewrite Reference.plain_name_app, plain_replace_dots, Hplain. reflexivity.
Qed.

Lemma sample_name_csv (c : CheckResult) : ends_with ".csv" (sample_name c) = true.
Proof. apply ends_with_app, ends_with_refl. Qed.

Section Samples.
Context `{PandasLib}.

Lemma to_csv_written dir name df fs fs' :
  to_csv dir name df fs = (fs', Ok tt) ->
  exists path, open_csv dir name = Some path /\ fs' = <[path := CsvText df]> fs.
Proof.
  unfold to_csv, write. destruct (open_csv dir name) as [p|]; [|discriminate].
  intros [= <-]. exists p. split; reflexivity.
Qed.

Lemma sample_mask_clock now later df r mask :
  sample_mask now df r = Ok (Some mask) ->
  exists mask', sample_mask later df r = Ok (Some mask')
    /\ (r_type r <> "freshness" -> mask' = mask).
Proof.
  unfold sample_mask.
  destruct (String.eqb (r_type r) "duplicate");
    [intros ->; eexists; split; reflexivity|].
  destruct (match r_column r with Some cname => getitem df cname | None => None end)
    as [s|]; [|discriminate].
  destruct (String.eqb (r_type r) "range"); [intros ->; eexists; split; reflexivity|].
  destruct (String.eqb (r_type r) "enum"); [intros ->; eexists; split; reflexivity|].
  destruct (String.eqb (r_type r) "null_rate"); [intros ->; eexists; split; reflexivity|].
  destruct (String.eqb_spec (r_type r) "freshness") as [Hty|_]; [|discriminate].
  intros _. eexists. split; [reflexivity|]. intros Hn. contradiction.
Qed.

(** No sample file is a file whose last component does not end in
    [.csv]. *)
Lemma failure_samples_keeps utcnow df checks target : forall samples,
  ends_with ".csv" (path_name target) = false ->
  keeps_file target (failure_samples utcnow df checks samples).
Proof.
  induction checks as [|c checks IH]; intros samples Hends fs; cbn [failure_samples];
    [reflexivity|].
  case_bool_decide; [|apply IH, Hends].
  destruct (sample_mask utcnow df c) as [[mask|]|e]; [|apply IH, Hends | reflexivity].
  unfold io_bind.
  pose proof (to_csv_keeps samples_dir (sample_name c) (head 200 (loc df mask)) ".csv"
                target fs eq_refl (sample_name_csv c) Hends) as Hkeep.
  destruct (to_csv _ _ _ fs) as [fs1 [[]|e]]; cbn [fst] in *; [|exact Hkeep].
  rewrite IH by exact Hends. exact Hkeep.
Qed.

(** With plain names the sample files lie in the directory of the failure
    samples. *)
Lemma failure_samples_files utcnow df checks : forall samples fs path,
  Forall (fun r => r_status r = fail -> plain_name (r_name r) = true) checks ->
  in_failures path = false ->
  (failure_samples utcnow df checks samples fs).1 !! path = fs !! path.
Proof.
  induction checks as [|c checks IH]; intros samples fs path Hplain Hp;
    cbn [failure_samples]; [reflexivity|].
  apply Forall_cons in Hplain as [Hc Hplain].
  case_bool_decide as Hfail; [|apply IH; assumption].
  destruct (sample_mask utcnow df c) as [[mask|]|e]; [|apply IH; assumption | reflexivity].
  unfold io_bind.
  destruct (to_csv _ _ _ fs) as [fs1 [[]|e]] eqn:Hcsv; cbn [fst].
  - rewrite IH by assumption.
    apply to_csv_plain in Hcsv as ->; [|apply plain_sample_name, Hc, Hfail].
    apply lookup_insert_ne. intros Heq.
    assert (in_failures (samples_dir +:+ "/" +:+ sample_name c) = true) as Hin
      by exact (prefix_app "failures/" (sample_name c)).
    congruence.
  - apply to_csv_raise in Hcsv as [-> _]. reflexivity.
Qed.

Lemma failure_samples_loop utcnow df checks : forall samples fs fs' samples',
  Forall (fun r => r_status r = fail ->
            exists mask, sample_mask utcnow df r = Ok (Some mask)) checks ->
  well_named samples ->
  failure_samples utcnow df checks samples fs = (fs', Ok samples') ->
  well_named samples'
  /\ (forall k, is_Some (get samples' k) <->
        is_Some (get samples k)
        \/ exists r, r ∈ checks /\ r_status r = fail /\ r_name r = k)
  /\ (forall path f, fs !! path = Some f -> is_sample df f ->
        exists f', fs' !! path = Some f' /\ is_sample df f')
  /\ (forall r, r ∈ checks -> r_status r = fail ->
        exists path f,
          open_csv samples_dir (sample_name r) = Some path
          /\ fs' !! path = Some f /\ is_sample df f).
Proof.
  induction checks as [|c checks IH]; intros samples fs fs' samples' Hall Hnamed;
    cbn [failure_samples].
  - intros [= <- <-]. split; [exact Hnamed|]. split.
    + intros k. split; [intros Hk; left; exact Hk|].
      intros [Hk|(r & Hr & _)]; [exact Hk | inversion Hr].
    + split; [intros path f Hf Hs; exists f; split; assumption|].
      intros r Hr. inversion Hr.
  - apply Forall_cons in Hall as [Hc Hall].
    case_bool_decide as Hfail.
    + destruct (Hc Hfail) as (mask & Hmask). rewrite Hmask.
      unfold io_bind.
      destruct (to_csv _ _ _ fs) as [fs1 [[]|e]] eqn:Hcsv; [|discriminate].
      apply to_csv_written in Hcsv as (p & Hopen & ->).
      set (f0 := CsvText (head 200 (loc df mask))).
      assert (is_sample df f0) as Hf0.
      { eexists. split; [reflexivity|]. rewrite len_head, columns_head, columns_loc.
        split; [lia | reflexivity]. }
      intros Hrun.
      assert (well_named (set_item samples (r_name c)
                            (JStr (path_name (sample_name c))))) as Hnamed1.
      { intros k v. rewrite get_set_item.
        destruct (String.eqb_spec (r_name c) k) as [<-|_]; [intros [= <-]; reflexivity|].
        apply Hnamed. }
      destruct (IH _ _ _ _ Hall Hnamed1 Hrun) as (Hnamed' & Hkeys & Hkeep & Hfiles).
      split; [exact Hnamed'|]. split.
      * intros k. rewrite Hkeys, get_set_item.
        destruct (String.eqb_spec (r_name c) k) as [Hk|Hk].
        -- split; [|intros _; left; eexists; reflexivity].
           intros _. right. exists c. split; [apply list_elem_of_here|]. split; assumption.
        -- split.
           ++ intros [Hs|(r & Hr & Hrf & Hrn)]; [left; exact Hs|].
              right. exists r. split; [apply list_elem_of_further, Hr|]. split; assumption.
           ++ intros [Hs|(r & Hr & Hrf & Hrn)]; [left; exact Hs|].
              apply elem_of_cons in Hr as [->|Hr]; [contradiction|].
              right. exists r. split; [exact Hr|]. split; assumption.
      * split.
        -- intros path f Hf Hs.
           destruct (decide (path = p)) as [->|Hne].
           ++ apply (Hkeep _ f0); [apply lookup_insert_eq | exact Hf0].
           ++ apply (Hkeep _ f); [rewrite lookup_insert_ne by congruence; exact Hf | exact Hs].
        -- intros r Hr Hrf. apply elem_of_cons in Hr as [->|Hr]; [|apply Hfiles; assumption].
           exists p. destruct (Hkeep p f0) as (f' & Hf' & Hs');
             [apply lookup_insert_eq | exact Hf0|].
           exists f'. split; [exact Hopen|]. split; assumption.
    + intros Hrun.
      destruct (IH _ _ _ _ Hall Hnamed Hrun) as (Hnamed' & Hkeys & Hkeep & Hfiles).
      split; [exact Hnamed'|]. split.
      * intros k. rewrite Hkeys. split.
        -- intros [Hs|(r & Hr & Hrf & Hrn)]; [left; exact Hs|].
           right. exists r. split; [apply list_elem_of_further, Hr|]. split; assumption.
        -- intros [Hs|(r & Hr & Hrf & Hrn)]; [left; exact Hs|].
           apply elem_of_cons in Hr as [->|Hr]; [contradiction|].
           right. exists r. split; [exact Hr|]. split; assumption.
      * split; [exact Hkeep|].
        intros r Hr Hrf. apply elem_of_cons in Hr as [->|Hr]; [contradiction|].
        apply Hfiles; assumption.
Qed.

(** The loop returns when every sample file can be opened, and otherwise
    stops with the OSError of the first that cannot. *)
Lemma failure_samples_opens utcnow df checks : forall samples fs,
  Forall (fun r => r_status r = fail ->
            exists mask, sample_mask utcnow df r = Ok (Some mask)) checks ->
  Forall (fun r => r_status r = fail -> sample_opens r) checks ->
  exists fs' samples', failure_samples utcnow df checks samples fs = (fs', Ok samples').
Proof.
  induction checks as [|c checks IH]; intros samples fs Hall Hopens; cbn [failure_samples];
    [eexists _, _; reflexivity|].
  apply Forall_cons in Hall as [Hc Hall]. apply Forall_cons in Hopens as [Ho Hopens].
  case_bool_decide as Hfail; [|apply IH; assumption].
  destruct (Hc Hfail) as (mask & ->). unfold io_bind.
  destruct (to_csv_opens samples_dir (sample_name c) (head 200 (loc df mask)) fs (Ho Hfail))
    as (fs1 & ->).
  apply IH; assumption.
Qed.

Lemma failure_samples_raises utcnow df checks : forall samples fs fs' e,
  Forall (fun r => r_status r = fail ->
            exists mask, sample_mask utcnow df r = Ok (Some mask)) checks ->
  failure_samples utcnow df checks samples fs = (fs', Raise e) ->
  exists r, r ∈ checks /\ r_status r = fail
    /\ open_csv samples_dir (sample_name r) = None
    /\ e = OSError (samples_dir +:+ "/" +:+ sample_name r).
Proof.
  induction checks as [|c checks IH]; intros samples fs fs' e Hall; cbn [failure_samples];
    [discriminate|].
  apply Forall_cons in Hall as [Hc Hall].
  assert (forall samples1 fs1,
            failure_samples utcnow df checks samples1 fs1 = (fs', Raise e) ->
            exists r, r ∈ c :: checks /\ r_status r = fail
              /\ open_csv samples_dir (sample_name r) = None
              /\ e = OSError (samples_dir +:+ "/" +:+ sample_name r)) as Hrest.
  { intros samples1 fs1 Hrun. destruct (IH _ _ _ _ Hall Hrun) as (r & Hr & Hrest).
    exists r. split; [apply list_elem_of_further, Hr | exact Hrest]. }
  case_bool_decide as Hfail; [|apply Hrest].
  destruct (Hc Hfail) as (mask & ->). unfold io_bind.
  destruct (to_csv _ _ _ fs) as [fs1 [[]|e1]] eqn:Hcsv; [apply Hrest|].
  intros [= <- <-]. apply to_csv_raise in Hcsv as (_ & -> & Hopen).
  exists c. split; [apply list_elem_of_here|]. repeat split; assumption.
Qed.

Lemma evaluate_recheckable now df tables ev :
  evaluate now df tables = Ok ev -> Forall (recheckable now df) (checks ev).
Proof.
  unfold evaluate. intros Hev. apply eval_tables_trace in Hev as (rs & -> & _ & Hall).
  rewrite checks_fold. exact Hall.
Qed.

Lemma rechecked_later now later df checks :
  Forall (recheckable now df) checks ->
  Forall (fun r => r_status r = fail ->
            exists mask, sample_mask later df r = Ok (Some mask)) checks.
Proof.
  intros Hev. eapply Forall_impl; [exact Hev|]. intros r Hr Hfail.
  destruct (Hr Hfail) as (mask & Hmask & _).
  destruct (sample_mask_clock now later df r mask Hmask) as (mask' & Hmask' & _).
  exists mask'. exact Hmask'.
Qed.

Lemma failure_samples_returned now later df tables ev fs fs' samples :
  evaluate now df tables = Ok ev ->
  failure_samples later df (checks ev) [] fs = (fs', Ok samples) ->
  (forall r, r ∈ checks ev -> r_status r = fail ->
     exists path sample,
       open_csv samples_dir (sample_name r) = Some path
       /\ fs' !! path = Some (CsvText sample)
       /\ len sample <= 200
       /\ columns sample = columns df
       /\ get samples (r_name r) = Some (JStr (path_name (sample_name r))))
  /\ (forall k, is_Some (get samples k)
        <-> exists r, r ∈ checks ev /\ r_status r = fail /\ r_name r = k).
Proof.
  intros Hev Hrun. apply evaluate_recheckable in Hev.
  destruct (failure_samples_loop later df (checks ev) [] fs fs' samples
              (rechecked_later now later df _ Hev)) as (Hnamed & Hkeys & _ & Hfiles);
    [intros k v [=] | exact Hrun|].
  split.
  - intros r Hr Hfail.
    destruct (Hfiles r Hr Hfail) as (path & f & Hopen & Hf & sample & -> & Hlen & Hcols).
    exists path, sample. split; [exact Hopen|]. split; [exact Hf|].
    split; [exact Hlen|]. split; [exact Hcols|].
    assert (is_Some (get samples (r_name r))) as [v Hv].
    { apply Hkeys. right. exists r. split; [exact Hr|]. split; [exact Hfail | reflexivity]. }
    rewrite Hv. f_equal. apply (Hnamed _ _ Hv).
  - intros k. rewrite Hkeys. split; [|intros Hr; right; exact Hr].
    intros [[v Hv]|Hr]; [discriminate Hv | exact Hr].
Qed.

(** X22.  After an evaluation that returned, the sample loop, at any clock
    reading, returns when the sample file of every failing check can be
    opened, and otherwise raises the OSError of one that cannot.  Where it
    returns, every failing check has a sample file, opened in [failures]
    under its name with dots replaced and [.csv] added, that holds at most
    200 rows under the columns of the dataset; [failure_samples] holds
    exactly the names of the failing checks, each with the last component
    of its file name; no file whose name does not end in [.csv] is touched,
    and with check names that hold no path separator no path outside
    [failures/]. *)
Theorem failure_samples_written (now later : Z) (df : DataFrame)
    (tables : list TableRule) (ev : Evaluation) (fs : files) :
  evaluate now df tables = Ok ev ->
  (Forall (fun r => r_status r = fail -> sample_opens r) (checks ev) ->
     exists fs' samples, failure_samples later df (checks ev) [] fs = (fs', Ok samples))
  /\ (forall fs' e, failure_samples later df (checks ev) [] fs = (fs', Raise e) ->
        exists r, r ∈ checks ev /\ r_status r = fail
          /\ open_csv samples_dir (sample_name r) = None
          /\ e = OSError (samples_dir +:+ "/" +:+ sample_name r))
  /\ (forall fs' samples,
        failure_samples later df (checks ev) [] fs = (fs', Ok samples) ->
        (forall r, r ∈ checks ev -> r_status r = fail ->
           exists path sample,
             open_csv samples_dir (sample_name r) = Some path
             /\ fs' !! path = Some (CsvText sample)
             /\ len sample <= 200
             /\ columns sample = columns df
             /\ get samples (r_name r) = Some (JStr (path_name (sample_name r))))
        /\ (forall k, is_Some (get samples k)
              <-> exists r, r ∈ checks ev /\ r_status r = fail /\ r_name r = k)
        /\ (forall path, ends_with ".csv" (path_name path) = false ->
              fs' !! path = fs !! path)
        /\ (Forall (fun r => r_status r = fail -> plain_name (r_name r) = true)
                   (checks ev) ->
            forall path, in_failures path = false -> fs' !! path = fs !! path)).
Proof.
  intros Hev. pose proof (evaluate_recheckable _ _ _ _ Hev) as Hre.
  pose proof (rechecked_later now later df _ Hre) as Hmasks.
  split; [|split].
  - intros Hopens. apply failure_samples_opens; assumption.
  - intros fs' e Hrun. apply (failure_samples_raises _ _ _ _ _ _ _ Hmasks Hrun).
  - intros fs' samples Hrun.
    destruct (failure_samples_returned now later df tables ev fs fs' samples Hev Hrun)
      as (Hfiles & Hkeys).
    split; [exact Hfiles|]. split; [exact Hkeys|]. split.
    + intros path Hends.
      pose proof (failure_samples_keeps later df (checks ev) path [] Hends fs) as Hframe.
      rewrite Hrun in Hframe. exact Hframe.
    + intros Hplain path Hp.
      pose proof (failure_samples_files later df (checks ev) [] fs path Hplain Hp)
        as Hframe.
      rewrite Hrun in Hframe. exact Hframe.
Qed.

(** X23.  For a failing check of the evaluation, the mask recomputed for its
    sample at the same clock reading has as many set entries as the check's
    count, so the sample holds min(200, count) rows; for every check but a
    [freshness] check the mask does not depend on the clock. *)
Theorem failure_sample_rows (now : Z) (df : DataFrame) (tables : list TableRule)
    (ev : Evaluation) (r : CheckResult) :
  evaluate now df tables = Ok ev ->
  r ∈ checks ev ->
  r_status r = fail ->
  exists mask,
    sample_mask now df r = Ok (Some mask)
    /\ sum_bool mask = r_count r
    /\ len (head 200 (loc df mask)) = Nat.min 200 (r_count r)
    /\ forall later, r_type r <> "freshness" -> sample_mask later df r = Ok (Some mask).
Proof.
  intros Hev Hr Hfail. apply evaluate_recheckable in Hev.
  rewrite Forall_forall in Hev. destruct (Hev r Hr Hfail) as (mask & Hmask & Hsum).
  exists mask. split; [exact Hmask|]. split; [exact Hsum|].
  split; [rewrite len_head; cbn; rewrite Hsum; reflexivity|].
  intros later Hty.
  destruct (sample_mask_clock now later df r mask Hmask) as (mask' & Hmask' & Hsame).
  rewrite Hmask', (Hsame Hty). reflexivity.
Qed.

End Samples.

(** ** checks/run_checks.py: the results document *)

Section Main.
Context `{PandasLib} (dump_params : Params -> json).

Lemma main_inv now later args src tables df fs fs' out :
  main dump_params now later args src tables df fs = (fs', out) ->
  match out with
  | Raise _ => fs' !! results_path = fs !! results_path
  | Ok _ =>
      exists ev samples df' fs1 fs2,
        evaluate now df tables = Ok ev
        /\ failure_samples later df (checks ev) [] fs = (fs1, Ok samples)
        /\ fix_stage args tables df fs1 = (fs2, Ok df')
        /\ fs' = <[results_path :=
                    JsonText (evaluation_json dump_params src ev samples
                                (viz_data args (checks ev) df'))]> fs2
  end.
Proof.
  unfold main. destruct (evaluate now df tables) as [ev|e] eqn:Hev.
  2:{ intros [= <- <-]. reflexivity. }
  unfold io_bind.
  pose proof (failure_samples_keeps later df (checks ev) results_path [] eq_refl fs) as Hs.
  destruct (failure_samples later df (checks ev) [] fs) as [fs1 [samples|e]] eqn:Hsamples;
    cbn [fst] in *.
  2:{ intros [= <- <-]. exact Hs. }
  pose proof (fix_stage_after_loop args tables df results_path
                (kept_fix_tables results_path tables _ results_other)
                ltac:(discriminate) ltac:(discriminate) fs1) as Hf.
  destruct (fix_stage args tables df fs1) as [fs2 [df'|e]] eqn:Hfix; cbn [fst] in *.
  2:{ intros [= <- <-]. congruence. }
  cbn [write]. intros [= <- <-].
  exists ev, samples, df', fs1, fs2. split; [reflexivity|]. split; [exact Hsamples|].
  split; [exact Hfix | reflexivity].
Qed.

(** X24.  A run of the check runner that raises -- in the evaluation, in the
    sample loop or in the fix stage -- leaves [results.json] as it was.  The
    failure samples are written before the fix stage: when the sample loop
    returned and the names of the rules hold no path separator, a failing
    check whose name holds none has its sample on disk after the abort. *)
Theorem main_abort_keeps_results (now later : Z) (args : Args) (src : string)
    (tables : list TableRule) (df : DataFrame) (fs fs' : files) (e : exn) :
  main dump_params now later args src tables df fs = (fs', Raise e) ->
  fs' !! results_path = fs !! results_path
  /\ forall ev fs1 samples,
       evaluate now df tables = Ok ev ->
       failure_samples later df (checks ev) [] fs = (fs1, Ok samples) ->
       Forall plain_names tables ->
       forall r, r ∈ checks ev -> r_status r = fail -> plain_name (r_name r) = true ->
         exists sample, fs' !! sample_path r = Some (CsvText sample) /\ len sample <= 200.
Proof.
  intros Hrun. split; [exact (main_inv _ _ _ _ _ _ _ _ _ Hrun)|].
  intros ev fs1 samples Hev Hsamples Hplain r Hr Hfail Hname.
  unfold main in Hrun. rewrite Hev in Hrun.
  destruct (failure_samples_returned now later df tables ev fs fs1 samples Hev Hsamples)
    as (Hfiles & _).
  unfold io_bind in Hrun. rewrite Hsamples in Hrun.
  destruct (Hfiles r Hr Hfail) as (path & sample & Hopen & Hfile & Hlen & _).
  apply open_csv_plain in Hopen; [|apply plain_sample_name, Hname]. subst path.
  exists sample. split; [|exact Hlen].
  pose proof (fix_stage_files args tables df fs1 (sample_path r) Hplain) as Hf.
  destruct (fix_stage args tables df fs1) as [fs2 [df'|e']]; cbn [fst] in *.
  - discriminate Hrun.
  - injection Hrun as <- _. rewrite Hf; [exact Hfile|].
    split; [reflexivity|]. split; discriminate.
Qed.

Lemma has_status_check_entry st r :
  has_status st (check_entry dump_params r) = String.eqb (status_text (r_status r)) st.
Proof. reflexivity. Qed.

Lemma filter_status_check_entry st l :
  List.filter (has_status st) (map (check_entry dump_params) l)
  = map (check_entry dump_params)
      (List.filter (fun r => String.eqb (status_text (r_status r)) st) l).
Proof.
  induction l as [|r l IH]; [reflexivity|].
  cbn [map List.filter]. rewrite has_status_check_entry.
  destruct (String.eqb _ st); cbn [map]; rewrite IH; reflexivity.
Qed.

Lemma length_filter_pass l :
  length (List.filter (fun r => String.eqb (status_text (r_status r)) "pass") l)
  = length (filter (fun r => r_status r = pass) l).
Proof.
  induction l as [|r l IH]; [reflexivity|].
  cbn [List.filter]. rewrite filter_cons.
  destruct (r_status r); cbn [status_text String.eqb Ascii.eqb Bool.eqb length].
  - rewrite decide_True by reflexivity. cbn [length]. rewrite IH. reflexivity.
  - rewrite decide_False by discriminate. exact IH.
Qed.

Lemma length_filter_fail l :
  length (List.filter (fun r => String.eqb (status_text (r_status r)) "fail") l)
  = length (filter (fun r => r_status r = fail) l).
Proof.
  induction l as [|r l IH]; [reflexivity|].
  cbn [List.filter]. rewrite filter_cons.
  destruct (r_status r); cbn [status_text String.eqb Ascii.eqb Bool.eqb length].
  - rewrite decide_False by discriminate. exact IH.
  - rewrite decide_True by reflexivity. cbn [length]. rewrite IH. reflexivity.
Qed.

Lemma check_entry_is_check_result l :
  Forall is_check_result (map (check_entry dump_params) l).
Proof.
  apply Forall_forall. intros c Hc. apply list_elem_of_fmap in Hc as (r & -> & _).
  split; [eexists; reflexivity | eexists; reflexivity].
Qed.

(** X25.  After a run of the check runner that completes, the summary that
    the orchestrator injects agrees with the document it is added to: its
    [passed] and [failed] equal the counters the runner wrote, and
    [top_failing] holds min(5, failed) entries, each the entry of a failing
    check. *)
Theorem summary_agrees_with_runner (now later : Z) (args : Args) (src : string)
    (tables : list TableRule) (df : DataFrame) (fs fs1 : files) (r : Run) :
  main dump_params now later args src tables df fs = (fs1, Ok tt) ->
  exists ev kv top,
    evaluate now df tables = Ok ev
    /\ fs1 !! results_path = Some (JsonText (JDict kv))
    /\ get kv "passed" = Some (JInt (Z.of_nat (passed ev)))
    /\ get kv "failed" = Some (JInt (Z.of_nat (failed ev)))
    /\ summarise r fs1 !! canonical_results
       = Some (JsonText (JDict (kv ++
           [("summary",
             JDict [("dataset", JStr (dataset r));
                    ("mode", JStr (mode r));
                    ("timestamp", JStr (stamp r));
                    ("passed", JInt (Z.of_nat (passed ev)));
                    ("failed", JInt (Z.of_nat (failed ev)));
                    ("top_failing", JList top)])])))
    /\ length top = Nat.min 5 (failed ev)
    /\ (forall c, c ∈ top ->
          exists r0, r0 ∈ checks ev /\ r_status r0 = fail /\ c = check_entry dump_params r0).
Proof.
  intros Hrun. pose proof (main_inv _ _ _ _ _ _ _ _ _ Hrun) as Hinv. cbn in Hinv.
  destruct Hinv as (ev & samples & df' & fs0 & fs2 & Hev & _ & _ & ->).
  assert (tallied ev) as [Hp Hf].
  { unfold evaluate in Hev. apply eval_tables_trace in Hev as (rs & -> & _ & _).
    apply tallied_fold. split; reflexivity. }
  set (failing := List.filter (has_status "fail") (map (check_entry dump_params) (checks ev))).
  set (top := take 5 (fold_right insert_by_count [] failing)).
  assert (length failing = failed ev) as Hlen.
  { unfold failing. rewrite filter_status_check_entry, length_map.
    rewrite length_filter_fail. symmetry. exact Hf. }
  eexists ev, _, top. split; [exact Hev|].
  split; [apply lookup_insert_eq|].
  split; [reflexivity|]. split; [reflexivity|].
  split.
  - unfold summarise. change canonical_results with results_path.
    rewrite lookup_insert_eq. unfold with_summary. cbn [loads bind].
    assert (forall v, get (match v with
                           | Some v0 => [("viz", viz_json v0)]
                           | None => []
                           end) "summary" = None) as Hviz by (intros [v|]; reflexivity).
    unfold evaluation_json.
    set (kv := _ ++ _).
    assert (get kv "summary" = None) as Hsum by (unfold kv; cbn; apply Hviz).
    assert (get kv "checks" = Some (JList (map (check_entry dump_params) (checks ev))))
      as Hchecks by reflexivity.
    rewrite Hsum, Hchecks. cbn [iter bind].
    rewrite !with_status_filter by apply check_entry_is_check_result. cbn [bind].
    rewrite sorted_by_count_desc_ok
      by (apply Forall_filter_bool, check_entry_is_check_result).
    cbn [bind]. rewrite set_item_fresh by exact Hsum.
    rewrite lookup_insert_eq.
    assert (length (List.filter (has_status "pass") (map (check_entry dump_params) (checks ev)))
            = passed ev) as ->.
    { rewrite filter_status_check_entry, length_map, length_filter_pass.
      symmetry. exact Hp. }
    fold failing. rewrite Hlen. fold top.
    rewrite lookup_insert. case_decide; [reflexivity | apply lookup_insert_eq].
  - split.
    + unfold top. rewrite length_take, (Permutation_length (sort_perm failing)), Hlen.
      reflexivity.
    + intros c Hc. unfold top in Hc. apply subseteq_take in Hc.
      rewrite (sort_perm failing) in Hc. unfold failing in Hc.
      rewrite filter_status_check_entry in Hc.
      apply list_elem_of_fmap in Hc as (r0 & -> & Hr0).
      apply list_elem_of_In, filter_In in Hr0 as [Hin Hst].
      exists r0. split; [apply list_elem_of_In, Hin|]. split; [|reflexivity].
      destruct (r_status r0); [discriminate Hst | reflexivity].
Qed.

End Main.

(** ** run_all.py: the summary block, for every file *)

Lemma with_summary_has_summary r f data :
  with_summary r f = Ok (Some data) ->
  exists kv v, f = JsonText (JDict kv) /\ get kv "summary" = None
    /\ data = JDict (kv ++ [("summary", v)]).
Proof.
  unfold with_summary. destruct f as [j|d|s]; try discriminate.
  cbn [loads bind]. destruct j as [| | | | |l|kv]; try discriminate.
  destruct (get kv "summary") eqn:Hsum; [discriminate|].
  destruct (iter _) as [checks|e]; [|discriminate]. cbn [bind].
  destruct (with_status checks "pass") as [passing|e]; [|discriminate]. cbn [bind].
  destruct (with_status checks "fail") as [failing|e]; [|discriminate]. cbn [bind].
  destruct (sorted_by_count_desc failing) as [ordered|e]; [|discriminate]. cbn [bind].
  intros [= <-]. rewrite set_item_fresh by exact Hsum.
  eexists kv, _. split; [reflexivity|]. split; [exact Hsum | reflexivity].
Qed.

Lemma get_app_fresh kv k v k' :
  get (kv ++ [(k, v)]) k' = match get kv k' with
                            | Some x => Some x
                            | None => if String.eqb k k' then Some v else None
                            end.
Proof.
  induction kv as [|[k0 v0] kv IH]; simpl; [reflexivity|].
  destruct (String.eqb k0 k'); [reflexivity | exact IH].
Qed.

Lemma with_summary_again r kv v :
  with_summary r (JsonText (JDict (kv ++ [("summary", v)]))) = Ok None.
Proof.
  unfold with_summary. cbn [loads bind]. rewrite get_app_fresh.
  destruct (get kv "summary"); reflexivity.
Qed.

(** X26.  Without [results.json] the summary step changes nothing.  With
    it, the step returns whatever the file holds; afterwards the
    descriptive copy equals [results.json], which is either unchanged --
    always so when it already has a summary or is no JSON -- or the loaded
    dictionary with one [summary] item appended; no other path is touched. *)
Theorem summarise_copies (r : Run) (fs : files) :
  (fs !! canonical_results = None -> summarise r fs = fs)
  /\ (forall f, fs !! canonical_results = Some f ->
        exists f',
          summarise r fs !! canonical_results = Some f'
          /\ summarise r fs !! descriptive_results r = Some f'
          /\ (f' = f \/
              exists kv v, f = JsonText (JDict kv) /\ get kv "summary" = None
                /\ f' = JsonText (JDict (kv ++ [("summary", v)])))
          /\ (forall kv, f = JsonText (JDict kv) -> get kv "summary" <> None -> f' = f)
          /\ (forall s, f = OtherText s -> f' = f))
  /\ (forall path, path <> canonical_results -> path <> descriptive_results r ->
        summarise r fs !! path = fs !! path).
Proof.
  unfold summarise. split; [intros ->; reflexivity|]. split.
  - intros f Hf. rewrite Hf.
    destruct (with_summary r f) as [[data|]|e] eqn:Hws.
    + rewrite lookup_insert_eq. eexists. split; [|split; [apply lookup_insert_eq|]].
      * rewrite lookup_insert. case_decide; [reflexivity | apply lookup_insert_eq].
      * apply with_summary_has_summary in Hws as (kv & v & -> & Hsum & ->).
        split; [right; exists kv, v; repeat split; assumption|].
        split; [intros kv' [= <-] Hne; contradiction | intros s [=]].
    + rewrite Hf. exists f. split; [|split; [apply lookup_insert_eq|]].
      * rewrite lookup_insert. case_decide; [reflexivity | exact Hf].
      * split; [left; reflexivity|]. split; reflexivity.
    + rewrite Hf. exists f. split; [|split; [apply lookup_insert_eq|]].
      * rewrite lookup_insert. case_decide; [reflexivity | exact Hf].
      * split; [left; reflexivity|]. split; reflexivity.
  - intros path Hc Hd. destruct (fs !! canonical_results) as [f|] eqn:Hf; [|reflexivity].
    destruct (with_summary r f) as [[data|]|e].
    + rewrite lookup_insert_eq, !lookup_insert_ne by congruence. reflexivity.
    + rewrite Hf, lookup_insert_ne by congruence. reflexivity.
    + rewrite Hf, lookup_insert_ne by congruence. reflexivity.
Qed.

Lemma summarise_settled r fs f :
  fs !! canonical_results = Some f ->
  (forall data, with_summary r f <> Ok (Some data)) ->
  summarise r fs = <[descriptive_results r := f]> fs.
Proof.
  intros Hf Hws. unfold summarise. rewrite Hf.
  destruct (with_summary r f) as [[data|]|e]; [destruct (Hws data eq_refl)|..];
    rewrite Hf; reflexivity.
Qed.

(** X27.  Running the summary step twice, for the same run, leaves the
    files that running it once leaves. *)
Theorem summarise_idempotent (r : Run) (fs : files) :
  summarise r (summarise r fs) = summarise r fs.
Proof.
  assert (summarise r fs = fs \/
          exists f1 fs1,
            summarise r fs = <[descriptive_results r := f1]> fs1
            /\ <[descriptive_results r := f1]> fs1 !! canonical_results = Some f1
            /\ forall data, with_summary r f1 <> Ok (Some data)) as Hcases.
  { unfold summarise. destruct (fs !! canonical_results) as [f|] eqn:Hf; [|left; reflexivity].
    right. destruct (with_summary r f) as [[data|]|e] eqn:Hws.
    - rewrite lookup_insert_eq. eexists _, _. split; [reflexivity|]. split.
      + rewrite lookup_insert. case_decide; [reflexivity | apply lookup_insert_eq].
      + apply with_summary_has_summary in Hws as (kv & v & -> & Hsum & ->).
        intros data. rewrite with_summary_again. discriminate.
    - rewrite Hf. exists f, fs. split; [reflexivity|]. split.
      + rewrite lookup_insert. case_decide; [reflexivity | exact Hf].
      + intros data. rewrite Hws. discriminate.
    - rewrite Hf. exists f, fs. split; [reflexivity|]. split.
      + rewrite lookup_insert. case_decide; [reflexivity | exact Hf].
      + intros data. rewrite Hws. discriminate. }
  destruct Hcases as [Hsame|(f1 & fs1 & Heq & Hcan & Hws)].
  - rewrite Hsame. exact Hsame.
  - rewrite Heq. rewrite (summarise_settled r _ f1 Hcan Hws). apply insert_insert_eq.
Qed.

(** ** run_all.py: the dataset stem *)

Section Stem.
Variable unicode_alnum : N -> bool.

Lemma safe_char_safe c : safe unicode_alnum (safe_char unicode_alnum c).
Proof.
  unfold safe, safe_char.
  destruct (isalnum unicode_alnum c) eqn:Ea; [left; exact Ea|]. cbn [orb].
  destruct (N.eqb_spec c 45) as [->|_]; [right; left; reflexivity|]. cbn [orb].
  destruct (N.eqb_spec c 95) as [->|_]; right; right; reflexivity.
Qed.

Lemma join_safe_chars s : Forall (safe unicode_alnum) (join_safe unicode_alnum s).
Proof.
  induction s as [|c s IH]; [constructor|].
  cbn [join_safe map]. constructor; [apply safe_char_safe | exact IH].
Qed.

Lemma safe_char_fixed c : safe unicode_alnum c -> safe_char unicode_alnum c = c.
Proof.
  unfold safe, safe_char. intros [Ha|[->| ->]]; [rewrite Ha; reflexivity|..].
  - rewrite orb_true_r. reflexivity.
  - rewrite orb_true_r. reflexivity.
Qed.

Lemma data_safe : Forall (safe unicode_alnum) (text "data").
Proof. repeat constructor; left; reflexivity. Qed.

(** X28.  [_safe_stem] never returns the empty text and returns only
    characters that [isalnum] accepts, hyphens and underscores -- hence no
    path separator and no dot; its result is a fixed point of the
    replacement; and for a non-empty stem it has the length of the stem. *)
Theorem safe_stem_is_safe (path_stem : string -> list N) (path : option string) :
  let stem := _safe_stem unicode_alnum path_stem path in
  stem <> []
  /\ Forall (safe unicode_alnum) stem
  /\ (47%N ∉ stem) /\ (46%N ∉ stem)
  /\ join_safe unicode_alnum stem = stem
  /\ (forall p, path = Some p -> p <> "" -> path_stem p <> [] ->
        length stem = length (path_stem p)).
Proof.
  intros stem.
  assert (stem <> [] /\ Forall (safe unicode_alnum) stem) as [Hne Hsafe].
  { subst stem. unfold _safe_stem.
    destruct path as [[|c p]|]; try (split; [discriminate | exact data_safe]).
    pose proof (join_safe_chars (path_stem (String c p))) as Hall.
    destruct (join_safe _ _);
      [split; [discriminate | exact data_safe] | split; [discriminate | exact Hall]]. }
  assert (forall c, ~ safe unicode_alnum c -> c ∉ stem) as Hout.
  { intros c Hc Hin. rewrite Forall_forall in Hsafe. exact (Hc (Hsafe c Hin)). }
  split; [exact Hne|]. split; [exact Hsafe|].
  split; [apply Hout; intros [Ha|[Ha|Ha]]; discriminate Ha|].
  split; [apply Hout; intros [Ha|[Ha|Ha]]; discriminate Ha|].
  split.
  - clear Hne Hout. induction stem as [|c s IH]; [reflexivity|].
    apply Forall_cons in Hsafe as [Hc Hs].
    cbn [join_safe map]. rewrite (safe_char_fixed c Hc). f_equal. exact (IH Hs).
  - intros p -> Hp Hstem. subst stem. unfold _safe_stem. destruct p as [|c p]; [contradiction|].
    assert (length (join_safe unicode_alnum (path_stem (String c p)))
            = length (path_stem (String c p))) as Hlen by apply length_map.
    destruct (join_safe _ _) eqn:E; [|exact Hlen].
    destruct (path_stem (String c p)); [contradiction | discriminate Hlen].
Qed.

End Stem.

(** ** checks/run_checks.py: the grid of the null heatmap *)

(** X29.  The grid of the null heatmap has one row per row of the first ten
    of the dataset and one entry per heatmap column, in their order: the
    entry is 1 when the cell of that row in that column is missing and 0
    otherwise.  For the columns the runner selects the grid is at most ten
    rows by fourteen entries. *)
Theorem heatmap_grid_cells (df : DataFrame) (cols : list string) :
  length (heatmap_grid df cols) = Nat.min 10 (len df)
  /\ (forall row, row ∈ heatmap_grid df cols -> length row = length cols)
  /\ (forall i j c, i < Nat.min 10 (len df) -> cols !! j = Some c ->
        exists row,
          heatmap_grid df cols !! i = Some row
          /\ row !! j = Some (if isna (cell_at df c i) then 1 else 0))
  /\ (forall checks,
        length (heatmap_grid df (heatmap_cols checks df)) <= 10
        /\ forall row, row ∈ heatmap_grid df (heatmap_cols checks df) -> length row <= 14).
Proof.
  assert (forall l, length (heatmap_grid df l) = Nat.min 10 (len df)) as Hrows
    by (intros l; unfold heatmap_grid; rewrite length_map, length_seq; reflexivity).
  assert (forall l row, row ∈ heatmap_grid df l -> length row = length l) as Hwidth.
  { intros l row Hrow. unfold heatmap_grid in Hrow.
    apply list_elem_of_fmap in Hrow as (i & -> & _). apply length_map. }
  split; [apply Hrows|]. split; [apply Hwidth|]. split.
  - intros i j c Hi Hj. unfold heatmap_grid. eexists. split.
    + rewrite list_lookup_fmap, lookup_seq_lt by exact Hi. reflexivity.
    + rewrite list_lookup_fmap, Hj. reflexivity.
  - intros checks. split; [rewrite Hrows; lia|].
    intros row Hrow. rewrite (Hwidth _ _ Hrow).
    unfold heatmap_cols. rewrite length_take. lia.
Qed.

(** ** Worked runs *)


(** The run of [test_range_validation]: 25 and -3 lie outside 0..20. *)
Lemma range_check_witness :
  exists r,
    eval_columns (H:=Reference.lib) march_10 amounts "test"
      [mkColumnRule "amount" [amount_check]] empty_evaluation
    = Ok (append empty_evaluation r)
    /\ r_count r = 2 /\ r_status r = fail.
Proof.
  destruct (range_check (H:=Reference.lib) march_10 amounts "test" "amount"
              amount_column amount_check empty_evaluation eq_refl eq_refl)
    as (r & Hrun & _ & _ & Hcount & Hfail & _).
  { left. discriminate. }
  exists r. split; [exact Hrun|].
  assert (r_count r = 2) as Htwo by (rewrite Hcount; vm_compute; reflexivity).
  split; [exact Htwo|]. apply Hfail. rewrite Htwo. lia.
Defined.

(** Two failing [null_rate] checks on [tickets]. *)
Lemma evaluate_totals_witness :
  exists ev,
    evaluate (H:=Reference.lib) march_10 tickets null_rate_rules = Ok ev
    /\ failed ev = 2
    /\ passed ev + failed ev = length (checks ev).
Proof.
  pose (run := evaluate (H:=Reference.lib) march_10 tickets null_rate_rules).
  pose (ev := match run with Ok ev => ev | Raise _ => empty_evaluation end).
  assert (run = Ok ev) as Hrun by (vm_compute; reflexivity).
  destruct (evaluate_totals (H:=Reference.lib) march_10 tickets null_rate_rules ev Hrun)
    as (_ & Hfailed & Htotal).
  exists ev. split; [exact Hrun|]. split; [|exact Htotal].
  rewrite Hfailed. vm_compute. reflexivity.
Defined.

(** A table check of another type and the rule of an absent column leave no
    result. *)
Lemma evaluate_result_names_witness :
  exists ev,
    evaluate (H:=Reference.lib) march_10 orders mixed_rules = Ok ev
    /\ map r_name (checks ev) = ["test.duplicate"; "test.amount.range"].
Proof.
  pose (run := evaluate (H:=Reference.lib) march_10 orders mixed_rules).
  pose (ev := match run with Ok ev => ev | Raise _ => empty_evaluation end).
  assert (run = Ok ev) as Hrun by (vm_compute; reflexivity).
  exists ev. split; [exact Hrun|].
  rewrite (evaluate_result_names (H:=Reference.lib) march_10 orders mixed_rules ev Hrun).
  vm_compute. reflexivity.
Defined.

(** A [duplicate] check on a label that [orders] does not have. *)
Lemma evaluation_aborts_witness :
  exists e, evaluate (H:=Reference.lib) march_10 orders ghost_rules = Raise e.
Proof.
  apply (evaluation_aborts (H:=Reference.lib) march_10 orders ghost_rules).
  left. split; [vm_compute; lia|].
  apply (bool_decide_unpack _). vm_compute. reflexivity.
Defined.



(** The text column [abc, 25] clipped to 0..20, then clipped again. *)
Lemma clip_range_within_bounds_witness :
  exists fs' df' report',
    clip_range (H:=Reference.lib) payments "amount" (Some 0%Q) (Some 20%Q)
      new_report "t" quarantine_dir ∅ = (fs', Ok (df', report'))
    /\ clip_range (H:=Reference.lib) df' "amount" (Some 0%Q) (Some 20%Q)
         report' "t" quarantine_dir fs' = (fs', Ok (df', report')).
Proof.
  destruct (clip_range_within_bounds (H:=Reference.lib) payments "amount"
              (Some 0%Q) (Some 20%Q) new_report "t" quarantine_dir ∅
              (mkSeries "amount" object [Str "abc"; Str "25"]) eq_refl)
    as [Hreturns Hfacts].
  destruct Hreturns as (fs' & df' & report' & Hrun); [eexists; vm_compute; reflexivity|].
  destruct (Hfacts fs' df' report' Hrun) as (col' & _ & _ & Hagain).
  exists fs', df', report'. split; [exact Hrun | exact Hagain].
Defined.

(** [amounts] against 0..20: two cells are clipped, as the check counts. *)
Lemma clip_range_counts_like_range_check_witness :
  exists fs' df' report',
    clip_range (H:=Reference.lib) amounts "amount" (Some 0%Q) (Some 20%Q)
      new_report "t" quarantine_dir ∅ = (fs', Ok (df', report'))
    /\ map affected (actions report') = [2].
Proof.
  destruct (clip_range_counts_like_range_check (H:=Reference.lib) amounts "amount"
              (Some 0%Q) (Some 20%Q) new_report "t" quarantine_dir ∅ amount_column eq_refl)
    as [Hreturns Hfacts].
  { left. discriminate. }
  { intros l h [= <-] [= <-]. vm_compute. discriminate. }
  destruct Hreturns as (fs' & df' & report' & Hrun); [eexists; vm_compute; reflexivity|].
  destruct (Hfacts fs' df' report' Hrun) as (mask & _ & Hsum & Hreport & _).
  exists fs', df', report'. split; [exact Hrun|].
  rewrite Hreport, Hsum. vm_compute. reflexivity.
Defined.

(** One date out of three values parses; two are reported. *)
Lemma parse_dates_normalises_witness :
  exists fs' df' report' col',
    parse_dates (H:=Reference.lib) events "seen" None new_report "t" quarantine_dir ∅
    = (fs', Ok (df', report'))
    /\ getitem df' "seen" = Some col'
    /\ s_values col' = [Str "not-a-date"; Str "soon"; Ts 1709164800000000000]
    /\ map affected (actions report') = [2].
Proof.
  destruct (parse_dates_normalises (H:=Reference.lib) events "seen" None new_report "t"
              quarantine_dir ∅
              (mkSeries "seen" object [Str "not-a-date"; Str "soon"; Str "2024-02-29"])
              eq_refl) as [Hreturns Hfacts].
  destruct Hreturns as (fs' & df' & report' & Hrun); [eexists; vm_compute; reflexivity|].
  destruct (Hfacts fs' df' report' Hrun) as (col' & Hcol & Hvalues & _ & Hreport & _).
  exists fs', df', report', col'. split; [exact Hrun|]. split; [exact Hcol|].
  split; [rewrite Hvalues | rewrite Hreport]; vm_compute; reflexivity.
Defined.

(** [orders] without its repeated id, then dropped again. *)
Lemma drop_exact_duplicates_leaves_none_witness :
  exists fs' df' report',
    drop_exact_duplicates (H:=Reference.lib) orders (Some ["id"]) new_report "t"
      quarantine_dir ∅ = (fs', Ok (df', report'))
    /\ len df' = 3
    /\ drop_exact_duplicates (H:=Reference.lib) df' (Some ["id"]) report' "t"
         quarantine_dir fs' = (fs', Ok (df', report')).
Proof.
  pose (run := drop_exact_duplicates (H:=Reference.lib) orders (Some ["id"]) new_report "t"
                 quarantine_dir ∅).
  pose (st := match run.2 with Ok st => st | Raise _ => (orders, new_report) end).
  assert (run = (run.1, Ok (st.1, st.2))) as Hrun by (vm_compute; reflexivity).
  destruct (drop_exact_duplicates_leaves_none (H:=Reference.lib) _ _ _ _ _ _ _ _ _ Hrun)
    as (_ & _ & _ & Hagain).
  exists run.1, st.1, st.2. split; [exact Hrun|]. split; [vm_compute; reflexivity | exact Hagain].
Defined.

(** [contacts] trimmed twice. *)
Lemma trim_strings_idempotent_witness :
  let first := trim_strings (H:=Reference.lib) contacts (columns contacts) new_report "t" in
  trim_strings (H:=Reference.lib) first.1 (columns first.1) first.2 "t" = (first.1, first.2).
Proof.
  apply (trim_strings_idempotent (H:=Reference.lib) contacts new_report "t").
  apply (bool_decide_unpack _). reflexivity.
Defined.

(** The missing name of [contacts] is the text [nan] after trimming: nothing
    is left to fill. *)
Lemma fill_nulls_after_trim_strings_witness :
  let df1 := (trim_strings (H:=Reference.lib) contacts (columns contacts) new_report "t").1 in
  fill_nulls (H:=Reference.lib) df1 "name" (Str "unknown") new_report "t" = (df1, new_report).
Proof.
  assert (NoDup (columns contacts)) as Hnd by (apply (bool_decide_unpack _); reflexivity).
  destruct (fill_nulls_after_trim_strings (H:=Reference.lib) contacts new_report "t" "name"
              (mkSeries "name" object [Str " ann "; NaN; Str "bob"]) (Str "unknown")
              Hnd eq_refl eq_refl) as [_ Hfill].
  apply Hfill.
Defined.

(** A real fix of the ledger leaves [results.json] alone. *)
Lemma fix_stage_writes_only_witness :
  (fix_stage (H:=Reference.lib) real_fix ledger_rules ledger ∅).1 !! "results.json"
  = (∅ : files) !! "results.json".
Proof.
  apply (fix_stage_writes_only (H:=Reference.lib) real_fix ledger_rules ledger ∅ "results.json");
    [apply (bool_decide_unpack _); vm_compute; reflexivity
    | reflexivity | discriminate | discriminate].
Defined.

(** A real fix of the ledger writes the returned frame. *)
Lemma cleaned_csv_written_by_real_fix_witness :
  exists fs' df',
    fix_stage (H:=Reference.lib) real_fix ledger_rules ledger ∅ = (fs', Ok df')
    /\ fs' !! cleaned_path = Some (CsvText df').
Proof.
  pose (run := fix_stage (H:=Reference.lib) real_fix ledger_rules ledger ∅).
  pose (df' := match run.2 with Ok df' => df' | Raise _ => ledger end).
  assert (run = (run.1, Ok df')) as Hrun by (vm_compute; reflexivity).
  destruct (cleaned_csv_written_by_real_fix (H:=Reference.lib) _ _ _ _ _ _ Hrun)
    as (_ & _ & Hwritten).
  exists run.1, df'. split; [exact Hrun | exact (Hwritten eq_refl df' eq_refl)].
Defined.

(** A header without rows, and a subset that names no column: no report. *)
Lemma fix_stage_empty_dataset_witness :
  exists fs' df',
    fix_stage (H:=Reference.lib) real_fix (ghost_rules ++ ledger_rules) no_rows ∅
    = (fs', Ok df')
    /\ len df' = 0
    /\ fs' !! fix_report_path = None.
Proof.
  destruct (fix_stage_empty_dataset (H:=Reference.lib) real_fix
              (ghost_rules ++ ledger_rules) no_rows ∅ eq_refl)
    as (fs' & df' & Hrun & Hlen & Hfile).
  { repeat constructor. }
  exists fs', df'. split; [exact Hrun|]. split; [exact Hlen | exact Hfile].
Defined.

(** One row dropped and one cell clipped. *)
Lemma every_action_counts_once_witness :
  exists fs' st,
    fix_tables (H:=Reference.lib) (duplicate_rules ++ ledger_rules)
      (orders, initial_report orders) ∅ = (fs', Ok st)
    /\ sum_list (map affected (actions (final_report st))) = 2
    /\ cell_changes (final_report st) = 1.
Proof.
  pose (run := fix_tables (H:=Reference.lib) (duplicate_rules ++ ledger_rules)
                 (orders, initial_report orders) ∅).
  pose (st := match run.2 with Ok st => st | Raise _ => (orders, new_report) end).
  assert (run = (run.1, Ok st)) as Hrun by (vm_compute; reflexivity).
  destruct (every_action_counts_once (H:=Reference.lib) _ _ _ _ _ Hrun) as [Hsum _].
  exists run.1, st. split; [exact Hrun|]. split; [rewrite <- Hsum|]; vm_compute; reflexivity.
Defined.

(** The failing range check of [amounts] and its sample. *)
Lemma failure_samples_written_witness :
  exists ev fs' samples,
    evaluate (H:=Reference.lib) march_10 amounts range_rules = Ok ev
    /\ failure_samples (H:=Reference.lib) march_10 amounts (checks ev) [] ∅
       = (fs', Ok samples)
    /\ samples = [("test.amount.range", JStr "test_amount_range.csv")]
    /\ forall path, in_failures path = false -> fs' !! path = None.
Proof.
  pose (run := evaluate (H:=Reference.lib) march_10 amounts range_rules).
  pose (ev := match run with Ok ev => ev | Raise _ => empty_evaluation end).
  assert (run = Ok ev) as Hev by (vm_compute; reflexivity).
  destruct (failure_samples_written (H:=Reference.lib) march_10 march_10 amounts range_rules
              ev ∅ Hev) as (Hreturns & _ & Hfacts).
  destruct Hreturns as (fs' & samples & Hrun).
  { repeat constructor. intros _. eexists. vm_compute. reflexivity. }
  destruct (Hfacts fs' samples Hrun) as (_ & _ & _ & Hframe).
  exists ev, fs', samples. split; [exact Hev|]. split; [exact Hrun|]. split.
  - vm_compute in Hrun. injection Hrun as _ <-. reflexivity.
  - intros path Hp. rewrite (Hframe ltac:(repeat constructor) path Hp). apply lookup_empty.
Defined.

(** Two rows of [amounts] are out of range: the sample has two rows. *)
Lemma failure_sample_rows_witness :
  exists ev r mask,
    evaluate (H:=Reference.lib) march_10 amounts range_rules = Ok ev
    /\ checks ev = [r]
    /\ sample_mask (H:=Reference.lib) march_10 amounts r = Ok (Some mask)
    /\ len (head 200 (loc amounts mask)) = 2.
Proof.
  pose (run := evaluate (H:=Reference.lib) march_10 amounts range_rules).
  pose (ev := match run with Ok ev => ev | Raise _ => empty_evaluation end).
  assert (run = Ok ev) as Hev by (vm_compute; reflexivity).
  pose (r := match checks ev with r :: _ => r | [] => mkCheckResult "" "" None "" pass 0 no_params end).
  assert (checks ev = [r]) as Hchecks by (vm_compute; reflexivity).
  destruct (failure_sample_rows (H:=Reference.lib) march_10 amounts range_rules ev r Hev)
    as (mask & Hmask & _ & Hrows & _).
  { rewrite Hchecks. apply list_elem_of_here. }
  { vm_compute. reflexivity. }
  exists ev, r, mask. split; [exact Hev|]. split; [exact Hchecks|].
  split; [exact Hmask | rewrite Hrows; vm_compute; reflexivity].
Defined.

(** A dry run that the cell-change guardrail aborts: the sample is there,
    [results.json] is not. *)
Lemma main_abort_keeps_results_witness :
  exists fs' e,
    main (H:=Reference.lib) subset_only march_10 march_10 dry_run "payments.csv"
      range_rules payments ∅ = (fs', Raise e)
    /\ fs' !! results_path = None
    /\ is_Some (fs' !! "failures/test_amount_range.csv").
Proof.
  pose (run := main (H:=Reference.lib) subset_only march_10 march_10 dry_run "payments.csv"
                 range_rules payments ∅).
  pose (e := match run.2 with Raise e => e | Ok _ => JSONDecodeError end).
  assert (run = (run.1, Raise e)) as Hrun by (vm_compute; reflexivity).
  destruct (main_abort_keeps_results (H:=Reference.lib) subset_only _ _ _ _ _ _ _ _ _ Hrun)
    as [Hresults _].
  exists run.1, e. split; [exact Hrun|]. split; [rewrite Hresults; apply lookup_empty|].
  vm_compute. eexists. reflexivity.
Defined.

(** A plain run on [tickets], then the summary. *)
Lemma summary_agrees_with_runner_witness :
  exists fs1 top,
    main (H:=Reference.lib) subset_only march_10 march_10 plain "tickets.csv"
      null_rate_rules tickets ∅ = (fs1, Ok tt)
    /\ (exists kv,
          summarise plain_run fs1 !! canonical_results
          = Some (JsonText (JDict (kv ++
              [("summary",
                JDict [("dataset", JStr "orders.csv");
                       ("mode", JStr "plain");
                       ("timestamp", JStr "20250101-1200");
                       ("passed", JInt 0);
                       ("failed", JInt 2);
                       ("top_failing", JList top)])]))))
    /\ length top = 2.
Proof.
  pose (run := main (H:=Reference.lib) subset_only march_10 march_10 plain "tickets.csv"
                 null_rate_rules tickets ∅).
  assert (run = (run.1, Ok tt)) as Hrun by (vm_compute; reflexivity).
  destruct (summary_agrees_with_runner (H:=Reference.lib) subset_only _ _ _ _ _ _ _ _
              plain_run Hrun)
    as (ev & kv & top & Hev & _ & _ & _ & Hsummary & Hlen & _).
  vm_compute in Hev. injection Hev as <-.
  exists run.1, top. split; [exact Hrun|]. split; [exists kv; exact Hsummary | exact Hlen].
Defined.

(** [amounts] clipped to 0..20: the range check finds nothing afterwards. *)
Lemma range_check_passes_after_clip_witness :
  exists fs' df' report' col' mask,
    clip_range (H:=Reference.lib) amounts "amount" (Some 0%Q) (Some 20%Q)
      new_report "t" quarantine_dir ∅ = (fs', Ok (df', report'))
    /\ getitem df' "amount" = Some col'
    /\ _mask_range (H:=Reference.lib) (s_values col') (Some 0%Q) (Some 20%Q) = Ok mask
    /\ sum_bool mask = 0.
Proof.
  pose (run := clip_range (H:=Reference.lib) amounts "amount" (Some 0%Q) (Some 20%Q)
                 new_report "t" quarantine_dir ∅).
  pose (st := match run.2 with Ok st => st | Raise _ => (amounts, new_report) end).
  assert (run = (run.1, Ok (st.1, st.2))) as Hrun by (vm_compute; reflexivity).
  destruct (range_check_passes_after_clip (H:=Reference.lib) amounts "amount"
              (Some 0%Q) (Some 20%Q) new_report "t" quarantine_dir ∅ run.1 amount_column
              st.1 st.2 eq_refl)
    as (col' & mask & Hcol & Hmask & Hsum & _).
  { left. discriminate. }
  { intros l h [= <-] [= <-]. vm_compute. discriminate. }
  { exact Hrun. }
  exists run.1, st.1, st.2, col', mask. split; [exact Hrun|].
  split; [exact Hcol|]. split; [exact Hmask | exact Hsum].
Defined.

(** The dates of [visits], normalised: the same row is flagged. *)
Lemma freshness_unchanged_by_parse_dates_witness :
  exists fs' df' report' col',
    parse_dates (H:=Reference.lib) visits "seen" None new_report "t" quarantine_dir ∅
    = (fs', Ok (df', report'))
    /\ getitem df' "seen" = Some col'
    /\ _mask_freshness (H:=Reference.lib) march_10 (s_values col') (Some 5%Z) None
       = [false; true; false].
Proof.
  pose (run := parse_dates (H:=Reference.lib) visits "seen" None new_report "t"
                 quarantine_dir ∅).
  pose (st := match run.2 with Ok st => st | Raise _ => (visits, new_report) end).
  assert (run = (run.1, Ok (st.1, st.2))) as Hrun by (vm_compute; reflexivity).
  destruct (freshness_unchanged_by_parse_dates (H:=Reference.lib) march_10 visits "seen" None
              new_report "t" quarantine_dir ∅ run.1
              (mkSeries "seen" object [Str "2024-03-05"; Str "2024-03-04"; NaN])
              st.1 st.2 eq_refl Hrun)
    as (col' & Hcol & Hsame).
  { intros c Hc [Hn Hfail]. cbn [s_values] in Hc.
    apply elem_of_cons in Hc as [->|Hc]; [vm_compute in Hfail; discriminate|].
    apply elem_of_cons in Hc as [->|Hc]; [vm_compute in Hfail; discriminate|].
    apply elem_of_cons in Hc as [->|Hc]; [exact (Hn eq_refl) | inversion Hc]. }
  exists run.1, st.1, st.2, col'. split; [exact Hrun|]. split; [exact Hcol|].
  rewrite Hsame. vm_compute. reflexivity.
Defined.

(** Against five days on 2024-03-10: a date six days back is flagged, one
    five days back is not. *)
Lemma freshness_age_boundary_witness :
  _mask_freshness (H:=Reference.lib) march_10
    [Str "2024-03-05"; Str "2024-03-04"; Str "soon"] (Some 5%Z) None !! 1 = Some true
  /\ _mask_freshness (H:=Reference.lib) march_10
       [Str "2024-03-05"; Str "2024-03-04"; Str "soon"] (Some 5%Z) None !! 0 = Some false.
Proof.
  destruct (freshness_age_boundary (H:=Reference.lib) march_10
              [Str "2024-03-05"; Str "2024-03-04"; Str "soon"] 5 None 1 (Str "2024-03-04")
              eq_refl) as [Hold _].
  destruct (freshness_age_boundary (H:=Reference.lib) march_10
              [Str "2024-03-05"; Str "2024-03-04"; Str "soon"] 5 None 0 (Str "2024-03-05")
              eq_refl) as [_ Hfresh].
  split.
  - apply Hold. right. eexists. split; [vm_compute; reflexivity | vm_compute; discriminate].
  - eapply Hfresh; [vm_compute; reflexivity | vm_compute; reflexivity].
Defined.
